(** * BiblioControl: the loan lifecycle, the dashboard rules and the backup codec

    A shallow embedding of [src/App.tsx], [src/services/supabaseService.ts],
    [src/services/storageService.ts] and [src/types.ts], followed by the
    properties the specification states about them.

    Conventions of the embedding.
    - A [Date] is the instant it denotes, in milliseconds since the epoch.  An
      ISO-8601 timestamp string (the [loanDate], [dueDate] and [returnDate]
      fields) is represented by the instant it spells: [toISOString] and
      [parseISO] are inverse to each other on such strings.
    - The local calendar is that of the host's time zone, through
      ECMAScript's [LocalTZA]: the offset from UTC may change from one
      instant to another (daylight-saving transitions).
    - What the JavaScript host and the database decide (case folding,
      trimming, the time zone, collation, generated identifiers) is a field
      of [Platform].
    - An [await]ed call either resolves or rejects; which remote request
      fails is read from a fault plan carried by the remote store. *)

From Stdlib Require Import ZArith List String Ascii Bool Lia.
From Stdlib Require Import Permutation Sorted.
From Stdlib Require Decimal DecimalString DecimalPos DecimalN DecimalFacts.
Import ListNotations.
Open Scope string_scope.
Open Scope Z_scope.

(** ** The host platform *)

Definition instant := Z.
Definition timestamp := Z.

Class Platform := {
  (** [String.prototype.toLowerCase] *)
  toLowerCase : string -> string;
  (** [String.prototype.trim] *)
  trim : string -> string;
  (** ECMAScript's [LocalTZA(t, isUTC)]: the offset of local time from UTC,
      in milliseconds, in force at the instant [t] when [isUTC] holds, and
      the offset the host resolves the wall-clock reading [t] with
      otherwise *)
  LocalTZA : Z -> bool -> Z;
  (** the collation [ORDER BY] uses on text columns *)
  collate_leb : string -> string -> bool;
  (** the identifier the database gives to its n-th inserted row *)
  gen_random_uuid : nat -> string
}.

(** ** JavaScript values of the truthiness tests *)

Module JS.

(** [!!s] for a string. *)
Definition truthy_string (s : string) : bool := negb (String.eqb s EmptyString).

(** [!!x] for a value that is [null]/[undefined] or an object. *)
Definition truthy_object {A} (x : option A) : bool :=
  match x with Some _ => true | None => false end.

(** [!!x] for [x : string | null] holding a timestamp: an ISO-8601 string is
    never empty. *)
Definition truthy_timestamp (x : option timestamp) : bool :=
  match x with Some _ => true | None => false end.

(** [a ?? b] with [b = null]: [undefined] and [null] both become [null]. *)
Definition nullish_null {A} (x : option (option A)) : option A :=
  match x with Some v => v | None => None end.

(** [a || b] on numbers, as [compareLocalAsc] chains its differences. *)
Definition or_else (a b : Z) : Z := if a =? 0 then b else a.

End JS.

(** ** date-fns, over the local calendar of the host

    A [Date] holds an instant; its local fields are those of ECMAScript's
    [LocalTime], and setting local fields goes through [UTC], which resolves
    a wall-clock reading with the offset the zone has there (a reading
    skipped when the clocks go forward resolves to a later reading, one
    repeated when they go back to one of its two instants). *)

Module DateFns.
Section WithPlatform.
Context {P : Platform}.

Definition millisecondsInDay : Z := 86400000.

(** ECMAScript's [LocalTime(t)] and [UTC(t)]: the wall-clock reading of an
    instant, as a time value, and the instant a wall-clock reading resolves
    to. *)
Definition LocalTime (t : instant) : Z := t + LocalTZA t true.
Definition UTC (t : Z) : instant := t - LocalTZA t false.

(** Local calendar day (days since the epoch) and local time of day of an
    instant: what [getFullYear]/[getMonth]/[getDate] and
    [getHours]/.../[getMilliseconds] decompose. *)
Definition localDay (t : instant) : Z := LocalTime t / millisecondsInDay.
Definition localTime (t : instant) : Z := LocalTime t mod millisecondsInDay.

(** The instant the host makes of a calendar day and a time of day. *)
Definition ofLocal (day time : Z) : instant := UTC (day * millisecondsInDay + time).

(** [date.setDate(n)]: move to calendar day [day], keep the time of day. *)
Definition setDate (t : instant) (day : Z) : instant := ofLocal day (localTime t).

Definition toISOString (d : instant) : timestamp := d.
Definition parseISO (s : timestamp) : instant := s.

(** [addDays(date, amount)]: [if (!amount) return date;
    date.setDate(date.getDate() + amount)]. *)
Definition addDays (t : instant) (amount : Z) : instant :=
  if amount =? 0 then t else setDate t (localDay t + amount).

(** [startOfDay(date)]: [date.setHours(0, 0, 0, 0)]. *)
Definition startOfDay (t : instant) : instant := ofLocal (localDay t) 0.

(** [isAfter(date, dateToCompare)]: [+date > +dateToCompare]. *)
Definition isAfter (date dateToCompare : instant) : bool := dateToCompare <? date.

(** [compareLocalAsc]: the sign of the first non-zero difference among the
    local calendar fields, most significant first. *)
Definition compareLocalAsc (l r : instant) : Z :=
  let diff := JS.or_else (localDay l - localDay r) (localTime l - localTime r) in
  if diff <? 0 then -1 else if 0 <? diff then 1 else diff.

(** [Math.round(n / d)] for positive [d]. *)
Definition Math_round_div (n d : Z) : Z := (2 * n + d) / (2 * d).

(** [getTimezoneOffsetInMilliseconds(date)]: the instant minus the UTC time
    value built from its local fields. *)
Definition getTimezoneOffsetInMilliseconds (t : instant) : Z := t - LocalTime t.

(** [differenceInCalendarDays]: the two starts of day, each corrected by its
    time-zone offset, subtracted and rounded to whole days. *)
Definition differenceInCalendarDays (l r : instant) : Z :=
  let laterStartOfDay := startOfDay l in
  let earlierStartOfDay := startOfDay r in
  let laterTimestamp :=
    laterStartOfDay - getTimezoneOffsetInMilliseconds laterStartOfDay in
  let earlierTimestamp :=
    earlierStartOfDay - getTimezoneOffsetInMilliseconds earlierStartOfDay in
  Math_round_div (laterTimestamp - earlierTimestamp) millisecondsInDay.

(** [differenceInDays(laterDate, earlierDate)]: the number of full days
    between the two dates. *)
Definition differenceInDays (l r : instant) : Z :=
  let sign := compareLocalAsc l r in
  let difference := Z.abs (differenceInCalendarDays l r) in
  let l' := setDate l (localDay l - sign * difference) in
  let isLastDayNotFull := if compareLocalAsc l' r =? - sign then 1 else 0 in
  sign * (difference - isLastDayNotFull).

(** *** Vocabulary for time zones *)

(** The wall-clock reading [x] is one the zone shows: the instant it
    resolves to reads [x].  A reading skipped when the clocks go forward is
    not. *)
Definition wall_clock_exists (x : Z) : Prop := LocalTime (UTC x) = x.

(** Calendar day [d] begins on the day itself, within its first twelve
    hours: at midnight or, where midnight is skipped, at the reading the
    clocks go forward to. *)
Definition day_begins (d : Z) : Prop :=
  d * millisecondsInDay <= LocalTime (UTC (d * millisecondsInDay))
  < d * millisecondsInDay + 43200000.

(** A zone whose offset never changes. *)
Definition constant_offset : Prop := exists c, forall t b, LocalTZA t b = c.

(** What the statements about several dates ask of a zone: a reading the
    zone shows resolves to an instant with that reading, every day begins on
    itself, and the calendar day never goes back as time passes. *)
Definition regular_zone : Prop :=
  (forall t, wall_clock_exists (LocalTime t))
  /\ (forall d, day_begins d)
  /\ (forall t1 t2, t1 <= t2 -> localDay t1 <= localDay t2).

End WithPlatform.
End DateFns.

(** ** src/types.ts *)

Module Book.
Record t := {
  id : string;
  title : string;
  author : string;
  year : Z;
  publisher : string;
  isbn : string;
  barcode : option string;
  editionYear : Z;
  location : string;
  collection : option string
}.
End Book.

(** [Omit<Book, 'id'>]: what the book form builds. *)
Module BookData.
Record t := {
  title : string;
  author : string;
  year : Z;
  publisher : string;
  isbn : string;
  barcode : option string;
  editionYear : Z;
  location : string;
  collection : option string
}.
End BookData.

Module Student.
Record t := {
  id : string;
  name : string;
  class : string
}.
End Student.

Module StudentData.
Record t := {
  name : string;
  class : string
}.
End StudentData.

(** [bookId] is declared [string]; [rowToLoan] casts a nullable column into
    it, so the field is [null] when the column is. *)
Module Loan.
Record t := {
  id : string;
  studentName : string;
  studentClass : string;
  bookId : option string;
  bookTitle : string;
  loanDate : timestamp;
  dueDate : timestamp;
  returnDate : option timestamp
}.
End Loan.

(** [Partial<Loan>], as [loanToRow] receives it: [None] is an absent
    ([undefined]) field; [returnDate] may also be present and [null]. *)
Module PartialLoan.
Record t := {
  studentName : option string;
  studentClass : option string;
  bookId : option string;
  bookTitle : option string;
  loanDate : option timestamp;
  dueDate : option timestamp;
  returnDate : option (option timestamp)
}.
Definition empty : t :=
  {| studentName := None; studentClass := None; bookId := None;
     bookTitle := None; loanDate := None; dueDate := None;
     returnDate := None |}.
End PartialLoan.

Record LibraryData := {
  books : list Book.t;
  students : list Student.t;
  loans : list Loan.t
}.

(** ** The remote tables behind the Supabase client *)

Module BookRow.
Record t := {
  id : string;
  title : string;
  author : string;
  year : Z;
  publisher : string;
  isbn : string;
  barcode : option string;
  edition_year : Z;
  location : string;
  collection : option string
}.
End BookRow.

Module StudentRow.
Record t := {
  id : string;
  name : string;
  class : string
}.
End StudentRow.

Module LoanRow.
Record t := {
  id : string;
  student_name : string;
  student_class : string;
  book_id : option string;
  book_title : string;
  loan_date : timestamp;
  due_date : timestamp;
  return_date : option timestamp
}.
End LoanRow.

(** The body of an insert or update request on [loans].  The client sends
    the object through [JSON.stringify]: a key whose value is [undefined] is
    left out ([None]), a key whose value is [null] is sent ([Some None]). *)
Module LoanPatch.
Record t := {
  student_name : option string;
  student_class : option string;
  book_id : option (option string);
  book_title : option string;
  loan_date : option timestamp;
  due_date : option timestamp;
  return_date : option (option timestamp)
}.
End LoanPatch.

(** The columns of [books] other than [id], as [bookToRow] fills them from a
    complete form record. *)
Module BookCols.
Record t := {
  title : string;
  author : string;
  year : Z;
  publisher : string;
  isbn : string;
  barcode : option string;
  edition_year : Z;
  location : string;
  collection : option string
}.
End BookCols.

(** The store: three tables, the number of rows inserted so far (it indexes
    the generated identifiers) and the fault plan: the head says whether the
    next request fails, an exhausted plan means no further failure. *)
Record Remote := {
  books_table : list BookRow.t;
  students_table : list StudentRow.t;
  loans_table : list LoanRow.t;
  inserted : nat;
  faults : list bool
}.

(** How a promise settles. *)
Inductive outcome (A : Type) : Type :=
| Resolved (a : A)
| Rejected.
Arguments Resolved {A} a.
Arguments Rejected {A}.

Module Supabase.

Definition Request (A : Type) : Type := Remote -> outcome A * Remote.

Definition with_faults (fs : list bool) (r : Remote) : Remote :=
  {| books_table := books_table r; students_table := students_table r;
     loans_table := loans_table r; inserted := inserted r; faults := fs |}.

Definition with_books (t : list BookRow.t) (r : Remote) : Remote :=
  {| books_table := t; students_table := students_table r;
     loans_table := loans_table r; inserted := inserted r; faults := faults r |}.

Definition with_students (t : list StudentRow.t) (r : Remote) : Remote :=
  {| books_table := books_table r; students_table := t;
     loans_table := loans_table r; inserted := inserted r; faults := faults r |}.

Definition with_loans (t : list LoanRow.t) (r : Remote) : Remote :=
  {| books_table := books_table r; students_table := students_table r;
     loans_table := t; inserted := inserted r; faults := faults r |}.

Definition count_insert (r : Remote) : Remote :=
  {| books_table := books_table r; students_table := students_table r;
     loans_table := loans_table r; inserted := S (inserted r);
     faults := faults r |}.

(** One request: the fault plan is consulted first; a failed request
    changes no table and the service function throws its [error]. *)
Definition request {A} (op : Remote -> outcome A * Remote) : Request A :=
  fun r =>
    match faults r with
    | [] => op r
    | false :: fs => op (with_faults fs r)
    | true :: fs => (Rejected, with_faults fs r)
    end.

(** [.order(column)]: a stable insertion sort by the given comparison. *)
Fixpoint insert_sorted {A} (leb : A -> A -> bool) (x : A) (l : list A) : list A :=
  match l with
  | [] => [x]
  | y :: l' => if leb x y then x :: l else y :: insert_sorted leb x l'
  end.

Definition order {A} (leb : A -> A -> bool) (l : list A) : list A :=
  fold_right (insert_sorted leb) [] l.

(** [.update(patch).eq('id', id)] on [loans]: every key present in the body
    overwrites its column, an absent key leaves it. *)
Definition patch_loan (p : LoanPatch.t) (row : LoanRow.t) : LoanRow.t :=
  {| LoanRow.id := LoanRow.id row;
     LoanRow.student_name :=
       match LoanPatch.student_name p with Some v => v | None => LoanRow.student_name row end;
     LoanRow.student_class :=
       match LoanPatch.student_class p with Some v => v | None => LoanRow.student_class row end;
     LoanRow.book_id :=
       match LoanPatch.book_id p with Some v => v | None => LoanRow.book_id row end;
     LoanRow.book_title :=
       match LoanPatch.book_title p with Some v => v | None => LoanRow.book_title row end;
     LoanRow.loan_date :=
       match LoanPatch.loan_date p with Some v => v | None => LoanRow.loan_date row end;
     LoanRow.due_date :=
       match LoanPatch.due_date p with Some v => v | None => LoanRow.due_date row end;
     LoanRow.return_date :=
       match LoanPatch.return_date p with Some v => v | None => LoanRow.return_date row end |}.

(** [.insert(patch)] on [loans]: the row the database builds, when the body
    gives every column that has no default; a nullable column left out is
    NULL. *)
Definition new_loan (id : string) (p : LoanPatch.t) : option LoanRow.t :=
  match LoanPatch.student_name p, LoanPatch.student_class p,
        LoanPatch.book_title p, LoanPatch.loan_date p, LoanPatch.due_date p with
  | Some sn, Some sc, Some bt, Some ld, Some dd =>
      Some {| LoanRow.id := id;
              LoanRow.student_name := sn;
              LoanRow.student_class := sc;
              LoanRow.book_id := JS.nullish_null (LoanPatch.book_id p);
              LoanRow.book_title := bt;
              LoanRow.loan_date := ld;
              LoanRow.due_date := dd;
              LoanRow.return_date := JS.nullish_null (LoanPatch.return_date p) |}
  | _, _, _, _, _ => None
  end.

Definition new_book (id : string) (c : BookCols.t) : BookRow.t :=
  {| BookRow.id := id;
     BookRow.title := BookCols.title c;
     BookRow.author := BookCols.author c;
     BookRow.year := BookCols.year c;
     BookRow.publisher := BookCols.publisher c;
     BookRow.isbn := BookCols.isbn c;
     BookRow.barcode := BookCols.barcode c;
     BookRow.edition_year := BookCols.edition_year c;
     BookRow.location := BookCols.location c;
     BookRow.collection := BookCols.collection c |}.

(** [.eq('id', id)] applied to an update or a delete. *)
Definition update_where {A} (get_id : A -> string) (id : string) (f : A -> A)
    (t : list A) : list A :=
  map (fun row => if String.eqb (get_id row) id then f row else row) t.

Definition delete_where {A} (get_id : A -> string) (id : string) (t : list A) : list A :=
  filter (fun row => negb (String.eqb (get_id row) id)) t.

End Supabase.

(** ** src/services/supabaseService.ts *)

Module Db.
Import Supabase.
Section WithPlatform.
Context {P : Platform}.

(** *** Row <-> type mappers *)

Definition rowToBook (row : BookRow.t) : Book.t :=
  {| Book.id := BookRow.id row;
     Book.title := BookRow.title row;
     Book.author := BookRow.author row;
     Book.year := BookRow.year row;
     Book.publisher := BookRow.publisher row;
     Book.isbn := BookRow.isbn row;
     Book.barcode := BookRow.barcode row;
     Book.editionYear := BookRow.edition_year row;
     Book.location := BookRow.location row;
     Book.collection := BookRow.collection row |}.

Definition bookToRow (book : BookData.t) : BookCols.t :=
  {| BookCols.title := BookData.title book;
     BookCols.author := BookData.author book;
     BookCols.year := BookData.year book;
     BookCols.publisher := BookData.publisher book;
     BookCols.isbn := BookData.isbn book;
     BookCols.barcode := BookData.barcode book;
     BookCols.edition_year := BookData.editionYear book;
     BookCols.location := BookData.location book;
     BookCols.collection := BookData.collection book |}.

Definition rowToStudent (row : StudentRow.t) : Student.t :=
  {| Student.id := StudentRow.id row;
     Student.name := StudentRow.name row;
     Student.class := StudentRow.class row |}.

Definition rowToLoan (row : LoanRow.t) : Loan.t :=
  {| Loan.id := LoanRow.id row;
     Loan.studentName := LoanRow.student_name row;
     Loan.studentClass := LoanRow.student_class row;
     Loan.bookId := LoanRow.book_id row;
     Loan.bookTitle := LoanRow.book_title row;
     Loan.loanDate := LoanRow.loan_date row;
     Loan.dueDate := LoanRow.due_date row;
     Loan.returnDate := LoanRow.return_date row |}.

(** [book_id: loan.bookId ?? null] and [return_date: loan.returnDate ?? null]
    are keys of the body whatever the argument holds; the other five keys
    carry [undefined] when the argument lacks the field. *)
Definition loanToRow (loan : PartialLoan.t) : LoanPatch.t :=
  {| LoanPatch.student_name := PartialLoan.studentName loan;
     LoanPatch.student_class := PartialLoan.studentClass loan;
     LoanPatch.book_id := Some (PartialLoan.bookId loan);
     LoanPatch.book_title := PartialLoan.bookTitle loan;
     LoanPatch.loan_date := PartialLoan.loanDate loan;
     LoanPatch.due_date := PartialLoan.dueDate loan;
     LoanPatch.return_date := Some (JS.nullish_null (PartialLoan.returnDate loan)) |}.

(** *** Books *)

Definition by_title (a b : BookRow.t) : bool :=
  collate_leb (BookRow.title a) (BookRow.title b).

Definition fetchBooks : Request (list Book.t) :=
  request (fun r => (Resolved (map rowToBook (order by_title (books_table r))), r)).

Definition insertBook (book : BookData.t) : Request Book.t :=
  request (fun r =>
    let row := new_book (gen_random_uuid (inserted r)) (bookToRow book) in
    (Resolved (rowToBook row),
     count_insert (with_books (books_table r ++ [row]) r))).

Definition updateBook (id : string) (book : BookData.t) : Request unit :=
  request (fun r =>
    (Resolved tt,
     with_books (update_where BookRow.id id
                   (fun row => new_book (BookRow.id row) (bookToRow book))
                   (books_table r)) r)).

Definition deleteBook (id : string) : Request unit :=
  request (fun r =>
    (Resolved tt, with_books (delete_where BookRow.id id (books_table r)) r)).

(** *** Students *)

Definition by_class_then_name (a b : StudentRow.t) : bool :=
  if collate_leb (StudentRow.class a) (StudentRow.class b)
     && collate_leb (StudentRow.class b) (StudentRow.class a)
  then collate_leb (StudentRow.name a) (StudentRow.name b)
  else collate_leb (StudentRow.class a) (StudentRow.class b).

Definition fetchStudents : Request (list Student.t) :=
  request (fun r =>
    (Resolved (map rowToStudent (order by_class_then_name (students_table r))), r)).

Definition insertStudent (student : StudentData.t) : Request Student.t :=
  request (fun r =>
    let row := {| StudentRow.id := gen_random_uuid (inserted r);
                  StudentRow.name := StudentData.name student;
                  StudentRow.class := StudentData.class student |} in
    (Resolved (rowToStudent row),
     count_insert (with_students (students_table r ++ [row]) r))).

Definition updateStudent (id : string) (student : StudentData.t) : Request unit :=
  request (fun r =>
    (Resolved tt,
     with_students
       (update_where StudentRow.id id
          (fun row => {| StudentRow.id := StudentRow.id row;
                         StudentRow.name := StudentData.name student;
                         StudentRow.class := StudentData.class student |})
          (students_table r)) r)).

Definition deleteStudent (id : string) : Request unit :=
  request (fun r =>
    (Resolved tt, with_students (delete_where StudentRow.id id (students_table r)) r)).

(** *** Loans *)

Definition by_loan_date_desc (a b : LoanRow.t) : bool :=
  LoanRow.loan_date b <=? LoanRow.loan_date a.

Definition fetchLoans : Request (list Loan.t) :=
  request (fun r =>
    (Resolved (map rowToLoan (order by_loan_date_desc (loans_table r))), r)).

Definition insertLoan (loan : PartialLoan.t) : Request Loan.t :=
  request (fun r =>
    match new_loan (gen_random_uuid (inserted r)) (loanToRow loan) with
    | Some row =>
        (Resolved (rowToLoan row),
         count_insert (with_loans (loans_table r ++ [row]) r))
    | None => (Rejected, r)
    end).

Definition updateLoan (id : string) (loan : PartialLoan.t) : Request unit :=
  request (fun r =>
    (Resolved tt,
     with_loans (update_where LoanRow.id id (patch_loan (loanToRow loan))
                   (loans_table r)) r)).

Definition deleteLoan (id : string) : Request unit :=
  request (fun r =>
    (Resolved tt, with_loans (delete_where LoanRow.id id (loans_table r)) r)).

End WithPlatform.
End Db.

(** ** src/App.tsx: component state and handlers *)

Module App.
Import DateFns.

Inductive ToastType := success | error | info.

(** The texts [showToast] is called with (the emoji is left out). *)
Inductive ToastMessage :=
| BookUpdated                                (* Livro atualizado com sucesso! *)
| BookRegistered                             (* Livro cadastrado com sucesso! *)
| BookSaveError                              (* Erro ao salvar livro. *)
| StudentUpdated                             (* Aluno atualizado com sucesso! *)
| StudentRegistered                          (* Aluno cadastrado com sucesso! *)
| StudentSaveError                           (* Erro ao salvar aluno. *)
| StudentAutoRegistered (studentName : string) (* Aluno ... cadastrado automaticamente! *)
| LoanUpdated                                (* Emprestimo atualizado! *)
| LoanRegistered (bookTitle : string)        (* Emprestimo de ... registrado! Devolucao em 7 dias. *)
| LoanSaveError                              (* Erro ao registrar emprestimo. *)
| ReturnRegistered                           (* Devolucao registrada com sucesso! *)
| ReturnError                                (* Erro ao registrar devolucao. *)
| Deleted (label : string)                   (* ... excluido com sucesso! *)
| DeleteError.                               (* Erro ao excluir. *)

Record Toast := {
  message : ToastMessage;
  type : ToastType
}.

(** ['book' | 'student' | 'loan'] *)
Inductive DeleteType := type_book | type_student | type_loan.

Record ConfirmDelete := {
  delete_type : DeleteType;
  delete_id : string
}.

(** The [useState] cells the handlers read or write.  [toasts] records every
    toast shown; the timer that hides a toast after 3.5 s is not part of the
    embedding. *)
Record State := {
  data : LibraryData;
  dataLoading : bool;
  showBookForm : bool;
  editingBook : option Book.t;
  showStudentForm : bool;
  editingStudent : option Student.t;
  showLoanForm : bool;
  editingLoan : option Loan.t;
  selectedStudentId : string;
  confirmDelete : option ConfirmDelete;
  toasts : list Toast
}.

Definition setData (d : LibraryData) (s : State) : State :=
  {| data := d; dataLoading := dataLoading s;
     showBookForm := showBookForm s; editingBook := editingBook s;
     showStudentForm := showStudentForm s; editingStudent := editingStudent s;
     showLoanForm := showLoanForm s; editingLoan := editingLoan s;
     selectedStudentId := selectedStudentId s;
     confirmDelete := confirmDelete s; toasts := toasts s |}.

Definition setDataLoading (b : bool) (s : State) : State :=
  {| data := data s; dataLoading := b;
     showBookForm := showBookForm s; editingBook := editingBook s;
     showStudentForm := showStudentForm s; editingStudent := editingStudent s;
     showLoanForm := showLoanForm s; editingLoan := editingLoan s;
     selectedStudentId := selectedStudentId s;
     confirmDelete := confirmDelete s; toasts := toasts s |}.

Definition setShowBookForm (b : bool) (s : State) : State :=
  {| data := data s; dataLoading := dataLoading s;
     showBookForm := b; editingBook := editingBook s;
     showStudentForm := showStudentForm s; editingStudent := editingStudent s;
     showLoanForm := showLoanForm s; editingLoan := editingLoan s;
     selectedStudentId := selectedStudentId s;
     confirmDelete := confirmDelete s; toasts := toasts s |}.

Definition setEditingBook (e : option Book.t) (s : State) : State :=
  {| data := data s; dataLoading := dataLoading s;
     showBookForm := showBookForm s; editingBook := e;
     showStudentForm := showStudentForm s; editingStudent := editingStudent s;
     showLoanForm := showLoanForm s; editingLoan := editingLoan s;
     selectedStudentId := selectedStudentId s;
     confirmDelete := confirmDelete s; toasts := toasts s |}.

Definition setShowStudentForm (b : bool) (s : State) : State :=
  {| data := data s; dataLoading := dataLoading s;
     showBookForm := showBookForm s; editingBook := editingBook s;
     showStudentForm := b; editingStudent := editingStudent s;
     showLoanForm := showLoanForm s; editingLoan := editingLoan s;
     selectedStudentId := selectedStudentId s;
     confirmDelete := confirmDelete s; toasts := toasts s |}.

Definition setEditingStudent (e : option Student.t) (s : State) : State :=
  {| data := data s; dataLoading := dataLoading s;
     showBookForm := showBookForm s; editingBook := editingBook s;
     showStudentForm := showStudentForm s; editingStudent := e;
     showLoanForm := showLoanForm s; editingLoan := editingLoan s;
     selectedStudentId := selectedStudentId s;
     confirmDelete := confirmDelete s; toasts := toasts s |}.

Definition setShowLoanForm (b : bool) (s : State) : State :=
  {| data := data s; dataLoading := dataLoading s;
     showBookForm := showBookForm s; editingBook := editingBook s;
     showStudentForm := showStudentForm s; editingStudent := editingStudent s;
     showLoanForm := b; editingLoan := editingLoan s;
     selectedStudentId := selectedStudentId s;
     confirmDelete := confirmDelete s; toasts := toasts s |}.

Definition setEditingLoan (e : option Loan.t) (s : State) : State :=
  {| data := data s; dataLoading := dataLoading s;
     showBookForm := showBookForm s; editingBook := editingBook s;
     showStudentForm := showStudentForm s; editingStudent := editingStudent s;
     showLoanForm := showLoanForm s; editingLoan := e;
     selectedStudentId := selectedStudentId s;
     confirmDelete := confirmDelete s; toasts := toasts s |}.

Definition setSelectedStudentId (i : string) (s : State) : State :=
  {| data := data s; dataLoading := dataLoading s;
     showBookForm := showBookForm s; editingBook := editingBook s;
     showStudentForm := showStudentForm s; editingStudent := editingStudent s;
     showLoanForm := showLoanForm s; editingLoan := editingLoan s;
     selectedStudentId := i;
     confirmDelete := confirmDelete s; toasts := toasts s |}.

Definition setConfirmDelete (c : option ConfirmDelete) (s : State) : State :=
  {| data := data s; dataLoading := dataLoading s;
     showBookForm := showBookForm s; editingBook := editingBook s;
     showStudentForm := showStudentForm s; editingStudent := editingStudent s;
     showLoanForm := showLoanForm s; editingLoan := editingLoan s;
     selectedStudentId := selectedStudentId s;
     confirmDelete := c; toasts := toasts s |}.

(** [setToasts(prev => [...prev, toast])] *)
Definition pushToast (t : Toast) (s : State) : State :=
  {| data := data s; dataLoading := dataLoading s;
     showBookForm := showBookForm s; editingBook := editingBook s;
     showStudentForm := showStudentForm s; editingStudent := editingStudent s;
     showLoanForm := showLoanForm s; editingLoan := editingLoan s;
     selectedStudentId := selectedStudentId s;
     confirmDelete := confirmDelete s; toasts := toasts s ++ [t] |}.

(** The component together with the store it talks to. *)
Record World := {
  app : State;
  remote : Remote
}.

(** *** Asynchronous handlers: state passing with rejection *)

Definition Async (A : Type) : Type := World -> outcome A * World.

Definition ret {A} (a : A) : Async A := fun w => (Resolved a, w).

Definition bind {A B} (m : Async A) (k : A -> Async B) : Async B :=
  fun w =>
    match m w with
    | (Resolved a, w') => k a w'
    | (Rejected, w') => (Rejected, w')
    end.

(** [await request]: the request runs against the store; its rejection is
    thrown in the handler. *)
Definition await {A} (req : Supabase.Request A) : Async A :=
  fun w =>
    let (o, r) := req (remote w) in
    (o, {| app := app w; remote := r |}).

(** A state setter. *)
Definition set (f : State -> State) : Async unit :=
  fun w => (Resolved tt, {| app := f (app w); remote := remote w |}).

(** [try { body } catch (e) { handler }]: what [body] did before throwing
    stays done. *)
Definition try_catch (body handler : Async unit) : Async unit :=
  fun w =>
    match body w with
    | (Resolved tt, w') => (Resolved tt, w')
    | (Rejected, w') => handler w'
    end.

(** [Promise.all] of three requests: all three are issued; the result
    rejects when one of them does. *)
Definition Promise_all3 {A B C} (a : Async A) (b : Async B) (c : Async C)
    : Async (A * B * C) :=
  fun w =>
    let (oa, w1) := a w in
    let (ob, w2) := b w1 in
    let (oc, w3) := c w2 in
    match oa, ob, oc with
    | Resolved x, Resolved y, Resolved z => (Resolved (x, y, z), w3)
    | _, _, _ => (Rejected, w3)
    end.

Declare Scope async_scope.
Delimit Scope async_scope with async.
Notation "x <- m ;; k" := (bind m (fun x => k))
  (at level 61, m at next level, right associativity) : async_scope.
Notation "m ;; k" := (bind m (fun _ => k))
  (at level 61, right associativity) : async_scope.
Open Scope async_scope.

Definition showToast (m : ToastMessage) (t : ToastType) : Async unit :=
  set (pushToast {| message := m; type := t |}).

(** The state a handler ends in. *)
Definition run (h : Async unit) (w : World) : World := snd (h w).

Section WithPlatform.
Context {P : Platform}.

(** *** loadAllData *)

Definition loadAllData : Async unit :=
  set (setDataLoading true);;
  try_catch
    (r <- Promise_all3 (await Db.fetchBooks) (await Db.fetchStudents)
                       (await Db.fetchLoans);;
     let '(bs, ss, ls) := r in
     set (setData {| books := bs; students := ss; loans := ls |}))
    (ret tt);;
  set (setDataLoading false).

(** *** Due-date notifications *)

Inductive NotificationType := warning | info_notification.

(** The message template: book title, student name, due date (formatted
    dd/MM/yyyy when rendered). *)
Record Notification := {
  notification_id : string;
  notification_bookTitle : string;
  notification_studentName : string;
  notification_due : instant;
  notification_type : NotificationType
}.

Definition due_soon (today : instant) (l : Loan.t) : bool :=
  let dueDate := parseISO (Loan.dueDate l) in
  let diff := differenceInDays dueDate today in
  (0 <=? diff) && (diff <=? 2).

Definition upcoming (now : instant) (ls : list Loan.t) : list Notification :=
  let today := startOfDay now in
  map (fun l => {| notification_id := Loan.id l;
                   notification_bookTitle := Loan.bookTitle l;
                   notification_studentName := Loan.studentName l;
                   notification_due := parseISO (Loan.dueDate l);
                   notification_type := warning |})
    (filter (due_soon today)
       (filter (fun l => negb (JS.truthy_timestamp (Loan.returnDate l))) ls)).

(** *** Dashboard counts *)

Record Stats := {
  totalBooks : nat;
  totalStudents : nat;
  activeLoans : nat;
  overdueLoans : nat;
  totalLoans : nat
}.

Definition stats (now : instant) (d : LibraryData) : Stats :=
  let active := filter (fun l => negb (JS.truthy_timestamp (Loan.returnDate l))) (loans d) in
  let overdue := filter (fun l => isAfter now (parseISO (Loan.dueDate l))) active in
  {| totalBooks := List.length (books d);
     totalStudents := List.length (students d);
     activeLoans := List.length active;
     overdueLoans := List.length overdue;
     totalLoans := List.length (loans d) |}.

(** *** LoanStatusBadge *)

Inductive LoanStatus :=
| Devolvido                  (* returned *)
| Atrasado (days : Z)        (* overdue, with the days of delay *)
| EmAberto.                  (* open *)

(** The component reads the clock twice, once per date-fns call. *)
Definition LoanStatusBadge_at (now1 now2 : instant) (loan : Loan.t) : LoanStatus :=
  if JS.truthy_timestamp (Loan.returnDate loan) then Devolvido
  else
    let overdue := isAfter now1 (parseISO (Loan.dueDate loan)) in
    let days := differenceInDays now2 (parseISO (Loan.dueDate loan)) in
    if overdue then Atrasado days else EmAberto.

(** The badge at one instant [now]. *)
Definition LoanStatusBadge (now : instant) (loan : Loan.t) : LoanStatus :=
  LoanStatusBadge_at now now loan.

(** *** handleSaveBook *)

Record BookForm := {
  form_title : string;
  form_author : string;
  form_year : Z;
  form_publisher : string;
  form_isbn : string;
  form_barcode : string;
  form_editionYear : Z;
  form_location : string;
  form_hasCollection : string;
  form_collection : string
}.

(** [s || undefined] *)
Definition or_undefined (s : string) : option string :=
  if JS.truthy_string s then Some s else None.

Definition bookData (f : BookForm) : BookData.t :=
  let hasCollection := String.eqb (form_hasCollection f) "yes" in
  {| BookData.title := form_title f;
     BookData.author := form_author f;
     BookData.year := form_year f;
     BookData.publisher := form_publisher f;
     BookData.isbn := form_isbn f;
     BookData.barcode := or_undefined (form_barcode f);
     BookData.editionYear := form_editionYear f;
     BookData.location := form_location f;
     BookData.collection :=
       if hasCollection then or_undefined (form_collection f) else None |}.

Definition handleSaveBook (f : BookForm) : Async unit :=
  fun w =>
  (try_catch
     (match editingBook (app w) with
      | Some eb =>
          await (Db.updateBook (Book.id eb) (bookData f));;
          showToast BookUpdated success
      | None =>
          _ <- await (Db.insertBook (bookData f));;
          showToast BookRegistered success
      end;;
      loadAllData)
     (showToast BookSaveError error);;
   set (setShowBookForm false);;
   set (setEditingBook None)) w.

(** *** handleSaveStudent *)

Definition handleSaveStudent (studentData : StudentData.t) : Async unit :=
  fun w =>
  (try_catch
     (match editingStudent (app w) with
      | Some es =>
          await (Db.updateStudent (Student.id es) studentData);;
          showToast StudentUpdated success
      | None =>
          _ <- await (Db.insertStudent studentData);;
          showToast StudentRegistered success
      end;;
      loadAllData)
     (showToast StudentSaveError error);;
   set (setShowStudentForm false);;
   set (setEditingStudent None)) w.

(** *** handleSaveLoan *)

Record LoanForm := {
  form_bookId : string;
  form_studentName : string;
  form_studentClass : string
}.

(** The predicate of [data.students.find(...)]. *)
Definition same_student (studentName studentClass : string) (s : Student.t) : bool :=
  String.eqb (toLowerCase (Student.name s)) (toLowerCase studentName)
  && String.eqb (toLowerCase (Student.class s)) (toLowerCase studentClass).

Definition handleSaveLoan (f : LoanForm) (now : instant) : Async unit :=
  fun w =>
  let bookId := form_bookId f in
  let studentName := trim (form_studentName f) in
  let studentClass := trim (form_studentClass f) in
  let book := find (fun b => String.eqb (Book.id b) bookId) (books (data (app w))) in
  match book with
  | None => ret tt w
  | Some book =>
    if negb (JS.truthy_string studentName) || negb (JS.truthy_string studentClass)
    then ret tt w
    else
    (try_catch
       (student <-
          match find (same_student studentName studentClass)
                     (students (data (app w))) with
          | Some s => ret s
          | None =>
              s <- await (Db.insertStudent
                            {| StudentData.name := studentName;
                               StudentData.class := studentClass |});;
              showToast (StudentAutoRegistered studentName) info;;
              ret s
          end;;
        match editingLoan (app w) with
        | Some el =>
            await (Db.updateLoan (Loan.id el)
                     {| PartialLoan.studentName := Some (Student.name student);
                        PartialLoan.studentClass := Some (Student.class student);
                        PartialLoan.bookId := Some (Book.id book);
                        PartialLoan.bookTitle := Some (Book.title book);
                        PartialLoan.loanDate := None;
                        PartialLoan.dueDate := None;
                        PartialLoan.returnDate := None |});;
            showToast LoanUpdated success
        | None =>
            let loanDate := now in
            let dueDate := addDays loanDate 7 in
            _ <- await (Db.insertLoan
                     {| PartialLoan.studentName := Some (Student.name student);
                        PartialLoan.studentClass := Some (Student.class student);
                        PartialLoan.bookId := Some (Book.id book);
                        PartialLoan.bookTitle := Some (Book.title book);
                        PartialLoan.loanDate := Some (toISOString loanDate);
                        PartialLoan.dueDate := Some (toISOString dueDate);
                        PartialLoan.returnDate := Some None |});;
            showToast (LoanRegistered (Book.title book)) success
        end;;
        loadAllData)
       (showToast LoanSaveError error);;
     set (setShowLoanForm false);;
     set (setEditingLoan None);;
     set (setSelectedStudentId EmptyString)) w
  end.

(** *** handleReturnBook *)

Definition handleReturnBook (loanId : string) (now : instant) : Async unit :=
  try_catch
    (await (Db.updateLoan loanId
              {| PartialLoan.studentName := None;
                 PartialLoan.studentClass := None;
                 PartialLoan.bookId := None;
                 PartialLoan.bookTitle := None;
                 PartialLoan.loanDate := None;
                 PartialLoan.dueDate := None;
                 PartialLoan.returnDate := Some (Some (toISOString now)) |});;
     loadAllData;;
     showToast ReturnRegistered success)
    (showToast ReturnError error).

(** *** executeDelete *)

Definition labels (t : DeleteType) : string :=
  match t with
  | type_book => "Livro"
  | type_student => "Aluno"
  | type_loan => "Empréstimo"
  end.

Definition executeDelete : Async unit :=
  fun w =>
  match confirmDelete (app w) with
  | None => ret tt w
  | Some c =>
    let type := delete_type c in
    let id := delete_id c in
    (try_catch
       (match type with type_book => await (Db.deleteBook id) | _ => ret tt end;;
        match type with type_student => await (Db.deleteStudent id) | _ => ret tt end;;
        match type with type_loan => await (Db.deleteLoan id) | _ => ret tt end;;
        loadAllData;;
        showToast (Deleted (labels type)) info)
       (showToast DeleteError error);;
     set (setConfirmDelete None)) w
  end.

(** *** The user actions of the lifecycle engine *)

Inductive Action :=
| SaveBook (f : BookForm)
| SaveStudent (d : StudentData.t)
| SaveLoan (f : LoanForm) (now : instant)
| ReturnBook (loanId : string) (now : instant)
| ExecuteDelete.

Definition handler (a : Action) : Async unit :=
  match a with
  | SaveBook f => handleSaveBook f
  | SaveStudent d => handleSaveStudent d
  | SaveLoan f now => handleSaveLoan f now
  | ReturnBook i now => handleReturnBook i now
  | ExecuteDelete => executeDelete
  end.

End WithPlatform.
End App.

(** ** JSON documents and the values the backup code reads *)

#[local] Set Warnings "-register-all".
Inductive json :=
| JNull
| JBool (b : bool)
| JNumber (n : Z)
| JString (s : string)
| JArray (items : list json)
| JObject (members : list (string * json)).

(** [JSON.parse] (which throws on malformed text: [None]) and
    [JSON.stringify]; the indentation argument of [stringify] only changes
    white space. *)
Class JSON := {
  JSON_parse : string -> option json;
  JSON_stringify : json -> string
}.

Module JsValue.

Fixpoint lookup (k : string) (members : list (string * json)) : option json :=
  match members with
  | [] => None
  | (k', v) :: rest => if String.eqb k' k then Some v else lookup k rest
  end.

(** [v.k] for a key [k] that is no built-in property of arrays, strings,
    numbers or booleans: reading it from [null] throws a [TypeError], from an
    object it gives the member or [undefined] ([None]), from anything else
    [undefined]. *)
Definition get (v : json) (k : string) : outcome (option json) :=
  match v with
  | JNull => Rejected
  | JObject members => Resolved (lookup k members)
  | _ => Resolved None
  end.

(** [!!x] *)
Definition truthy (x : option json) : bool :=
  match x with
  | None => false
  | Some JNull => false
  | Some (JBool b) => b
  | Some (JNumber n) => negb (n =? 0)
  | Some (JString s) => negb (String.eqb s EmptyString)
  | Some (JArray _) => true
  | Some (JObject _) => true
  end.

(** [x || []] *)
Definition or_empty_array (x : option json) : json :=
  match x with
  | Some v => if truthy x then v else JArray []
  | None => JArray []
  end.

(** [Array.isArray(v)] *)
Definition isArray (v : json) : bool :=
  match v with JArray _ => true | _ => false end.

End JsValue.

(** ** src/services/storageService.ts *)

Module StorageService.

(** A [LibraryData] object as this service builds and receives it: the
    service never looks inside a collection, each one is the JavaScript value
    found in the document. *)
Record LibraryData := {
  books : json;
  loans : json;
  students : json
}.

Definition toObject (d : LibraryData) : json :=
  JObject [("books", books d); ("loans", loans d); ("students", students d)].

Definition empty : LibraryData :=
  {| books := JArray []; loans := JArray []; students := JArray [] |}.

(** The shape [LibraryData] declares: three arrays. *)
Definition well_formed (d : LibraryData) : Prop :=
  JsValue.isArray (books d) = true /\ JsValue.isArray (loans d) = true
  /\ JsValue.isArray (students d) = true.

(** The messages of the errors [importBackup] rejects with. *)
Inductive BackupError :=
| InvalidFormat       (* Formato de backup invalido *)
| UnreadableBackup    (* Erro ao ler arquivo de backup *)
| FileLoadError.      (* Erro ao carregar arquivo *)

Inductive Import :=
| Resolve (d : LibraryData)
| Reject (e : BackupError).

Section WithJSON.
Context {J : JSON}.

(** [localStorage.setItem(STORAGE_KEY, JSON.stringify(data))]: the new
    content of the slot. *)
Definition saveData (d : LibraryData) : option string :=
  Some (JSON_stringify (toObject d)).

(** The body of the [try] block of [loadData], once the text is parsed. *)
Definition loadData_parsed (data : json) : outcome LibraryData :=
  match JsValue.get data "books", JsValue.get data "loans", JsValue.get data "students" with
  | Resolved b, Resolved l, Resolved s =>
      Resolved {| books := JsValue.or_empty_array b;
                  loans := JsValue.or_empty_array l;
                  students := JsValue.or_empty_array s |}
  | _, _, _ => Rejected
  end.

(** [loadData()], from the content of the storage slot ([None]: no such
    key).  A throw inside the [try] is caught and logged, and control falls
    to the final [return]. *)
Definition loadData (saved : option string) : LibraryData :=
  match saved with
  | Some text =>
      if JS.truthy_string text then
        match JSON_parse text with
        | Some data =>
            match loadData_parsed data with
            | Resolved d => d
            | Rejected => empty
            end
        | None => empty
        end
      else empty
  | None => empty
  end.

(** [exportBackup(data)]: the content of the downloaded file. *)
Definition exportBackup (d : LibraryData) : string :=
  JSON_stringify (toObject d).

(** The body of the [try] block of [reader.onload], once the text is
    parsed: [Rejected] is a throw, caught by the [catch] of the block. *)
Definition importBackup_parsed (data : json) : outcome Import :=
  match JsValue.get data "books", JsValue.get data "loans", JsValue.get data "students" with
  | Resolved b, Resolved l, Resolved s =>
      match b, l with
      | Some bv, Some lv =>
          if JsValue.truthy b && JsValue.truthy l
          then Resolved (Resolve {| books := bv; loans := lv;
                                    students := JsValue.or_empty_array s |})
          else Resolved (Reject InvalidFormat)
      | _, _ => Resolved (Reject InvalidFormat)
      end
  | _, _, _ => Rejected
  end.

(** [importBackup(file)]: [None] is a file the reader fails to load. *)
Definition importBackup (file : option string) : Import :=
  match file with
  | None => Reject FileLoadError
  | Some text =>
      match JSON_parse text with
      | Some data =>
          match importBackup_parsed data with
          | Resolved r => r
          | Rejected => Reject UnreadableBackup
          end
      | None => Reject UnreadableBackup
      end
  end.

End WithJSON.
End StorageService.

(** ** Export and import handlers *)

Module Backup.
Section WithJSON.
Context {J : JSON}.

(** What [alert] is called with: the message of the error caught. *)
Inductive Alert :=
| AlertBackupError (e : StorageService.BackupError)
| AlertSyntaxError      (* the message of the SyntaxError of JSON.parse *)
| AlertReadError.       (* the message of the error file.text() rejected
                           with, or Erro ao importar backup *)

(** *** The handlers over [storageService] (local-storage variant of [App]) *)

Definition handleExport_local (data : StorageService.LibraryData) : string :=
  StorageService.exportBackup data.

(** [files]: the chosen file, if any, as the text the reader loads from it;
    [confirm]: the answer to the confirmation dialog.  The result is the
    snapshot after the handler and the alert shown, if any. *)
Definition handleImport_local (files : option (option string)) (confirm : bool)
    (data : StorageService.LibraryData)
    : StorageService.LibraryData * option Alert :=
  match files with
  | None => (data, None)
  | Some file =>
      match StorageService.importBackup file with
      | StorageService.Resolve importedData =>
          if confirm then (importedData, None) else (data, None)
      | StorageService.Reject e => (data, Some (AlertBackupError e))
      end
  end.

(** *** The handlers of [src/App.tsx]

    Here the snapshot is whatever value [setData] last received. *)

Definition handleExport (data : json) : string := JSON_stringify data.

(** [files]: the chosen file, if any, as the outcome of [file.text()]. *)
Definition handleImport (files : option (outcome string)) (confirm : bool)
    (data : json) : json * option Alert :=
  match files with
  | None => (data, None)
  | Some Rejected => (data, Some AlertReadError)
  | Some (Resolved text) =>
      match JSON_parse text with
      | Some importedData =>
          if confirm then (importedData, None) else (data, None)
      | None => (data, Some AlertSyntaxError)
      end
  end.

End WithJSON.
End Backup.

(** ** src/App.tsx: the filtered loan list *)

Module AppViews.
Import DateFns.

(** [s.includes(sub)] *)
Definition includes (s sub : string) : bool :=
  match String.index 0 sub s with
  | Some _ => true
  | None => false
  end.

(** [array.sort(compare)]: the stable sort by a comparison function, which
    places [a] before [b] when [compare(a, b) <= 0]. *)
Definition sort {A} (compare : A -> A -> Z) (l : list A) : list A :=
  Supabase.order (fun a b => compare a b <=? 0) l.

Section WithPlatform.
Context {P : Platform}.

(** The predicate of the filter of [filteredLoans]. *)
Definition loan_matches (searchTerm : string) (l : Loan.t) : bool :=
  includes (toLowerCase (Loan.studentName l)) (toLowerCase searchTerm)
  || includes (toLowerCase (Loan.bookTitle l)) (toLowerCase searchTerm).

(** [(a, b) => parseISO(b.loanDate).getTime() - parseISO(a.loanDate).getTime()] *)
Definition by_loanDate_desc (a b : Loan.t) : Z :=
  parseISO (Loan.loanDate b) - parseISO (Loan.loanDate a).

Definition filteredLoans (searchTerm : string) (ls : list Loan.t) : list Loan.t :=
  sort by_loanDate_desc (filter (loan_matches searchTerm) ls).

End WithPlatform.
End AppViews.

(** ** The local-storage variant of [App]

    The variant of the component that keeps the snapshot in component state
    (and mirrors it to local storage through [storageService]): its handlers
    are synchronous state updates.  The identifiers [crypto.randomUUID()]
    returns are arguments of the handlers, in the order of the calls.  A book
    of this variant has no barcode and no collection. *)

Module LocalApp.
Import DateFns.

Record State := {
  data : LibraryData;
  showBookForm : bool;
  editingBook : option Book.t;
  showStudentForm : bool;
  editingStudent : option Student.t;
  showLoanForm : bool;
  editingLoan : option Loan.t;
  confirmDelete : option App.ConfirmDelete
}.

Definition setData (d : LibraryData) (s : State) : State :=
  {| data := d;
     showBookForm := showBookForm s; editingBook := editingBook s;
     showStudentForm := showStudentForm s; editingStudent := editingStudent s;
     showLoanForm := showLoanForm s; editingLoan := editingLoan s;
     confirmDelete := confirmDelete s |}.

(** [setShowBookForm(false); setEditingBook(null)] *)
Definition closeBookForm (s : State) : State :=
  {| data := data s;
     showBookForm := false; editingBook := None;
     showStudentForm := showStudentForm s; editingStudent := editingStudent s;
     showLoanForm := showLoanForm s; editingLoan := editingLoan s;
     confirmDelete := confirmDelete s |}.

(** [setShowStudentForm(false); setEditingStudent(null)] *)
Definition closeStudentForm (s : State) : State :=
  {| data := data s;
     showBookForm := showBookForm s; editingBook := editingBook s;
     showStudentForm := false; editingStudent := None;
     showLoanForm := showLoanForm s; editingLoan := editingLoan s;
     confirmDelete := confirmDelete s |}.

(** [setShowLoanForm(false); setEditingLoan(null)] *)
Definition closeLoanForm (s : State) : State :=
  {| data := data s;
     showBookForm := showBookForm s; editingBook := editingBook s;
     showStudentForm := showStudentForm s; editingStudent := editingStudent s;
     showLoanForm := false; editingLoan := None;
     confirmDelete := confirmDelete s |}.

(** [setConfirmDelete(null)] *)
Definition clearConfirmDelete (s : State) : State :=
  {| data := data s;
     showBookForm := showBookForm s; editingBook := editingBook s;
     showStudentForm := showStudentForm s; editingStudent := editingStudent s;
     showLoanForm := showLoanForm s; editingLoan := editingLoan s;
     confirmDelete := None |}.

Definition with_books (bs : list Book.t) (d : LibraryData) : LibraryData :=
  {| books := bs; students := students d; loans := loans d |}.

Definition with_students (ss : list Student.t) (d : LibraryData) : LibraryData :=
  {| books := books d; students := ss; loans := loans d |}.

Definition with_loans (ls : list Loan.t) (d : LibraryData) : LibraryData :=
  {| books := books d; students := students d; loans := ls |}.

(** *** handleSaveBook *)

Record BookForm := {
  form_title : string;
  form_author : string;
  form_year : Z;
  form_publisher : string;
  form_isbn : string;
  form_editionYear : Z;
  form_location : string
}.

(** [{ ...b, ...bookData }] *)
Definition spread_book (b : Book.t) (f : BookForm) : Book.t :=
  {| Book.id := Book.id b;
     Book.title := form_title f;
     Book.author := form_author f;
     Book.year := form_year f;
     Book.publisher := form_publisher f;
     Book.isbn := form_isbn f;
     Book.barcode := Book.barcode b;
     Book.editionYear := form_editionYear f;
     Book.location := form_location f;
     Book.collection := Book.collection b |}.

(** [{ id: crypto.randomUUID(), ...bookData }] *)
Definition newBook (uuid : string) (f : BookForm) : Book.t :=
  {| Book.id := uuid;
     Book.title := form_title f;
     Book.author := form_author f;
     Book.year := form_year f;
     Book.publisher := form_publisher f;
     Book.isbn := form_isbn f;
     Book.barcode := None;
     Book.editionYear := form_editionYear f;
     Book.location := form_location f;
     Book.collection := None |}.

Definition handleSaveBook (f : BookForm) (uuid : string) (s : State) : State :=
  closeBookForm
    (match editingBook s with
     | Some eb =>
         setData (with_books
                    (map (fun b => if String.eqb (Book.id b) (Book.id eb)
                                   then spread_book b f else b)
                       (books (data s)))
                    (data s)) s
     | None =>
         setData (with_books (books (data s) ++ [newBook uuid f])%list (data s)) s
     end).

(** *** handleSaveStudent *)

(** [{ ...s, ...studentData }] *)
Definition spread_student (st : Student.t) (d : StudentData.t) : Student.t :=
  {| Student.id := Student.id st;
     Student.name := StudentData.name d;
     Student.class := StudentData.class d |}.

Definition newStudent (uuid : string) (d : StudentData.t) : Student.t :=
  {| Student.id := uuid;
     Student.name := StudentData.name d;
     Student.class := StudentData.class d |}.

Definition handleSaveStudent (d : StudentData.t) (uuid : string) (s : State) : State :=
  closeStudentForm
    (match editingStudent s with
     | Some es =>
         setData (with_students
                    (map (fun st => if String.eqb (Student.id st) (Student.id es)
                                    then spread_student st d else st)
                       (students (data s)))
                    (data s)) s
     | None =>
         setData (with_students (students (data s) ++ [newStudent uuid d])%list (data s)) s
     end).

Section WithPlatform.
Context {P : Platform}.

(** *** handleSaveLoan *)

(** [{ ...l, studentName, studentClass, bookId, bookTitle }] *)
Definition spread_loan (l : Loan.t) (student : Student.t) (book : Book.t) : Loan.t :=
  {| Loan.id := Loan.id l;
     Loan.studentName := Student.name student;
     Loan.studentClass := Student.class student;
     Loan.bookId := Some (Book.id book);
     Loan.bookTitle := Book.title book;
     Loan.loanDate := Loan.loanDate l;
     Loan.dueDate := Loan.dueDate l;
     Loan.returnDate := Loan.returnDate l |}.

Definition newLoan (uuid : string) (student : Student.t) (book : Book.t)
    (now : instant) : Loan.t :=
  let loanDate := now in
  let dueDate := addDays loanDate 7 in
  {| Loan.id := uuid;
     Loan.studentName := Student.name student;
     Loan.studentClass := Student.class student;
     Loan.bookId := Some (Book.id book);
     Loan.bookTitle := Book.title book;
     Loan.loanDate := toISOString loanDate;
     Loan.dueDate := toISOString dueDate;
     Loan.returnDate := None |}.

(** [student_uuid] is used when the student has to be created, [loan_uuid]
    when the loan is. *)
Definition handleSaveLoan (f : App.LoanForm) (now : instant)
    (student_uuid loan_uuid : string) (s : State) : State :=
  let studentName := App.form_studentName f in
  let studentClass := App.form_studentClass f in
  let bookId := App.form_bookId f in
  match find (fun b => String.eqb (Book.id b) bookId) (books (data s)) with
  | None => s
  | Some book =>
      let found := find (App.same_student studentName studentClass)
                     (students (data s)) in
      let student :=
        match found with
        | Some st => st
        | None => {| Student.id := student_uuid;
                     Student.name := studentName;
                     Student.class := studentClass |}
        end in
      let updatedStudents :=
        match found with
        | Some _ => students (data s)
        | None => (students (data s) ++ [student])%list
        end in
      closeLoanForm
        (match editingLoan s with
         | Some el =>
             setData
               {| books := books (data s);
                  students := updatedStudents;
                  loans := map (fun l => if String.eqb (Loan.id l) (Loan.id el)
                                         then spread_loan l student book else l)
                             (loans (data s)) |} s
         | None =>
             setData
               {| books := books (data s);
                  students := updatedStudents;
                  loans := (loans (data s) ++ [newLoan loan_uuid student book now])%list |} s
         end)
  end.

(** *** handleReturnBook *)

(** [{ ...l, returnDate: new Date().toISOString() }] *)
Definition returned (l : Loan.t) (now : instant) : Loan.t :=
  {| Loan.id := Loan.id l;
     Loan.studentName := Loan.studentName l;
     Loan.studentClass := Loan.studentClass l;
     Loan.bookId := Loan.bookId l;
     Loan.bookTitle := Loan.bookTitle l;
     Loan.loanDate := Loan.loanDate l;
     Loan.dueDate := Loan.dueDate l;
     Loan.returnDate := Some (toISOString now) |}.

Definition handleReturnBook (loanId : string) (now : instant) (s : State) : State :=
  setData (with_loans
             (map (fun l => if String.eqb (Loan.id l) loanId then returned l now else l)
                (loans (data s)))
             (data s)) s.

End WithPlatform.

(** *** executeDelete *)

Definition executeDelete (s : State) : State :=
  match confirmDelete s with
  | None => s
  | Some c =>
      let id := App.delete_id c in
      clearConfirmDelete
        (setData
           (match App.delete_type c with
            | App.type_book =>
                with_books
                  (filter (fun b => negb (String.eqb (Book.id b) id)) (books (data s)))
                  (data s)
            | App.type_student =>
                with_students
                  (filter (fun st => negb (String.eqb (Student.id st) id))
                     (students (data s)))
                  (data s)
            | App.type_loan =>
                with_loans
                  (filter (fun l => negb (String.eqb (Loan.id l) id)) (loans (data s)))
                  (data s)
            end) s)
  end.

End LocalApp.

(** ** src/components/ChangePasswordModal.tsx *)

Module ChangePasswordModal.

(** A JavaScript string as the sequence of its UTF-16 code units: the
    handler takes the [length] of the password and compares it with the
    confirmation. *)
Definition jsstring := list N.

(** [a === b] on strings *)
Fixpoint strict_equal (a b : jsstring) : bool :=
  match a, b with
  | [], [] => true
  | x :: a', y :: b' => N.eqb x y && strict_equal a' b'
  | _, _ => false
  end.

(** What [setError] is called with. *)
Inductive Message :=
| TooShort            (* A senha deve ter pelo menos 6 caracteres. *)
| Mismatch            (* As senhas nao coincidem. *)
| ErrorMessage (m : string)   (* err.message *)
| ChangeFailed.       (* Erro ao alterar a senha. *)

(** How [supabase.auth.updateUser] settles: without error, with an [error]
    (an [Error] carrying a message, which the handler throws), or by throwing
    something that is no [Error]. *)
Inductive UpdateUser :=
| Updated
| AuthError (message : string)
| Thrown.

Record State := {
  error : option Message;
  loading : bool
}.

(** What a submission did besides setting the state: the password sent to
    the service, if any, and whether [onSuccess] was called. *)
Record Effects := {
  sent : option jsstring;
  succeeded : bool
}.

Definition handleSubmit (newPassword confirmPassword : jsstring)
    (updateUser : jsstring -> UpdateUser) (s : State) : State * Effects :=
  if (List.length newPassword <? 6)%nat then
    ({| error := Some TooShort; loading := loading s |},
     {| sent := None; succeeded := false |})
  else if negb (strict_equal newPassword confirmPassword) then
    ({| error := Some Mismatch; loading := loading s |},
     {| sent := None; succeeded := false |})
  else
    match updateUser newPassword with
    | Updated =>
        ({| error := None; loading := false |},
         {| sent := Some newPassword; succeeded := true |})
    | AuthError m =>
        ({| error := Some (ErrorMessage m); loading := false |},
         {| sent := Some newPassword; succeeded := false |})
    | Thrown =>
        ({| error := Some ChangeFailed; loading := false |},
         {| sent := Some newPassword; succeeded := false |})
    end.

End ChangePasswordModal.

(** ** The handlers as relations

    Vocabulary for stating what a handler did: a weakest-precondition reading
    of [Async] computations, the frame relation between two states of the
    store, and the big-step description of [handleSaveLoan] phase by phase
    (resolve the student, write the loan, reload, close the form). *)

Module Semantics.
Import DateFns App Supabase.

(** [Q] holds of the way [m] settles from [w] and of the world it leaves. *)
Definition wp {A} (m : Async A) (w : World) (Q : outcome A -> World -> Prop) : Prop :=
  Q (fst (m w)) (snd (m w)).

(** The tables and the insertion counter agree; the fault plans may differ. *)
Definition same_tables (r r' : Remote) : Prop :=
  books_table r' = books_table r /\ students_table r' = students_table r
  /\ loans_table r' = loans_table r /\ inserted r' = inserted r.

(** Whether the next request fails, and the plan once a request went by. *)
Definition fails (r : Remote) : bool :=
  match faults r with
  | true :: _ => true
  | _ => false
  end.

Definition advanced (r r' : Remote) : Prop := faults r' = tl (faults r).

(** What identifies a loan and its period. *)
Definition loan_dates (r : LoanRow.t) : string * timestamp * timestamp :=
  (LoanRow.id r, LoanRow.loan_date r, LoanRow.due_date r).

Definition toast (m : ToastMessage) (t : ToastType) : Toast :=
  {| message := m; type := t |}.

(** The toasts an action showed, and whether one of them is an error. *)
Definition shown (w w' : World) : list Toast :=
  skipn (List.length (toasts (app w))) (toasts (app w')).

Definition failed (w w' : World) : Prop :=
  exists m, In (toast m error) (shown w w').

(** The property of an action that writes at most once: when it shows an
    error toast, no table changed and the snapshot is the one it started
    from. *)
Definition atomic (w w' : World) : Prop :=
  failed w w' ->
  same_tables (remote w) (remote w') /\ data (app w') = data (app w).

Definition closeLoanForm (s : State) : State :=
  setSelectedStudentId EmptyString (setEditingLoan None (setShowLoanForm false s)).

Definition reloaded (d : LibraryData) (s : State) : State :=
  setDataLoading false (setData d s).

Section WithPlatform.
Context {P : Platform}.

(** What the three fetches of [loadAllData] return. *)
Definition snapshot (r : Remote) : LibraryData :=
  {| books := map Db.rowToBook (order Db.by_title (books_table r));
     students := map Db.rowToStudent
                   (order Db.by_class_then_name (students_table r));
     loans := map Db.rowToLoan (order Db.by_loan_date_desc (loans_table r)) |}.

(** A student record matches the typed pair case-insensitively. *)
Definition matches (name cls : string) (s : Student.t) : Prop :=
  toLowerCase (Student.name s) = toLowerCase name
  /\ toLowerCase (Student.class s) = toLowerCase cls.

(** The guard of [handleSaveLoan]. *)
Definition invalid (f : LoanForm) (w : World) : Prop :=
  find (fun b => String.eqb (Book.id b) (form_bookId f)) (books (data (app w))) = None
  \/ trim (form_studentName f) = EmptyString
  \/ trim (form_studentClass f) = EmptyString.

(** The student step: found in the snapshot, or inserted (with its toast),
    or the insert rejected. *)
Inductive ResolveStudent (w : World) (name cls : string)
    : outcome Student.t -> World -> Prop :=
| rs_found s :
    find (same_student name cls) (students (data (app w))) = Some s ->
    ResolveStudent w name cls (Resolved s) w
| rs_rejected r1 :
    find (same_student name cls) (students (data (app w))) = None ->
    fails (remote w) = true ->
    same_tables (remote w) r1 ->
    advanced (remote w) r1 ->
    ResolveStudent w name cls Rejected {| app := app w; remote := r1 |}
| rs_inserted row r1 :
    find (same_student name cls) (students (data (app w))) = None ->
    fails (remote w) = false ->
    advanced (remote w) r1 ->
    row = {| StudentRow.id := gen_random_uuid (inserted (remote w));
             StudentRow.name := name; StudentRow.class := cls |} ->
    books_table r1 = books_table (remote w) ->
    students_table r1 = (students_table (remote w) ++ [row])%list ->
    loans_table r1 = loans_table (remote w) ->
    inserted r1 = S (inserted (remote w)) ->
    ResolveStudent w name cls (Resolved (Db.rowToStudent row))
      {| app := pushToast (toast (StudentAutoRegistered name) info) (app w);
         remote := r1 |}.

(** The argument of [updateLoan] in the edit branch. *)
Definition edit_patch (s : Student.t) (b : Book.t) : PartialLoan.t :=
  {| PartialLoan.studentName := Some (Student.name s);
     PartialLoan.studentClass := Some (Student.class s);
     PartialLoan.bookId := Some (Book.id b);
     PartialLoan.bookTitle := Some (Book.title b);
     PartialLoan.loanDate := None;
     PartialLoan.dueDate := None;
     PartialLoan.returnDate := None |}.

(** The row the create branch inserts. *)
Definition created_row (id : string) (s : Student.t) (b : Book.t) (now : instant)
    : LoanRow.t :=
  {| LoanRow.id := id;
     LoanRow.student_name := Student.name s;
     LoanRow.student_class := Student.class s;
     LoanRow.book_id := Some (Book.id b);
     LoanRow.book_title := Book.title b;
     LoanRow.loan_date := toISOString now;
     LoanRow.due_date := toISOString (addDays now 7);
     LoanRow.return_date := None |}.

(** The loan step: the update or the insert, done (with its toast) or
    rejected. *)
Inductive WriteLoan (el : option Loan.t) (s : Student.t) (b : Book.t)
    (now : instant) (w : World) : outcome unit -> World -> Prop :=
| wl_rejected r2 :
    fails (remote w) = true ->
    same_tables (remote w) r2 ->
    advanced (remote w) r2 ->
    WriteLoan el s b now w Rejected {| app := app w; remote := r2 |}
| wl_updated e r2 :
    el = Some e ->
    fails (remote w) = false ->
    advanced (remote w) r2 ->
    books_table r2 = books_table (remote w) ->
    students_table r2 = students_table (remote w) ->
    loans_table r2 = update_where LoanRow.id (Loan.id e)
                       (patch_loan (Db.loanToRow (edit_patch s b)))
                       (loans_table (remote w)) ->
    inserted r2 = inserted (remote w) ->
    WriteLoan el s b now w (Resolved tt)
      {| app := pushToast (toast LoanUpdated success) (app w); remote := r2 |}
| wl_inserted r2 :
    el = None ->
    fails (remote w) = false ->
    advanced (remote w) r2 ->
    books_table r2 = books_table (remote w) ->
    students_table r2 = students_table (remote w) ->
    loans_table r2 =
      (loans_table (remote w)
       ++ [created_row (gen_random_uuid (inserted (remote w))) s b now])%list ->
    inserted r2 = S (inserted (remote w)) ->
    WriteLoan el s b now w (Resolved tt)
      {| app := pushToast (toast (LoanRegistered (Book.title b)) success) (app w);
         remote := r2 |}.

(** The whole handler. *)
Inductive SaveLoanRun (f : LoanForm) (now : instant) (w : World) : World -> Prop :=
| sl_ignored :
    invalid f w -> SaveLoanRun f now w w
| sl_student_rejected w1 :
    ~ invalid f w ->
    ResolveStudent w (trim (form_studentName f)) (trim (form_studentClass f))
      Rejected w1 ->
    SaveLoanRun f now w
      {| app := closeLoanForm (pushToast (toast LoanSaveError error) (app w1));
         remote := remote w1 |}
| sl_write_rejected b s w1 w2 :
    find (fun b => String.eqb (Book.id b) (form_bookId f)) (books (data (app w)))
      = Some b ->
    ~ invalid f w ->
    ResolveStudent w (trim (form_studentName f)) (trim (form_studentClass f))
      (Resolved s) w1 ->
    WriteLoan (editingLoan (app w)) s b now w1 Rejected w2 ->
    SaveLoanRun f now w
      {| app := closeLoanForm (pushToast (toast LoanSaveError error) (app w2));
         remote := remote w2 |}
| sl_saved b s w1 w2 d r3 :
    find (fun b => String.eqb (Book.id b) (form_bookId f)) (books (data (app w)))
      = Some b ->
    ~ invalid f w ->
    ResolveStudent w (trim (form_studentName f)) (trim (form_studentClass f))
      (Resolved s) w1 ->
    WriteLoan (editingLoan (app w)) s b now w1 (Resolved tt) w2 ->
    same_tables (remote w2) r3 ->
    faults r3 = skipn 3 (faults (remote w2)) ->
    d = (if existsb (fun x => x) (firstn 3 (faults (remote w2)))
         then data (app w2) else snapshot (remote w2)) ->
    SaveLoanRun f now w
      {| app := closeLoanForm (reloaded d (app w2)); remote := r3 |}.

End WithPlatform.
End Semantics.

(** ** A reference platform and a reference JSON codec

    Executable instances of [Platform] and [JSON], used to run the handlers
    on concrete inputs: ASCII case folding and trimming, UTC as the local
    zone, byte-wise collation, and a self-delimiting textual encoding of JSON
    documents. *)

Module Reference.

Definition lower_ascii (c : ascii) : ascii :=
  let n := nat_of_ascii c in
  if ((65 <=? n) && (n <=? 90))%nat then ascii_of_nat (n + 32) else c.

Fixpoint lower (s : string) : string :=
  match s with
  | EmptyString => EmptyString
  | String c r => String (lower_ascii c) (lower r)
  end.

Definition is_space (c : ascii) : bool :=
  let n := nat_of_ascii c in
  ((n =? 32) || ((9 <=? n) && (n <=? 13)))%nat.

Fixpoint trim_start (s : string) : string :=
  match s with
  | String c r => if is_space c then trim_start r else s
  | EmptyString => EmptyString
  end.

Fixpoint rev_onto (acc s : string) : string :=
  match s with
  | EmptyString => acc
  | String c r => rev_onto (String c acc) r
  end.

Definition trim_ascii (s : string) : string :=
  rev_onto EmptyString (trim_start (rev_onto EmptyString (trim_start s))).

Fixpoint unary (n : nat) : string :=
  match n with
  | O => "."
  | S k => String "i"%char (unary k)
  end.

Definition platform : Platform :=
  {| toLowerCase := lower;
     trim := trim_ascii;
     LocalTZA := fun _ _ => 0;
     collate_leb := String.leb;
     gen_random_uuid := fun n => String.append "row" (unary n) |}.

(** *** The codec *)

Fixpoint print_pos (p : positive) : string :=
  match p with
  | xH => "."
  | xO q => String "0"%char (print_pos q)
  | xI q => String "1"%char (print_pos q)
  end.

Definition print_Z (z : Z) : string :=
  match z with
  | Z0 => "z"
  | Zpos p => String "+"%char (print_pos p)
  | Zneg p => String "-"%char (print_pos p)
  end.

Definition print_string (s : string) : string :=
  String.append (print_Z (Z.of_nat (String.length s))) s.

Fixpoint print (j : json) : string :=
  match j with
  | JNull => "n"
  | JBool true => "t"
  | JBool false => "f"
  | JNumber z => String "#"%char (print_Z z)
  | JString s => String "s"%char (print_string s)
  | JArray l =>
      String "["%char
        ((fix items (l : list json) : string :=
            match l with
            | [] => "]"
            | x :: r => String ","%char (String.append (print x) (items r))
            end) l)
  | JObject l =>
      String "{"%char
        ((fix members (l : list (string * json)) : string :=
            match l with
            | [] => "}"
            | (k, v) :: r =>
                String ","%char
                  (String.append (print_string k)
                     (String.append (print v) (members r)))
            end) l)
  end.

Fixpoint read_pos (s : string) : option (positive * string) :=
  match s with
  | String "."%char r => Some (xH, r)
  | String "0"%char r =>
      match read_pos r with Some (p, r') => Some (xO p, r') | None => None end
  | String "1"%char r =>
      match read_pos r with Some (p, r') => Some (xI p, r') | None => None end
  | _ => None
  end.

Definition read_Z (s : string) : option (Z * string) :=
  match s with
  | String "z"%char r => Some (0, r)
  | String "+"%char r =>
      match read_pos r with Some (p, r') => Some (Zpos p, r') | None => None end
  | String "-"%char r =>
      match read_pos r with Some (p, r') => Some (Zneg p, r') | None => None end
  | _ => None
  end.

Fixpoint take (n : nat) (s : string) : option (string * string) :=
  match n with
  | O => Some (EmptyString, s)
  | S k =>
      match s with
      | String c r =>
          match take k r with
          | Some (a, b) => Some (String c a, b)
          | None => None
          end
      | EmptyString => None
      end
  end.

Definition read_string (s : string) : option (string * string) :=
  match read_Z s with
  | Some (n, r) => if n <? 0 then None else take (Z.to_nat n) r
  | None => None
  end.

Inductive mode := Value | Items | Members.

Fixpoint read (fuel : nat) (m : mode) (s : string) : option (json * string) :=
  match fuel with
  | O => None
  | S fuel =>
      match m, s with
      | Value, String "n"%char r => Some (JNull, r)
      | Value, String "t"%char r => Some (JBool true, r)
      | Value, String "f"%char r => Some (JBool false, r)
      | Value, String "#"%char r =>
          match read_Z r with
          | Some (z, r') => Some (JNumber z, r')
          | None => None
          end
      | Value, String "s"%char r =>
          match read_string r with
          | Some (x, r') => Some (JString x, r')
          | None => None
          end
      | Value, String "["%char r => read fuel Items r
      | Value, String "{"%char r => read fuel Members r
      | Items, String "]"%char r => Some (JArray [], r)
      | Items, String ","%char r =>
          match read fuel Value r with
          | Some (x, r1) =>
              match read fuel Items r1 with
              | Some (JArray l, r2) => Some (JArray (x :: l), r2)
              | _ => None
              end
          | None => None
          end
      | Members, String "}"%char r => Some (JObject [], r)
      | Members, String ","%char r =>
          match read_string r with
          | Some (k, r0) =>
              match read fuel Value r0 with
              | Some (v, r1) =>
                  match read fuel Members r1 with
                  | Some (JObject l, r2) => Some (JObject ((k, v) :: l), r2)
                  | _ => None
                  end
              | None => None
              end
          | None => None
          end
      | _, _ => None
      end
  end.

Definition parse (s : string) : option json :=
  match read (S (String.length s)) Value s with
  | Some (j, EmptyString) => Some j
  | _ => None
  end.

Definition codec : JSON :=
  {| JSON_parse := parse; JSON_stringify := print |}.

(** The text of the items of an array and of the members of an object, and
    the fuel [read] needs for a document. *)
Definition print_items (l : list json) : string :=
  fold_right (fun x r => String ","%char (String.append (print x) r)) "]" l.

Definition print_members (l : list (string * json)) : string :=
  fold_right
    (fun kv r =>
       String ","%char
         (String.append (print_string (fst kv)) (String.append (print (snd kv)) r)))
    "}" l.

Fixpoint size (j : json) : nat :=
  match j with
  | JArray l => S (fold_right (fun x n => S (size x + n)) 1%nat l)
  | JObject l => S (fold_right (fun kv n => S (size (snd kv) + n)) 1%nat l)
  | _ => 1%nat
  end.

End Reference.

(** ** The text of JSON documents

    [JSON.stringify(value, null, gap)] and [JSON.parse] of ECMAScript, on the
    values that [json] has: a string is the sequence of the UTF-8 bytes of a
    well-formed string, a number is a safe integer.  [JSON.parse] reads
    numbers that [json] does not have (fractions, integers that are not
    safe); the parser below reads none for them. *)

Module JsonText.
Import Decimal DecimalString.

Definition quote : ascii := "034"%char.
Definition backslash : ascii := "\"%char.
Definition newline : ascii := "010"%char.

(** *** The own properties of an object

    [OrdinaryOwnPropertyKeys] lists the array-index keys first, in ascending
    order, then the other keys in the order of their creation;
    [CreateDataProperty] on a key that exists replaces the value where it
    stands. *)

Fixpoint read_digits (s : string) : Decimal.uint * string :=
  match s with
  | String "0"%char r => let (u, r') := read_digits r in (D0 u, r')
  | String "1"%char r => let (u, r') := read_digits r in (D1 u, r')
  | String "2"%char r => let (u, r') := read_digits r in (D2 u, r')
  | String "3"%char r => let (u, r') := read_digits r in (D3 u, r')
  | String "4"%char r => let (u, r') := read_digits r in (D4 u, r')
  | String "5"%char r => let (u, r') := read_digits r in (D5 u, r')
  | String "6"%char r => let (u, r') := read_digits r in (D6 u, r')
  | String "7"%char r => let (u, r') := read_digits r in (D7 u, r')
  | String "8"%char r => let (u, r') := read_digits r in (D8 u, r')
  | String "9"%char r => let (u, r') := read_digits r in (D9 u, r')
  | _ => (Nil, s)
  end.

(** [0], or digits that do not start with [0]. *)
Definition canonical (u : Decimal.uint) : bool :=
  match u with
  | Nil => false
  | D0 Nil => true
  | D0 _ => false
  | _ => true
  end.

(** The array index a property key spells, if any: a canonical numeral
    below [2^32 - 1]. *)
Definition array_index (k : string) : option N :=
  match read_digits k with
  | (u, EmptyString) =>
      if canonical u && (N.of_uint u <? 4294967295)%N
      then Some (N.of_uint u) else None
  | _ => None
  end.

Fixpoint set_string_key (k : string) (v : json) (members : list (string * json))
    : list (string * json) :=
  match members with
  | [] => [(k, v)]
  | (k', v') :: rest =>
      if String.eqb k' k then (k', v) :: rest
      else (k', v') :: set_string_key k v rest
  end.

Fixpoint set_index_key (n : N) (k : string) (v : json)
    (members : list (string * json)) : list (string * json) :=
  match members with
  | [] => [(k, v)]
  | (k', v') :: rest =>
      match array_index k' with
      | Some n' =>
          if (n' <? n)%N then (k', v') :: set_index_key n k v rest
          else if (n' =? n)%N then (k', v) :: rest
          else (k, v) :: members
      | None => (k, v) :: members
      end
  end.

(** [CreateDataProperty(object, k, v)], on the list of the own properties in
    the order of [OrdinaryOwnPropertyKeys]. *)
Definition set_property (k : string) (v : json) (members : list (string * json))
    : list (string * json) :=
  match array_index k with
  | Some n => set_index_key n k v members
  | None => set_string_key k v members
  end.

(** The object that the members of an object literal make, taken in their
    order. *)
Definition object_of (members : list (string * json)) : list (string * json) :=
  fold_left (fun object kv => set_property (fst kv) (snd kv) object) members [].

(** *** The terms of [json] that are values of JavaScript

    The members of an object are listed in the order of its own property
    keys, each key once; a number is a safe integer. *)

(** [k] is listed before [k'] in an object that has both. *)
Definition before (k k' : string) : bool :=
  match array_index k, array_index k' with
  | Some n, Some n' => (n <? n')%N
  | Some _, None => true
  | None, Some _ => false
  | None, None => negb (String.eqb k k')
  end.

Fixpoint keys_in_order (keys : list string) : bool :=
  match keys with
  | [] => true
  | k :: rest => forallb (before k) rest && keys_in_order rest
  end.

Fixpoint js_value (j : json) : bool :=
  match j with
  | JNumber n => Z.abs n <=? 9007199254740991
  | JArray l => forallb js_value l
  | JObject l =>
      keys_in_order (map fst l) && forallb (fun kv => js_value (snd kv)) l
  | _ => true
  end.

(** *** JSON.stringify *)

(** [Number::toString] of an integer below [10^21] in absolute value. *)
Definition print_number (z : Z) : string :=
  match z with
  | Z0 => "0"
  | Zpos p => NilEmpty.string_of_uint (Pos.to_uint p)
  | Zneg p => String "-"%char (NilEmpty.string_of_uint (Pos.to_uint p))
  end.

Definition hex_digit (n : N) : ascii :=
  ascii_of_N (if (n <? 10)%N then 48 + n else 87 + n).

(** [QuoteJSONString] on one byte: the quotation mark and the backslash are
    escaped, a control character is written by its short escape or as
    [\u00xx], any other byte stands for itself. *)
Definition escape_char (c : ascii) : string :=
  let n := N_of_ascii c in
  if (n =? 34)%N then String backslash (String quote EmptyString)
  else if (n =? 92)%N then String backslash (String backslash EmptyString)
  else if (n =? 8)%N then String backslash "b"
  else if (n =? 12)%N then String backslash "f"
  else if (n =? 10)%N then String backslash "n"
  else if (n =? 13)%N then String backslash "r"
  else if (n =? 9)%N then String backslash "t"
  else if (n <? 32)%N
       then String backslash
              (String "u"%char
                 (String "0"%char
                    (String "0"%char
                       (String (hex_digit (n / 16))
                          (String (hex_digit (n mod 16)) EmptyString)))))
  else String c EmptyString.

Fixpoint escape (s : string) : string :=
  match s with
  | EmptyString => EmptyString
  | String c r => String.append (escape_char c) (escape r)
  end.

Definition print_string (s : string) : string :=
  String quote (String.append (escape s) (String quote EmptyString)).

Fixpoint spaces (n : nat) : string :=
  match n with
  | O => EmptyString
  | S k => String " "%char (spaces k)
  end.

(** With a gap (the number of spaces of one level, at most ten), a line break
    and the indentation of the given depth; without one, nothing. *)
Definition line (gap depth : nat) : string :=
  match gap with
  | O => EmptyString
  | S _ => String newline (spaces (Nat.min gap 10 * depth))
  end.

(** What separates a key from its value. *)
Definition colon (gap : nat) : string :=
  match gap with
  | O => ":"
  | S _ => ": "
  end.

Fixpoint print (gap depth : nat) (j : json) : string :=
  match j with
  | JNull => "null"
  | JBool true => "true"
  | JBool false => "false"
  | JNumber z => print_number z
  | JString s => print_string s
  | JArray [] => "[]"
  | JArray (x :: l) =>
      String "["%char
        (String.append (line gap (S depth))
           (String.append (print gap (S depth) x)
              (fold_right
                 (fun y text =>
                    String ","%char
                      (String.append (line gap (S depth))
                         (String.append (print gap (S depth) y) text)))
                 (String.append (line gap depth) "]") l)))
  | JObject [] => "{}"
  | JObject (kv :: l) =>
      String "{"%char
        (String.append (line gap (S depth))
           (String.append (print_string (fst kv))
              (String.append (colon gap)
                 (String.append (print gap (S depth) (snd kv))
                    (fold_right
                       (fun kv' text =>
                          String ","%char
                            (String.append (line gap (S depth))
                               (String.append (print_string (fst kv'))
                                  (String.append (colon gap)
                                     (String.append
                                        (print gap (S depth) (snd kv')) text)))))
                       (String.append (line gap depth) "}") l)))))
  end.

(** [JSON.stringify(value, null, gap)] *)
Definition stringify (gap : nat) (j : json) : string := print gap 0 j.

(** *** JSON.parse *)

Definition is_ws (c : ascii) : bool :=
  let n := N_of_ascii c in
  ((n =? 32) || (n =? 9) || (n =? 10) || (n =? 13))%N.

Fixpoint skip_ws (s : string) : string :=
  match s with
  | String c r => if is_ws c then skip_ws r else s
  | EmptyString => EmptyString
  end.

(** The text after the prefix [p], if [s] starts with it. *)
Fixpoint after (p s : string) : option string :=
  match p with
  | EmptyString => Some s
  | String c p' =>
      match s with
      | String c' s' => if Ascii.eqb c c' then after p' s' else None
      | EmptyString => None
      end
  end.

Definition hex_value (c : ascii) : option N :=
  let n := N_of_ascii c in
  if ((48 <=? n) && (n <=? 57))%N then Some (n - 48)%N
  else if ((97 <=? n) && (n <=? 102))%N then Some (n - 87)%N
  else if ((65 <=? n) && (n <=? 70))%N then Some (n - 55)%N
  else None.

(** The code unit that [\uhhhh] denotes. *)
Definition code_unit (a b c d : ascii) : option N :=
  match hex_value a, hex_value b, hex_value c, hex_value d with
  | Some x, Some y, Some z, Some w => Some (((x * 16 + y) * 16 + z) * 16 + w)%N
  | _, _, _, _ => None
  end.

(** The UTF-8 bytes of a code point, before [rest]. *)
Definition utf8 (cp : N) (rest : string) : string :=
  if (cp <? 128)%N then String (ascii_of_N cp) rest
  else if (cp <? 2048)%N
       then String (ascii_of_N (192 + cp / 64))
              (String (ascii_of_N (128 + cp mod 64)) rest)
  else if (cp <? 65536)%N
       then String (ascii_of_N (224 + cp / 4096))
              (String (ascii_of_N (128 + (cp / 64) mod 64))
                 (String (ascii_of_N (128 + cp mod 64)) rest))
  else String (ascii_of_N (240 + cp / 262144))
         (String (ascii_of_N (128 + (cp / 4096) mod 64))
            (String (ascii_of_N (128 + (cp / 64) mod 64))
               (String (ascii_of_N (128 + cp mod 64)) rest))).

Definition high_surrogate (n : N) : bool := ((55296 <=? n) && (n <? 56320))%N.
Definition low_surrogate (n : N) : bool := ((56320 <=? n) && (n <? 57344))%N.

(** The escape after a backslash: the code point it denotes and the text
    after it.  A high surrogate followed by the escape of a low one makes one
    code point with it. *)
Definition read_escape (s : string) : option (N * string) :=
  match s with
  | String "034"%char r => Some (34%N, r)
  | String "\"%char r => Some (92%N, r)
  | String "/"%char r => Some (47%N, r)
  | String "b"%char r => Some (8%N, r)
  | String "f"%char r => Some (12%N, r)
  | String "n"%char r => Some (10%N, r)
  | String "r"%char r => Some (13%N, r)
  | String "t"%char r => Some (9%N, r)
  | String "u"%char (String h1 (String h2 (String h3 (String h4 r)))) =>
      match code_unit h1 h2 h3 h4 with
      | Some n =>
          if high_surrogate n then
            match r with
            | String "\"%char
                (String "u"%char
                   (String l1 (String l2 (String l3 (String l4 r'))))) =>
                match code_unit l1 l2 l3 l4 with
                | Some m =>
                    if low_surrogate m
                    then Some (65536 + (n - 55296) * 1024 + (m - 56320), r')%N
                    else Some (n, r)
                | None => Some (n, r)
                end
            | _ => Some (n, r)
            end
          else Some (n, r)
      | None => None
      end
  | _ => None
  end.

(** The characters of a string literal, from after its opening quotation
    mark, and the text after its closing one.  [fuel] bounds the length of
    the literal. *)
Fixpoint read_chars (fuel : nat) (s : string) : option (string * string) :=
  match fuel with
  | O => None
  | S fuel =>
      match s with
      | EmptyString => None
      | String c r =>
          if Ascii.eqb c quote then Some (EmptyString, r)
          else if Ascii.eqb c backslash then
            match read_escape r with
            | Some (cp, r1) =>
                match read_chars fuel r1 with
                | Some (x, r') => Some (utf8 cp x, r')
                | None => None
                end
            | None => None
            end
          else if (N_of_ascii c <? 32)%N then None
          else
            match read_chars fuel r with
            | Some (x, r') => Some (String c x, r')
            | None => None
            end
      end
  end.

(** A string literal, from after its opening quotation mark. *)
Definition read_string (s : string) : option (string * string) :=
  read_chars (String.length s) s.

(** The fraction of a numeral: its digits (none when there is no fraction)
    and the text after it.  A point takes at least one digit. *)
Definition read_fraction (s : string) : option (Decimal.uint * string) :=
  match s with
  | String "."%char r =>
      match read_digits r with
      | (Nil, _) => None
      | (u, r') => Some (u, r')
      end
  | _ => Some (Nil, s)
  end.

(** The exponent of a numeral ([0] when there is none) and the text after
    it.  The letter takes an optional sign and at least one digit. *)
Definition read_exponent (s : string) : option (Z * string) :=
  match s with
  | String "e"%char r | String "E"%char r =>
      let (negative, digits) :=
        match r with
        | String "-"%char r' => (true, r')
        | String "+"%char r' => (false, r')
        | _ => (false, r)
        end in
      match read_digits digits with
      | (Nil, _) => None
      | (u, r') =>
          Some (if negative : bool then - Z.of_N (N.of_uint u)
                else Z.of_N (N.of_uint u), r')
      end
  | _ => Some (0, s)
  end.

(** The number that the digits [u], the fraction [f] and the exponent [e]
    denote, when it is a safe integer: a number that [json] has. *)
Definition number_value (negative : bool) (u f : Decimal.uint) (e : Z)
    : option Z :=
  let mantissa := Z.of_N (N.of_uint (Decimal.app u f)) in
  let scale := e - Z.of_nat (Decimal.nb_digits f) in
  let magnitude :=
    if 0 <=? scale then Some (mantissa * 10 ^ scale)
    else if mantissa mod 10 ^ (- scale) =? 0
         then Some (mantissa / 10 ^ (- scale))
         else None in
  match magnitude with
  | Some v =>
      if v <=? 9007199254740991
      then Some (if negative then - v else v)
      else None
  | None => None
  end.

(** A numeral: an optional minus sign, canonical digits, an optional
    fraction and an optional exponent.  A numeral that denotes no safe
    integer denotes a number that [json] does not have: none is read. *)
Definition read_number (s : string) : option (Z * string) :=
  let (negative, digits) :=
    match s with
    | String "-"%char r => (true, r)
    | _ => (false, s)
    end in
  let (u, r) := read_digits digits in
  if canonical u then
    match read_fraction r with
    | Some (f, r1) =>
        match read_exponent r1 with
        | Some (e, r2) =>
            match number_value negative u f e with
            | Some z => Some (z, r2)
            | None => None
            end
        | None => None
        end
    | None => None
    end
  else None.

(** [string ws :], the start of a member. *)
Definition read_key (s : string) : option (string * string) :=
  match skip_ws s with
  | String "034"%char r =>
      match read_string r with
      | Some (k, r1) =>
          match skip_ws r1 with
          | String ":"%char r2 => Some (k, r2)
          | _ => None
          end
      | None => None
      end
  | _ => None
  end.

(** The text after the closing bracket [c], if that is what comes next. *)
Definition closes (c : ascii) (s : string) : option string :=
  match skip_ws s with
  | String c' r => if Ascii.eqb c' c then Some r else None
  | EmptyString => None
  end.

Inductive mode := Value | Elements | Members.

(** [Value]: a value; [Elements]: what follows an element of an array, up to
    the closing bracket; [Members]: what follows a member of an object, up to
    the closing brace, the members being given as they are written. *)
Fixpoint read (fuel : nat) (m : mode) (s : string) : option (json * string) :=
  match fuel with
  | O => None
  | S fuel =>
      let element (s : string) :=
        match read fuel Value s with
        | Some (x, r1) =>
            match read fuel Elements r1 with
            | Some (JArray l, r2) => Some (JArray (x :: l), r2)
            | _ => None
            end
        | None => None
        end in
      let member (s : string) :=
        match read_key s with
        | Some (k, r0) =>
            match read fuel Value r0 with
            | Some (v, r1) =>
                match read fuel Members r1 with
                | Some (JObject l, r2) => Some (JObject ((k, v) :: l), r2)
                | _ => None
                end
            | None => None
            end
        | None => None
        end in
      match m with
      | Value =>
          match skip_ws s with
          | String "n"%char r =>
              match after "ull" r with
              | Some r' => Some (JNull, r')
              | None => None
              end
          | String "t"%char r =>
              match after "rue" r with
              | Some r' => Some (JBool true, r')
              | None => None
              end
          | String "f"%char r =>
              match after "alse" r with
              | Some r' => Some (JBool false, r')
              | None => None
              end
          | String "034"%char r =>
              match read_string r with
              | Some (x, r') => Some (JString x, r')
              | None => None
              end
          | String "["%char r =>
              match closes "]" r with
              | Some r' => Some (JArray [], r')
              | None => element r
              end
          | String "{"%char r =>
              match closes "}" r with
              | Some r' => Some (JObject [], r')
              | None =>
                  match member r with
                  | Some (JObject l, r') => Some (JObject (object_of l), r')
                  | _ => None
                  end
              end
          | text =>
              match read_number text with
              | Some (z, r') => Some (JNumber z, r')
              | None => None
              end
          end
      | Elements =>
          match skip_ws s with
          | String "]"%char r => Some (JArray [], r)
          | String ","%char r => element r
          | _ => None
          end
      | Members =>
          match skip_ws s with
          | String "}"%char r => Some (JObject [], r)
          | String ","%char r => member r
          | _ => None
          end
      end
  end.

(** [JSON.parse(text)]: one value, with nothing but white space after it. *)
Definition parse (s : string) : option json :=
  match read (S (String.length s)) Value s with
  | Some (j, r) =>
      match skip_ws r with
      | EmptyString => Some j
      | _ => None
      end
  | None => None
  end.

(** [JSON.parse] with [JSON.stringify(value, null, gap)]. *)
Definition codec (gap : nat) : JSON :=
  {| JSON_parse := parse; JSON_stringify := stringify gap |}.

(** The text after the first element of an array, and after the first member
    of an object. *)
Definition print_elements (gap depth : nat) (l : list json) : string :=
  fold_right
    (fun y text =>
       String ","%char
         (String.append (line gap (S depth))
            (String.append (print gap (S depth) y) text)))
    (String.append (line gap depth) "]") l.

Definition print_members (gap depth : nat) (l : list (string * json)) : string :=
  fold_right
    (fun kv text =>
       String ","%char
         (String.append (line gap (S depth))
            (String.append (print_string (fst kv))
               (String.append (colon gap)
                  (String.append (print gap (S depth) (snd kv)) text)))))
    (String.append (line gap depth) "}") l.

(** The fuel [read] needs for a document. *)
Fixpoint size (j : json) : nat :=
  match j with
  | JArray l => fold_right (fun x n => S (size x + n)) 1%nat l
  | JObject l => fold_right (fun kv n => S (size (snd kv) + n)) 1%nat l
  | _ => 1%nat
  end.

(** The text ends a numeral. *)
Definition stop (rest : string) : bool :=
  match rest with
  | EmptyString => true
  | String c _ =>
      Ascii.eqb c ","%char || Ascii.eqb c "]"%char || Ascii.eqb c "}"%char
      || Ascii.eqb c newline
  end.

(** What starts a value: no white space, no closing bracket. *)
Definition opens (s : string) : Prop :=
  exists c r, s = String c r /\ is_ws c = false
              /\ c <> "]"%char /\ c <> "}"%char.

(** [read] gives back the value [j] from its text, whatever the gap and the
    depth it was written with. *)
Definition reads_back (j : json) : Prop :=
  forall gap depth fuel rest,
    (size j <= fuel)%nat -> stop rest = true ->
    read fuel Value (String.append (print gap depth j) rest) = Some (j, rest).

End JsonText.

(** ** Concrete scenarios

    Books, students, loans and worlds on which the handlers are run. *)

Module Scenario.

(** 2024-06-10T00:00:00.000Z *)
Definition june_10 : instant := 1717977600000.
(** 2024-06-09T12:00:00.000Z *)
Definition june_09_noon : instant := 1717934400000.
(** 2024-06-12T23:00:00.000Z *)
Definition june_12_23h : instant := 1718233200000.
(** 2024-06-13T00:01:00.000Z *)
Definition june_13_00h01 : instant := 1718236860000.
(** 2024-01-01T00:00:00.000Z *)
Definition january_01 : instant := 1704067200000.
(** 2024-01-08T00:00:00.000Z *)
Definition january_08 : instant := 1704672000000.
(** 2024-01-10T00:00:00.000Z *)
Definition january_10 : instant := 1704844800000.

(** An outstanding loan of Dune to Ana Silva, due at [due]. *)
Definition loan_due (due : timestamp) : Loan.t :=
  {| Loan.id := "l1";
     Loan.studentName := "Ana Silva";
     Loan.studentClass := "9A";
     Loan.bookId := Some "b1";
     Loan.bookTitle := "Dune";
     Loan.loanDate := due - 7 * 86400000;
     Loan.dueDate := due;
     Loan.returnDate := None |}.

Definition notification_due (due : timestamp) : App.Notification :=
  {| App.notification_id := "l1";
     App.notification_bookTitle := "Dune";
     App.notification_studentName := "Ana Silva";
     App.notification_due := due;
     App.notification_type := App.warning |}.

Definition dune : BookRow.t :=
  {| BookRow.id := "b1";
     BookRow.title := "Dune";
     BookRow.author := "Frank Herbert";
     BookRow.year := 1965;
     BookRow.publisher := "Chilton";
     BookRow.isbn := "9780441013593";
     BookRow.barcode := None;
     BookRow.edition_year := 1965;
     BookRow.location := "A1";
     BookRow.collection := None |}.

Definition ana : StudentRow.t :=
  {| StudentRow.id := "s1"; StudentRow.name := "Ana Silva"; StudentRow.class := "9A" |}.

(** Ana Silva's loan of Dune, taken on 2024-01-01 and given back on
    2024-01-10. *)
Definition returned_loan : LoanRow.t :=
  {| LoanRow.id := "l1";
     LoanRow.student_name := "Ana Silva";
     LoanRow.student_class := "9A";
     LoanRow.book_id := Some "b1";
     LoanRow.book_title := "Dune";
     LoanRow.loan_date := january_01;
     LoanRow.due_date := january_08;
     LoanRow.return_date := Some january_10 |}.

Definition store (ss : list StudentRow.t) (ls : list LoanRow.t) (fs : list bool)
    : Remote :=
  {| books_table := [dune]; students_table := ss; loans_table := ls;
     inserted := 0; faults := fs |}.

(** The component showing the loan form over a freshly loaded snapshot of
    the store, editing [el] if any. *)
Definition world (r : Remote) (el : option Loan.t) : App.World :=
  {| App.app :=
       {| App.data := Semantics.snapshot (P := Reference.platform) r;
          App.dataLoading := false;
          App.showBookForm := false;
          App.editingBook := None;
          App.showStudentForm := false;
          App.editingStudent := None;
          App.showLoanForm := true;
          App.editingLoan := el;
          App.selectedStudentId := EmptyString;
          App.confirmDelete := None;
          App.toasts := [] |};
     App.remote := r |}.

(** The form as typed: Dune for Ana Silva, 9A. *)
Definition form_ana : App.LoanForm :=
  {| App.form_bookId := "b1";
     App.form_studentName := "  Ana Silva ";
     App.form_studentClass := "9A" |}.

(** The same student in another case. *)
Definition form_ana_upper : App.LoanForm :=
  {| App.form_bookId := "b1";
     App.form_studentName := "ANA SILVA";
     App.form_studentClass := "9a" |}.

(** A book identifier no book has. *)
Definition form_unknown_book : App.LoanForm :=
  {| App.form_bookId := "b0";
     App.form_studentName := "Ana Silva";
     App.form_studentClass := "9A" |}.

(** A backup document whose [books] and [loans] are present but are not
    arrays, and which has no [students]. *)
Definition not_arrays : json :=
  JObject [("books", JNumber 1); ("loans", JBool true)].

(** A snapshot with one book and one loan, as JavaScript values. *)
Definition library : StorageService.LibraryData :=
  {| StorageService.books :=
       JArray [JObject [("id", JString "b1"); ("title", JString "Dune");
                        ("year", JNumber 1965)]];
     StorageService.loans :=
       JArray [JObject [("id", JString "l1"); ("bookId", JString "b1");
                        ("studentName", JString "Ana Silva");
                        ("returnDate", JNull)]];
     StorageService.students :=
       JArray [JObject [("id", JString "s1"); ("name", JString "Ana Silva");
                        ("class", JString "9A")]] |}.

(** A stored document that lacks [loans] and [students]. *)
Definition only_books : json :=
  JObject [("books", JArray [JObject [("id", JString "b1")]])].

(** The book form filled in for Solaris, which has no barcode and belongs
    to no collection. *)
Definition form_solaris : App.BookForm :=
  {| App.form_title := "Solaris";
     App.form_author := "Stanislaw Lem";
     App.form_year := 1961;
     App.form_publisher := "MON";
     App.form_isbn := "9780156027601";
     App.form_barcode := EmptyString;
     App.form_editionYear := 1970;
     App.form_location := "A2";
     App.form_hasCollection := "no";
     App.form_collection := EmptyString |}.

Definition solaris : BookData.t :=
  {| BookData.title := "Solaris";
     BookData.author := "Stanislaw Lem";
     BookData.year := 1961;
     BookData.publisher := "MON";
     BookData.isbn := "9780156027601";
     BookData.barcode := None;
     BookData.editionYear := 1970;
     BookData.location := "A2";
     BookData.collection := None |}.

Definition bruno : StudentData.t :=
  {| StudentData.name := "Bruno Costa"; StudentData.class := "8B" |}.

Definition bruno_row : StudentRow.t :=
  {| StudentRow.id := "s2"; StudentRow.name := "Bruno Costa";
     StudentRow.class := "8B" |}.

(** Ana Silva's loan of Dune, taken on 2024-01-01 and not given back. *)
Definition open_loan : LoanRow.t :=
  {| LoanRow.id := "l1";
     LoanRow.student_name := "Ana Silva";
     LoanRow.student_class := "9A";
     LoanRow.book_id := Some "b1";
     LoanRow.book_title := "Dune";
     LoanRow.loan_date := january_01;
     LoanRow.due_date := january_08;
     LoanRow.return_date := None |}.

(** The component asked to confirm the deletion of [c]. *)
Definition confirming (c : App.ConfirmDelete) (w : App.World) : App.World :=
  {| App.app := App.setConfirmDelete (Some c) (App.app w);
     App.remote := App.remote w |}.

(** The local-storage variant of the component, holding Dune, Ana Silva and
    her returned loan. *)
Definition local_state (el : option Loan.t) (c : option App.ConfirmDelete)
    : LocalApp.State :=
  {| LocalApp.data :=
       {| books := [Db.rowToBook dune];
          students := [Db.rowToStudent ana];
          loans := [Db.rowToLoan returned_loan] |};
     LocalApp.showBookForm := false;
     LocalApp.editingBook := None;
     LocalApp.showStudentForm := false;
     LocalApp.editingStudent := None;
     LocalApp.showLoanForm := true;
     LocalApp.editingLoan := el;
     LocalApp.confirmDelete := c |}.

(** The store holding Dune only, which never fails, under a freshly loaded
    component. *)
Definition fresh_world : App.World := world (store [] [] []) None.

(** The store holding Dune, Ana Silva and her outstanding loan. *)
Definition lending_world : App.World := world (store [ana] [open_loan] []) None.

Definition delete_dune : App.ConfirmDelete :=
  {| App.delete_type := App.type_book; App.delete_id := "b1" |}.

(** 2024-03-10T07:00:00.000Z: the clocks of New York go from 02:00 EST to
    03:00 EDT. *)
Definition dst_start : instant := 1710054000000.

(** The reference platform in New York around that date: UTC-5 before the
    change and UTC-4 from then on; a wall-clock reading the change skips is
    resolved with the offset before it. *)
Definition new_york : Platform :=
  {| toLowerCase := Reference.lower;
     trim := Reference.trim_ascii;
     LocalTZA := fun t isUTC =>
       if isUTC
       then if t <? dst_start then -18000000 else -14400000
       else if t <? dst_start - 14400000 then -18000000 else -14400000;
     collate_leb := String.leb;
     gen_random_uuid := fun n => String.append "row" (Reference.unary n) |}.

(** 2024-03-09T17:00:00.000Z, noon in New York on the day before the
    change, and 2024-03-10T16:00:00.000Z, noon on the day of the change, 23
    hours later. *)
Definition march_09_noon : instant := 1710003600000.
Definition march_10_noon : instant := 1710086400000.
(** 2024-03-16T16:00:00.000Z, noon in New York a week after the first. *)
Definition march_16_noon : instant := 1710604800000.

(** The form as typed for Bruno Costa, 8B. *)
Definition form_bruno : App.LoanForm :=
  {| App.form_bookId := "b1";
     App.form_studentName := "Bruno Costa";
     App.form_studentClass := "8B" |}.

(** A stored document whose [loans] member is a string. *)
Definition loans_text : json := JObject [("loans", JString "x")].

End Scenario.

(** * Properties *)

(** ** Calendar arithmetic *)

Module DateFacts.
Import DateFns.
Section WithPlatform.
Context {P : Platform}.

Lemma local_split (t : instant) :
  LocalTime t = localDay t * millisecondsInDay + localTime t
  /\ 0 <= localTime t < millisecondsInDay.
Proof.
  unfold localDay, localTime, millisecondsInDay. split.
  - rewrite Z.mul_comm. apply Z.div_mod. lia.
  - apply Z.mod_pos_bound. lia.
Qed.

Lemma local_unique (x d s : Z) :
  x = d * millisecondsInDay + s -> 0 <= s < millisecondsInDay ->
  x / millisecondsInDay = d /\ x mod millisecondsInDay = s.
Proof.
  intros -> H. unfold millisecondsInDay in *.
  rewrite Z.add_comm, Z.div_add, Z.mod_add, Z.div_small, Z.mod_small by lia.
  lia.
Qed.

(** The fields of a reading the zone shows. *)
Lemma localDay_ofLocal (d s : Z) :
  wall_clock_exists (d * millisecondsInDay + s) ->
  0 <= s < millisecondsInDay ->
  localDay (ofLocal d s) = d /\ localTime (ofLocal d s) = s.
Proof.
  unfold wall_clock_exists, localDay, localTime, ofLocal. intros -> H.
  now apply local_unique.
Qed.

(** [addDays] moves the wall-clock reading by whole days and lets the host
    resolve it. *)
Lemma addDays_wall_clock (t : instant) (n : Z) :
  n <> 0 -> addDays t n = UTC (LocalTime t + n * millisecondsInDay).
Proof.
  intros Hn. unfold addDays, setDate, ofLocal.
  destruct (Z.eqb_spec n 0); [contradiction|].
  destruct (local_split t) as [E _]. f_equal. lia.
Qed.

(** When the reading it moves to is one the zone shows, the result is on
    the calendar day [n] days on, at the same time of day, and the elapsed
    time is [n] times 24 hours less the change of offset. *)
Lemma addDays_calendar (t : instant) (n : Z) :
  wall_clock_exists (LocalTime t + n * millisecondsInDay) ->
  localDay (addDays t n) = localDay t + n
  /\ localTime (addDays t n) = localTime t
  /\ addDays t n - t
     = n * millisecondsInDay - (LocalTZA (addDays t n) true - LocalTZA t true).
Proof.
  intros W. destruct (local_split t) as [E B].
  unfold addDays. destruct (Z.eqb_spec n 0) as [->|Hn].
  - repeat split; lia.
  - unfold setDate.
    assert (W' : wall_clock_exists
                   ((localDay t + n) * millisecondsInDay + localTime t)).
    { replace ((localDay t + n) * millisecondsInDay + localTime t)
        with (LocalTime t + n * millisecondsInDay) by lia. exact W. }
    destruct (localDay_ofLocal _ _ W' B) as [Hd Ht].
    split; [exact Hd|]. split; [exact Ht|].
    unfold wall_clock_exists, ofLocal in *. unfold LocalTime at 1 in W'.
    unfold LocalTime in E. lia.
Qed.

Lemma compareLocalAsc_sgn (l r : instant) :
  compareLocalAsc l r = Z.sgn (LocalTime l - LocalTime r).
Proof.
  unfold compareLocalAsc, JS.or_else.
  destruct (local_split l) as [El Hl], (local_split r) as [Er Hr].
  rewrite El, Er.
  set (a := localDay l) in *. set (b := localDay r) in *.
  set (x := localTime l) in *. set (y := localTime r) in *.
  unfold millisecondsInDay in *.
  destruct (Z.eqb_spec (a - b) 0);
    repeat match goal with
           | |- context [?u <? ?v] => destruct (Z.ltb_spec u v)
           end; lia.
Qed.

Lemma localDay_startOfDay (t : instant) :
  day_begins (localDay t) -> localDay (startOfDay t) = localDay t.
Proof.
  unfold day_begins, startOfDay, ofLocal. rewrite Z.add_0_r.
  generalize (localDay t). intros d H. unfold localDay.
  unfold millisecondsInDay in *.
  symmetry.
  apply (Z.div_unique _ 86400000 d
           (LocalTime (UTC (d * 86400000)) - d * 86400000)); lia.
Qed.

Lemma differenceInCalendarDays_days (l r : instant) :
  day_begins (localDay l) -> day_begins (localDay r) ->
  differenceInCalendarDays l r = localDay l - localDay r.
Proof.
  unfold differenceInCalendarDays, getTimezoneOffsetInMilliseconds,
    Math_round_div, startOfDay, ofLocal, day_begins.
  rewrite !Z.add_0_r.
  set (a := localDay l). set (b := localDay r).
  set (sa := UTC (a * millisecondsInDay)). set (sb := UTC (b * millisecondsInDay)).
  intros Ha Hb. unfold millisecondsInDay in *.
  symmetry.
  apply (Z.div_unique _ (2 * 86400000) (a - b)
           (2 * (LocalTime sa - a * 86400000 - (LocalTime sb - b * 86400000))
            + 86400000)); lia.
Qed.

(** The shape of [differenceInDays]: the calendar days apart, less one
    when the last day is not full, with the sign of the comparison of the
    two readings. *)
Lemma differenceInDays_shape (l r : instant) :
  day_begins (localDay l) -> day_begins (localDay r) ->
  differenceInDays l r
  = Z.sgn (LocalTime l - LocalTime r)
    * (Z.abs (localDay l - localDay r)
       - (if Z.sgn (LocalTime (ofLocal (localDay r) (localTime l)) - LocalTime r)
             =? - Z.sgn (LocalTime l - LocalTime r)
          then 1 else 0)).
Proof.
  intros Hl Hr. unfold differenceInDays.
  rewrite differenceInCalendarDays_days by assumption.
  rewrite !compareLocalAsc_sgn.
  destruct (local_split l) as [El Bl], (local_split r) as [Er Br].
  assert (D : localDay l - Z.sgn (LocalTime l - LocalTime r)
                            * Z.abs (localDay l - localDay r) = localDay r).
  { rewrite El, Er.
    set (a := localDay l) in *. set (b := localDay r) in *.
    set (x := localTime l) in *. set (y := localTime r) in *.
    unfold millisecondsInDay in *.
    destruct (Z.lt_trichotomy (a * 86400000 + x) (b * 86400000 + y))
      as [H|[H|H]].
    - rewrite Z.sgn_neg by lia. assert (a <= b) by nia. lia.
    - rewrite H, Z.sub_diag. cbn. assert (a = b) by nia. lia.
    - rewrite Z.sgn_pos by lia. assert (b <= a) by nia. lia. }
  unfold setDate. rewrite D. reflexivity.
Qed.

(** When the time of day of [l] exists on the calendar day of [r], the
    number of full days is the difference of the two wall-clock readings in
    days, rounded towards zero. *)
Lemma differenceInDays_wall_clock (l r : instant) :
  day_begins (localDay l) -> day_begins (localDay r) ->
  wall_clock_exists (localDay r * millisecondsInDay + localTime l) ->
  differenceInDays l r = Z.quot (LocalTime l - LocalTime r) millisecondsInDay.
Proof.
  intros Hl Hr W. rewrite differenceInDays_shape by assumption.
  unfold ofLocal. rewrite W.
  destruct (local_split l) as [El Bl], (local_split r) as [Er Br].
  rewrite El, Er.
  set (a := localDay l) in *. set (b := localDay r) in *.
  set (x := localTime l) in *. set (y := localTime r) in *.
  replace (b * millisecondsInDay + x - (b * millisecondsInDay + y))
    with (x - y) by lia.
  set (L := a * millisecondsInDay + x). set (R := b * millisecondsInDay + y).
  assert (E : L - R = (a - b) * millisecondsInDay + (x - y)) by (subst L R; lia).
  unfold millisecondsInDay in *.
  symmetry.
  destruct (Z.lt_trichotomy L R) as [Hlt|[Heq|Hgt]].
  - rewrite (Z.sgn_neg (L - R)) by lia.
    assert (a <= b) by nia.
    rewrite Z.abs_neq by lia.
    replace (L - R) with (- (R - L)) by lia. rewrite Z.quot_opp_l by lia.
    match goal with
    | |- context [?u =? ?v] => destruct (Z.eqb_spec u v) as [e|e]
    end.
    + assert (0 < x - y) by lia.
      rewrite <- (Z.quot_unique (R - L) 86400000 (b - a - 1)
                    (86400000 - (x - y))); lia.
    + assert (x - y <= 0) by lia.
      rewrite <- (Z.quot_unique (R - L) 86400000 (b - a) (y - x)); lia.
  - rewrite Heq, Z.sub_diag. reflexivity.
  - rewrite (Z.sgn_pos (L - R)) by lia.
    assert (b <= a) by nia.
    rewrite Z.abs_eq by lia.
    match goal with
    | |- context [?u =? ?v] => destruct (Z.eqb_spec u v) as [e|e]
    end.
    + assert (x - y < 0) by lia.
      rewrite <- (Z.quot_unique (L - R) 86400000 (a - b - 1)
                    (86400000 + (x - y))); lia.
    + assert (0 <= x - y) by lia.
      rewrite <- (Z.quot_unique (L - R) 86400000 (a - b) (x - y)); lia.
Qed.

(** A date that is past, yet not more than a day before the start of the
    current day in full days, is overdue by no full day or by one. *)
Lemma differenceInDays_recent (now due : instant) :
  regular_zone -> due < now ->
  0 <= differenceInDays due (startOfDay now) ->
  differenceInDays now due = 0 \/ differenceInDays now due = 1.
Proof.
  intros (W & B & M) Hlt H0.
  pose proof (localDay_startOfDay now (B _)) as ET.
  rewrite differenceInDays_shape in H0 by apply B.
  rewrite differenceInDays_shape by apply B.
  specialize (M due now ltac:(lia)).
  destruct (local_split now) as [En Bn], (local_split due) as [Ed Bd],
    (local_split (startOfDay now)) as [Et Bt].
  rewrite ET in *.
  set (dn := localDay now) in *. set (dd := localDay due) in *.
  set (tn := localTime now) in *. set (td := localTime due) in *.
  set (tt := localTime (startOfDay now)) in *.
  assert (Hd : dn - 1 <= dd).
  { destruct (Z.le_gt_cases (dn - 1) dd) as [|Hc]; [assumption|exfalso].
    rewrite Ed, Et in H0. unfold millisecondsInDay in *.
    rewrite Z.sgn_neg in H0 by lia.
    match type of H0 with
    | context [if ?c then _ else _] => destruct c
    end; lia. }
  destruct (Z.eq_dec dd dn) as [Heq|Hne].
  - left. rewrite Heq, Z.sub_diag. cbn [Z.abs].
    unfold ofLocal. rewrite <- Heq. fold dd.
    replace (dd * millisecondsInDay + tn) with (LocalTime now)
      by (rewrite En, Heq; reflexivity).
    rewrite (W now).
    destruct (Z.sgn_spec (LocalTime now - LocalTime due))
      as [[_ ->]|[[_ ->]|[_ ->]]]; reflexivity.
  - assert (dd = dn - 1) by lia.
    rewrite En, Ed. unfold millisecondsInDay in *.
    rewrite (Z.sgn_pos (dn * 86400000 + tn - (dd * 86400000 + td))) by lia.
    replace (Z.abs (dn - dd)) with 1 by lia.
    match goal with
    | |- context [if ?c then _ else _] => destruct c
    end; [left|right]; reflexivity.
Qed.

(** *** Zones of constant offset *)

Section ConstantOffset.
Hypothesis C : constant_offset.

Lemma constant_wall_clock (x : Z) : wall_clock_exists x.
Proof.
  destruct C as [c Hc]. unfold wall_clock_exists, LocalTime, UTC.
  rewrite !Hc. lia.
Qed.

Lemma constant_day_begins (d : Z) : day_begins d.
Proof.
  unfold day_begins. rewrite constant_wall_clock. lia.
Qed.

Lemma constant_elapsed (l r : instant) : LocalTime l - LocalTime r = l - r.
Proof. destruct C as [c Hc]. unfold LocalTime. rewrite !Hc. lia. Qed.

Lemma constant_regular : regular_zone.
Proof.
  split; [|split].
  - intros t. apply constant_wall_clock.
  - apply constant_day_begins.
  - intros t1 t2 H. unfold localDay. apply Z.div_le_mono;
      [unfold millisecondsInDay; lia|].
    pose proof (constant_elapsed t2 t1). lia.
Qed.

(** Moving the calendar day by [n] moves the instant by [n] times 24 hours. *)
Lemma addDays_milliseconds (t : instant) (n : Z) :
  addDays t n = t + n * millisecondsInDay.
Proof.
  destruct (addDays_calendar t n (constant_wall_clock _)) as (_ & _ & E).
  destruct C as [c Hc]. rewrite !Hc in E. lia.
Qed.

Lemma startOfDay_bounds (t : instant) :
  startOfDay t <= t < startOfDay t + millisecondsInDay.
Proof.
  destruct C as [c Hc].
  unfold startOfDay, ofLocal, UTC. destruct (local_split t) as [E B].
  unfold LocalTime in E. rewrite !Hc in *. lia.
Qed.

(** The number of full days is the elapsed time in days, rounded towards
    zero. *)
Lemma differenceInDays_quot (l r : instant) :
  differenceInDays l r = Z.quot (l - r) millisecondsInDay.
Proof.
  rewrite differenceInDays_wall_clock, constant_elapsed;
    auto using constant_day_begins, constant_wall_clock.
Qed.

Lemma differenceInDays_floor (l r : instant) :
  r <= l -> differenceInDays l r = (l - r) / millisecondsInDay.
Proof.
  intros H. rewrite differenceInDays_quot.
  apply Z.quot_div_nonneg; unfold millisecondsInDay; lia.
Qed.

(** [0 <= diff <= 2] holds from one day before the reference instant
    (exclusive) to three days after it (exclusive). *)
Lemma differenceInDays_window (d today : instant) :
  (0 <=? differenceInDays d today) && (differenceInDays d today <=? 2) = true
  <-> today - millisecondsInDay < d < today + 3 * millisecondsInDay.
Proof.
  rewrite differenceInDays_quot. unfold millisecondsInDay.
  rewrite andb_true_iff, Z.leb_le, Z.leb_le.
  pose proof (Z.quot_rem' (d - today) 86400000) as E.
  destruct (Z.le_gt_cases 0 (d - today)) as [Hp|Hn].
  - pose proof (Z.rem_bound_pos_pos (d - today) 86400000 ltac:(lia) Hp). lia.
  - pose proof (Z.rem_bound_pos_neg (d - today) 86400000 ltac:(lia) ltac:(lia)).
    lia.
Qed.

End ConstantOffset.

End WithPlatform.
End DateFacts.

(** ** Loan status and due-soon notifications *)

Module DashboardFacts.
Import DateFns App.
Section WithPlatform.
Context {P : Platform}.

(** The badge in closed form. *)
Lemma LoanStatusBadge_eq (now : instant) (loan : Loan.t) :
  LoanStatusBadge now loan =
  match Loan.returnDate loan with
  | Some _ => Devolvido
  | None =>
      if parseISO (Loan.dueDate loan) <? now
      then Atrasado (differenceInDays now (parseISO (Loan.dueDate loan)))
      else EmAberto
  end.
Proof.
  unfold LoanStatusBadge, LoanStatusBadge_at, isAfter.
  destruct (Loan.returnDate loan); simpl; [reflexivity|].
  destruct (parseISO (Loan.dueDate loan) <? now); reflexivity.
Qed.

(** C2 (as amended). A loan with a return date is Returned.  A loan without
    one is Overdue exactly when [now] is strictly after its due date, and
    Open otherwise, in particular when [now] equals the due date.  The days
    of delay of an overdue loan are the full days between the wall-clock
    readings of the due date and of [now] in the zone of the host (the
    difference of the two readings in days, rounded towards zero), provided
    the two calendar days begin on themselves and the time of day of [now]
    exists on the calendar day of the due date; they are the floor of
    [now - dueDate] in days of 24 hours when, moreover, the offset from UTC
    is the same at the two instants. *)
Theorem LoanStatusBadge_classifies (now : instant) (loan : Loan.t) :
  (Loan.returnDate loan <> None -> LoanStatusBadge now loan = Devolvido)
  /\ (Loan.returnDate loan = None ->
      ((exists days, LoanStatusBadge now loan = Atrasado days)
         <-> parseISO (Loan.dueDate loan) < now)
      /\ (now <= parseISO (Loan.dueDate loan) ->
          LoanStatusBadge now loan = EmAberto)
      /\ (now = parseISO (Loan.dueDate loan) ->
          LoanStatusBadge now loan = EmAberto)
      /\ (parseISO (Loan.dueDate loan) < now ->
          day_begins (localDay now) ->
          day_begins (localDay (parseISO (Loan.dueDate loan))) ->
          wall_clock_exists
            (localDay (parseISO (Loan.dueDate loan)) * millisecondsInDay
             + localTime now) ->
          LoanStatusBadge now loan =
            Atrasado (Z.quot (LocalTime now
                              - LocalTime (parseISO (Loan.dueDate loan)))
                        millisecondsInDay)
          /\ (LocalTZA now true = LocalTZA (parseISO (Loan.dueDate loan)) true ->
              LoanStatusBadge now loan =
                Atrasado ((now - parseISO (Loan.dueDate loan))
                          / millisecondsInDay)))).
Proof.
  rewrite LoanStatusBadge_eq. split.
  - destruct (Loan.returnDate loan); [reflexivity|congruence].
  - intros ->.
    destruct (Z.ltb_spec (parseISO (Loan.dueDate loan)) now) as [Hlt|Hge].
    + split; [split; [auto|intros _; eauto]|].
      split; [lia|]. split; [lia|]. intros _ Bn Bd W.
      rewrite DateFacts.differenceInDays_wall_clock by assumption.
      split; [reflexivity|]. intros E. unfold LocalTime. rewrite E.
      replace (now + LocalTZA (parseISO (Loan.dueDate loan)) true
               - (parseISO (Loan.dueDate loan)
                  + LocalTZA (parseISO (Loan.dueDate loan)) true))
        with (now - parseISO (Loan.dueDate loan)) by lia.
      rewrite Z.quot_div_nonneg by (unfold millisecondsInDay; lia).
      reflexivity.
    + split; [split; [intros [days Hd]; discriminate Hd|lia]|].
      split; [reflexivity|]. split; [reflexivity|]. lia.
Qed.

(** The test of the second filter of the notification effect, in a zone of
    constant offset. *)
Lemma due_soon_window (today : instant) (l : Loan.t) :
  constant_offset ->
  (due_soon today l = true
   <-> today - millisecondsInDay < parseISO (Loan.dueDate l)
       < today + 3 * millisecondsInDay).
Proof. intros C. unfold due_soon. now apply DateFacts.differenceInDays_window. Qed.

(** The loans behind the notification list, in a zone of constant offset:
    the outstanding ones whose due date lies strictly between one day before
    and three days after the start of the current day. *)
Lemma upcoming_ids (now : instant) (ls : list Loan.t) :
  constant_offset ->
  map notification_id (upcoming now ls) =
  map Loan.id
    (filter (fun l =>
               match Loan.returnDate l with
               | Some _ => false
               | None =>
                   (startOfDay now - millisecondsInDay <? parseISO (Loan.dueDate l))
                   && (parseISO (Loan.dueDate l) <? startOfDay now + 3 * millisecondsInDay)
               end) ls).
Proof.
  intros C.
  unfold upcoming. rewrite map_map. simpl.
  change (fun x : Loan.t => Loan.id x) with Loan.id. f_equal.
  induction ls as [|l ls IH]; [reflexivity|].
  cbn [filter]. rewrite <- IH. clear IH.
  destruct (Loan.returnDate l) as [r|]; cbn [JS.truthy_timestamp negb];
    [reflexivity|].
  cbn [filter].
  match goal with
  | |- _ = (if ?c then _ else _) =>
      replace c with (due_soon (startOfDay now) l); [reflexivity|]
  end.
  apply Bool.eq_iff_eq_true.
  rewrite (due_soon_window _ _ C), andb_true_iff, !Z.ltb_lt. reflexivity.
Qed.

End WithPlatform.

(** The zone of the scenarios, with its change of offset, is regular. *)
Lemma new_york_regular : regular_zone (P := Scenario.new_york).
Proof.
  assert (L : forall t1 t2, t1 <= t2 ->
              LocalTime (P := Scenario.new_york) t1
              <= LocalTime (P := Scenario.new_york) t2).
  { intros t1 t2 H. unfold LocalTime. cbn. unfold Scenario.dst_start.
    destruct (Z.ltb_spec t1 1710054000000), (Z.ltb_spec t2 1710054000000); lia. }
  split; [|split].
  - intros t. unfold wall_clock_exists, LocalTime, UTC. cbn.
    unfold Scenario.dst_start.
    repeat match goal with
           | |- context [?u <? ?v] => destruct (Z.ltb_spec u v)
           end; lia.
  - intros d. unfold day_begins, LocalTime, UTC, millisecondsInDay. cbn.
    unfold Scenario.dst_start.
    repeat match goal with
           | |- context [?u <? ?v] => destruct (Z.ltb_spec u v)
           end; lia.
  - intros t1 t2 H. unfold localDay. apply Z.div_le_mono;
      [unfold millisecondsInDay; lia|auto].
Qed.

(** [addDays] across the change of offset: a week on the calendar, 167
    hours on the clock. *)
Example addDays_across_dst :
  addDays (P := Scenario.new_york) Scenario.march_09_noon 7
  = Scenario.march_16_noon
  /\ Scenario.march_16_noon - Scenario.march_09_noon = 167 * 3600000.
Proof. vm_compute. split; reflexivity. Qed.

(** The two examples of the specification, in UTC: with today
    2024-06-10 00:00, an outstanding loan due 2024-06-12 23:00 is notified
    and one due 2024-06-13 00:01 is not. *)
Example upcoming_june_12 :
  upcoming (P := Reference.platform) Scenario.june_10
    [Scenario.loan_due Scenario.june_12_23h]
  = [Scenario.notification_due Scenario.june_12_23h].
Proof. vm_compute. reflexivity. Qed.

Example upcoming_june_13 :
  upcoming (P := Reference.platform) Scenario.june_10
    [Scenario.loan_due Scenario.june_13_00h01]
  = [].
Proof. vm_compute. reflexivity. Qed.

(** C7. With today 2024-06-10 00:00 (UTC), an outstanding loan that was due
    on 2024-06-09 at 12:00, before the start of the current day, is in the
    due-soon list: its difference in full days to the start of today is
    zero. *)
Theorem upcoming_includes_loan_due_yesterday :
  DateFns.parseISO (Loan.dueDate (Scenario.loan_due Scenario.june_09_noon))
    < DateFns.startOfDay (P := Reference.platform) Scenario.june_10
  /\ DateFns.differenceInDays (P := Reference.platform)
       Scenario.june_09_noon
       (DateFns.startOfDay (P := Reference.platform) Scenario.june_10) = 0
  /\ upcoming (P := Reference.platform) Scenario.june_10
       [Scenario.loan_due Scenario.june_09_noon]
     = [Scenario.notification_due Scenario.june_09_noon].
Proof. repeat split. Qed.

(** C2, counterexample.  In New York a loan due at noon on 2024-03-09 is,
    at noon on 2024-03-10, 23 hours past its due date, the clocks having
    gone forward in between: the floor of [now - dueDate] in days is 0, and
    the badge shows 1 day of delay. *)
Lemma LoanStatusBadge_counts_calendar_days :
  Loan.returnDate (Scenario.loan_due Scenario.march_09_noon) = None
  /\ Scenario.march_10_noon
     - parseISO (Loan.dueDate (Scenario.loan_due Scenario.march_09_noon))
     = 23 * 3600000
  /\ (Scenario.march_10_noon
      - parseISO (Loan.dueDate (Scenario.loan_due Scenario.march_09_noon)))
     / millisecondsInDay = 0
  /\ LoanStatusBadge (P := Scenario.new_york) Scenario.march_10_noon
       (Scenario.loan_due Scenario.march_09_noon) = Atrasado 1.
Proof. vm_compute. repeat split. Qed.

(** C2 in New York: three days and five milliseconds after noon on
    2024-03-09, across the change of offset, the wall clock reads an hour
    more than three days later, and the loan is overdue by three full
    days. *)
Lemma LoanStatusBadge_classifies_witness :
  Loan.returnDate (Scenario.loan_due Scenario.march_09_noon) = None
  /\ parseISO (Loan.dueDate (Scenario.loan_due Scenario.march_09_noon))
       < Scenario.march_09_noon + 3 * 86400000 + 5
  /\ day_begins (P := Scenario.new_york)
       (localDay (P := Scenario.new_york)
          (Scenario.march_09_noon + 3 * 86400000 + 5))
  /\ day_begins (P := Scenario.new_york)
       (localDay (P := Scenario.new_york)
          (parseISO (Loan.dueDate (Scenario.loan_due Scenario.march_09_noon))))
  /\ wall_clock_exists (P := Scenario.new_york)
       (localDay (P := Scenario.new_york)
          (parseISO (Loan.dueDate (Scenario.loan_due Scenario.march_09_noon)))
        * millisecondsInDay
        + localTime (P := Scenario.new_york)
            (Scenario.march_09_noon + 3 * 86400000 + 5))
  /\ LoanStatusBadge (P := Scenario.new_york)
       (Scenario.march_09_noon + 3 * 86400000 + 5)
       (Scenario.loan_due Scenario.march_09_noon)
     = Atrasado (Z.quot (3 * 86400000 + 3600000 + 5) millisecondsInDay).
Proof.
  destruct new_york_regular as (W & B & _).
  assert (Wx : wall_clock_exists (P := Scenario.new_york)
                 (localDay (P := Scenario.new_york)
                    (parseISO (Loan.dueDate
                                 (Scenario.loan_due Scenario.march_09_noon)))
                  * millisecondsInDay
                  + localTime (P := Scenario.new_york)
                      (Scenario.march_09_noon + 3 * 86400000 + 5)))
    by (vm_compute; reflexivity).
  split; [reflexivity|]. split; [reflexivity|].
  split; [apply B|]. split; [apply B|]. split; [exact Wx|].
  exact (proj1 (proj2 (proj2 (proj2 (proj2 (LoanStatusBadge_classifies
           (P := Scenario.new_york)
           (Scenario.march_09_noon + 3 * 86400000 + 5)
           (Scenario.loan_due Scenario.march_09_noon)) eq_refl)))
         eq_refl (B _) (B _) Wx)).
Defined.

End DashboardFacts.

(** ** Reasoning rules for handlers *)

Module HandlerFacts.
Import DateFns App Supabase Semantics.
Section WithPlatform.
Context {P : Platform}.

Lemma wp_run (h : Async unit) (w : World) (Q : World -> Prop) :
  wp h w (fun _ w' => Q w') -> Q (run h w).
Proof. exact (fun H => H). Qed.

Lemma wp_ret {A} (a : A) w Q : Q (Resolved a) w -> wp (ret a) w Q.
Proof. exact (fun H => H). Qed.

Lemma wp_bind {A B} (m : Async A) (k : A -> Async B) w Q :
  wp m w (fun o w1 => match o with
                      | Resolved a => wp (k a) w1 Q
                      | Rejected => Q Rejected w1
                      end) ->
  wp (bind m k) w Q.
Proof. unfold wp, bind. destruct (m w) as [[a|] w1]; exact (fun H => H). Qed.

Lemma wp_try_catch (body handler : Async unit) w Q :
  wp body w (fun o w1 => match o with
                         | Resolved _ => Q (Resolved tt) w1
                         | Rejected => wp handler w1 Q
                         end) ->
  wp (try_catch body handler) w Q.
Proof.
  unfold wp, try_catch. destruct (body w) as [[[]|] w1]; exact (fun H => H).
Qed.

Lemma wp_set (f : State -> State) w Q :
  Q (Resolved tt) {| app := f (app w); remote := remote w |} -> wp (set f) w Q.
Proof. exact (fun H => H). Qed.

Lemma wp_showToast m t w Q :
  Q (Resolved tt) {| app := pushToast (toast m t) (app w); remote := remote w |} ->
  wp (showToast m t) w Q.
Proof. exact (fun H => H). Qed.

Lemma wp_await {A} (req : Request A) w Q :
  (forall o r, req (remote w) = (o, r) -> Q o {| app := app w; remote := r |}) ->
  wp (await req) w Q.
Proof.
  unfold wp, await. intros H.
  destruct (req (remote w)) as [o r] eqn:E. cbn. auto.
Qed.

Lemma wp_conseq {A} (m : Async A) w (Q Q' : outcome A -> World -> Prop) :
  wp m w Q -> (forall o w', Q o w' -> Q' o w') -> wp m w Q'.
Proof. unfold wp. auto. Qed.

(** *** Requests *)

Lemma same_tables_refl (r : Remote) : same_tables r r.
Proof. unfold same_tables. auto. Qed.

Lemma same_tables_trans (r1 r2 r3 : Remote) :
  same_tables r1 r2 -> same_tables r2 r3 -> same_tables r1 r3.
Proof. unfold same_tables. intuition congruence. Qed.

(** A request either fails, touching no table, or runs its operation on the
    tables as they are. *)
Lemma request_cases {A} (op : Remote -> outcome A * Remote) (r : Remote) o r' :
  request op r = (o, r') ->
  (fails r = true /\ o = Rejected /\ same_tables r r' /\ advanced r r')
  \/ (fails r = false
      /\ exists r0, same_tables r r0 /\ advanced r r0 /\ op r0 = (o, r')).
Proof.
  unfold request, same_tables, advanced, fails.
  destruct r as [bt st lt n [|[] fs]]; cbn; intros E.
  - right. split; [reflexivity|]. eexists. split; [|split; [|exact E]]; cbn; auto.
  - left. inversion E; subst. cbn. auto 10.
  - right. split; [reflexivity|]. eexists. split; [|split; [|exact E]]; cbn; auto.
Qed.

Lemma insertStudent_spec sd r o r' :
  Db.insertStudent sd r = (o, r') ->
  advanced r r'
  /\ ((fails r = true /\ o = Rejected /\ same_tables r r')
      \/ (exists row,
        fails r = false
        /\ o = Resolved (Db.rowToStudent row)
        /\ row = {| StudentRow.id := gen_random_uuid (inserted r);
                    StudentRow.name := StudentData.name sd;
                    StudentRow.class := StudentData.class sd |}
        /\ books_table r' = books_table r
        /\ loans_table r' = loans_table r
        /\ students_table r' = (students_table r ++ [row])%list
        /\ inserted r' = S (inserted r))).
Proof.
  intros E. apply request_cases in E.
  destruct E as [(F & -> & T & A)|(F & r0 & (Tb & Ts & Tl & Ti) & A & E)];
    [auto|].
  inversion E; subst. split; [exact A|]. right.
  eexists. split; [exact F|]. split; [reflexivity|]. cbn.
  rewrite Tb, Ts, Tl, Ti. auto 10.
Qed.

Lemma updateLoan_spec id p r o r' :
  Db.updateLoan id p r = (o, r') ->
  advanced r r'
  /\ ((fails r = true /\ o = Rejected /\ same_tables r r')
      \/ (fails r = false
      /\ o = Resolved tt
      /\ books_table r' = books_table r
      /\ students_table r' = students_table r
      /\ loans_table r' = update_where LoanRow.id id (patch_loan (Db.loanToRow p))
                            (loans_table r)
      /\ inserted r' = inserted r)).
Proof.
  intros E. apply request_cases in E.
  destruct E as [(F & -> & T & A)|(F & r0 & (Tb & Ts & Tl & Ti) & A & E)];
    [auto|].
  inversion E; subst. split; [exact A|]. right. cbn.
  rewrite Tb, Ts, Tl, Ti. auto 10.
Qed.

(** An insert whose body gives every column. *)
Lemma insertLoan_spec p row0 r o r' :
  (forall id, new_loan id (Db.loanToRow p) = Some (row0 id)) ->
  Db.insertLoan p r = (o, r') ->
  advanced r r'
  /\ ((fails r = true /\ o = Rejected /\ same_tables r r')
      \/ (fails r = false
          /\ o = Resolved (Db.rowToLoan (row0 (gen_random_uuid (inserted r))))
          /\ books_table r' = books_table r
          /\ students_table r' = students_table r
          /\ loans_table r'
             = (loans_table r ++ [row0 (gen_random_uuid (inserted r))])%list
          /\ inserted r' = S (inserted r))).
Proof.
  intros N E. apply request_cases in E.
  destruct E as [(F & -> & T & A)|(F & r0 & (Tb & Ts & Tl & Ti) & A & E)];
    [auto|].
  rewrite N in E. inversion E; subst. split; [exact A|]. right. cbn.
  rewrite Tb, Ts, Tl, Ti. auto 10.
Qed.

(** *** loadAllData never throws and writes nothing *)

(** The snapshot is replaced when the three fetches succeed and kept
    otherwise; the plan advances by three requests. *)
Lemma loadAllData_spec (w : World) :
  exists r',
    loadAllData w =
      (Resolved tt,
       {| app := reloaded
                   (if existsb (fun x => x) (firstn 3 (faults (remote w)))
                    then data (app w) else snapshot (remote w))
                   (app w);
          remote := r' |})
    /\ same_tables (remote w) r'
    /\ faults r' = skipn 3 (faults (remote w)).
Proof.
  destruct w as [s [bt st lt n fs]].
  unfold loadAllData, bind, try_catch, Promise_all3, await, set, ret,
    Db.fetchBooks, Db.fetchStudents, Db.fetchLoans, request, same_tables.
  cbn.
  destruct fs as [|[] [|[] [|[] fs]]]; cbn; eexists;
    (split; [reflexivity|]); cbn; auto.
Qed.

Lemma wp_loadAllData w (Q : outcome unit -> World -> Prop) :
  (forall d r',
     same_tables (remote w) r' ->
     faults r' = skipn 3 (faults (remote w)) ->
     d = (if existsb (fun x => x) (firstn 3 (faults (remote w)))
          then data (app w) else snapshot (remote w)) ->
     Q (Resolved tt) {| app := reloaded d (app w); remote := r' |}) ->
  wp loadAllData w Q.
Proof.
  intros H. unfold wp. destruct (loadAllData_spec w) as (r' & E & T & D).
  rewrite E. cbn. auto.
Qed.

(** *** handleSaveLoan, phase by phase *)

Lemma truthy_string_false s : JS.truthy_string s = false <-> s = EmptyString.
Proof.
  unfold JS.truthy_string. destruct (String.eqb_spec s EmptyString); cbn; split; congruence.
Qed.

Lemma wp_resolveStudent (w : World) name cls :
  wp (match find (same_student name cls) (students (data (app w))) with
      | Some s => ret s
      | None =>
          bind (await (Db.insertStudent
                         {| StudentData.name := name; StudentData.class := cls |}))
            (fun s => bind (showToast (StudentAutoRegistered name) info)
                        (fun _ => ret s))
      end) w (ResolveStudent w name cls).
Proof.
  destruct (find _ _) as [s|] eqn:F.
  - apply wp_ret. now constructor.
  - apply wp_bind, wp_await. intros o r E.
    apply insertStudent_spec in E.
    destruct E as [A [(Fl & -> & T)|(row & Fl & -> & Hrow & Tb & Tl & Ts & Ti)]].
    + destruct w; now constructor.
    + apply wp_bind, wp_showToast, wp_ret. cbn.
      destruct w as [s r0]. cbn in *. now apply rs_inserted.
Qed.

Lemma wp_writeLoan (el : option Loan.t) (s : Student.t) (b : Book.t)
    (now : instant) (w : World) :
  wp (match el with
      | Some e =>
          bind (await (Db.updateLoan (Loan.id e) (edit_patch s b)))
            (fun _ => showToast LoanUpdated success)
      | None =>
          bind (await (Db.insertLoan
                   {| PartialLoan.studentName := Some (Student.name s);
                      PartialLoan.studentClass := Some (Student.class s);
                      PartialLoan.bookId := Some (Book.id b);
                      PartialLoan.bookTitle := Some (Book.title b);
                      PartialLoan.loanDate := Some (toISOString now);
                      PartialLoan.dueDate := Some (toISOString (addDays now 7));
                      PartialLoan.returnDate := Some None |}))
            (fun _ => showToast (LoanRegistered (Book.title b)) success)
      end) w (WriteLoan el s b now w).
Proof.
  destruct el as [e|].
  - apply wp_bind, wp_await. intros o r E. apply updateLoan_spec in E.
    destruct E as [A [(Fl & -> & T)|(Fl & -> & Tb & Ts & Tl & Ti)]].
    + now constructor.
    + apply wp_showToast. cbn. now apply wl_updated with (e := e).
  - apply wp_bind, wp_await. intros o r E.
    apply insertLoan_spec with (row0 := fun id => created_row id s b now) in E;
      [|reflexivity].
    destruct E as [A [(Fl & -> & T)|(Fl & -> & Tb & Ts & Tl & Ti)]].
    + now constructor.
    + apply wp_showToast. cbn. now apply wl_inserted.
Qed.

(** Every run of the handler is one of the four shapes of [SaveLoanRun]. *)
Lemma handleSaveLoan_run (f : LoanForm) (now : instant) (w : World) :
  SaveLoanRun f now w (run (handleSaveLoan f now) w).
Proof.
  unfold run, handleSaveLoan.
  destruct (find _ (books (data (app w)))) as [b|] eqn:Fb;
    [|apply sl_ignored; left; exact Fb].
  destruct (JS.truthy_string (trim (form_studentName f))) eqn:Tn;
    [|apply sl_ignored; right; left; now apply truthy_string_false].
  destruct (JS.truthy_string (trim (form_studentClass f))) eqn:Tc;
    [|apply sl_ignored; right; right; now apply truthy_string_false].
  assert (V : ~ invalid f w).
  { intros [H|[H|H]].
    - congruence.
    - apply truthy_string_false in H. congruence.
    - apply truthy_string_false in H. congruence. }
  cbn [negb orb].
  match goal with
  | |- SaveLoanRun _ _ _ (snd (?m w)) =>
      change (wp m w (fun _ w' => SaveLoanRun f now w w'))
  end.
  apply wp_bind, wp_try_catch, wp_bind.
  eapply wp_conseq; [apply wp_resolveStudent|].
  intros [s|] w1 RS.
  - apply wp_bind. eapply wp_conseq; [apply (wp_writeLoan _ s b now)|].
    intros [[]|] w2 WL.
    + apply wp_loadAllData. intros d r3 T Fs D.
      do 2 apply wp_bind, wp_set. apply wp_set. cbn.
      now apply sl_saved with (b := b) (s := s) (w1 := w1) (w2 := w2).
    + apply wp_showToast. do 2 apply wp_bind, wp_set. apply wp_set. cbn.
      now apply sl_write_rejected with (b := b) (s := s) (w1 := w1) (w2 := w2).
  - apply wp_showToast. do 2 apply wp_bind, wp_set. apply wp_set. cbn.
    now apply sl_student_rejected.
Qed.

(** What the student step leaves alone. *)
Lemma ResolveStudent_frame w name cls o w1 :
  ResolveStudent w name cls o w1 ->
  books_table (remote w1) = books_table (remote w)
  /\ loans_table (remote w1) = loans_table (remote w)
  /\ data (app w1) = data (app w)
  /\ editingLoan (app w1) = editingLoan (app w).
Proof.
  intros [s F|r1 F Fl (Tb & Ts & Tl & Ti) A|row r1 F Fl A Hrow Tb Ts Tl Ti];
    cbn; auto.
Qed.

(** What the loan step leaves alone. *)
Lemma WriteLoan_frame el s b now w o w2 :
  WriteLoan el s b now w o w2 ->
  books_table (remote w2) = books_table (remote w)
  /\ students_table (remote w2) = students_table (remote w)
  /\ data (app w2) = data (app w).
Proof.
  intros [r2 Fl (Tb & Ts & Tl & Ti) A|e r2 E Fl A Tb Ts Tl Ti|r2 E Fl A Tb Ts Tl Ti];
    cbn; auto.
Qed.

(** The toasts of each step. *)
Lemma shown_app (w w' : World) (l : list Toast) :
  toasts (app w') = (toasts (app w) ++ l)%list -> shown w w' = l.
Proof.
  intros E. unfold shown. rewrite E, skipn_app, skipn_all, Nat.sub_diag.
  reflexivity.
Qed.

Lemma ResolveStudent_toasts w name cls o w1 :
  ResolveStudent w name cls o w1 ->
  exists l,
    toasts (app w1) = (toasts (app w) ++ l)%list
    /\ (l = [] \/ l = [toast (StudentAutoRegistered name) info]).
Proof.
  intros [s F|r1 F Fl T A|row r1 F Fl A Hrow Tb Ts Tl Ti]; cbn.
  - exists []. rewrite app_nil_r. auto.
  - exists []. rewrite app_nil_r. auto.
  - eexists. split; [reflexivity|auto].
Qed.

Lemma WriteLoan_toasts el s b now w o w2 :
  WriteLoan el s b now w o w2 ->
  match o with
  | Rejected => toasts (app w2) = toasts (app w)
  | Resolved _ =>
      exists m, toasts (app w2) = (toasts (app w) ++ [toast m success])%list
  end.
Proof.
  intros [r2 Fl T A|e r2 E Fl A Tb Ts Tl Ti|r2 E Fl A Tb Ts Tl Ti]; cbn; eauto.
Qed.

(** An action failed when its last toast is an error toast, and did not
    when none of its toasts is. *)
Lemma failed_intro (w w' : World) (l : list Toast) (m : ToastMessage) :
  toasts (app w') = (toasts (app w) ++ l ++ [toast m error])%list ->
  failed w w'.
Proof.
  intros E. exists m. rewrite (shown_app _ _ _ E).
  apply in_or_app. right. left. reflexivity.
Qed.

Lemma failed_elim (w w' : World) (l : list Toast) :
  toasts (app w') = (toasts (app w) ++ l)%list ->
  Forall (fun t => type t <> error) l ->
  ~ failed w w'.
Proof.
  intros E Hl (m & Hin). rewrite (shown_app _ _ _ E) in Hin.
  rewrite Forall_forall in Hl. apply Hl in Hin. apply Hin. reflexivity.
Qed.

Lemma update_where_keeps {A B} (get_id : A -> string) (id : string)
    (f : A -> A) (g : A -> B) (t : list A) :
  (forall row, g (f row) = g row) ->
  map g (update_where get_id id f t) = map g t.
Proof.
  intros H. unfold update_where. rewrite map_map. apply map_ext.
  intros row. destruct (String.eqb (get_id row) id); auto.
Qed.

End WithPlatform.
End HandlerFacts.

(** ** The loan lifecycle *)

Module LoanFacts.
Import DateFns App Supabase Semantics HandlerFacts.
Section WithPlatform.
Context {P : Platform}.

Lemma patch_keeps_dates (s : Student.t) (b : Book.t) (row : LoanRow.t) :
  loan_dates (patch_loan (Db.loanToRow (edit_patch s b)) row) = loan_dates row.
Proof. reflexivity. Qed.

(** The loans table after [handleSaveLoan]: as it was, or with the created
    row appended, outside edit mode; with the dates of every row as they
    were, in edit mode. *)
Lemma handleSaveLoan_loans (f : LoanForm) (now : instant) (w : World) :
  (editingLoan (app w) = None ->
   loans_table (remote (run (handleSaveLoan f now) w)) = loans_table (remote w)
   \/ exists id s b,
       loans_table (remote (run (handleSaveLoan f now) w))
         = (loans_table (remote w) ++ [created_row id s b now])%list)
  /\ (editingLoan (app w) <> None ->
      map loan_dates (loans_table (remote (run (handleSaveLoan f now) w)))
      = map loan_dates (loans_table (remote w))).
Proof.
  destruct (handleSaveLoan_run f now w)
    as [V|w1 V RS|b s w1 w2 Fb V RS WL|b s w1 w2 d r3 Fb V RS WL T Fs D].
  - split; intros _; [left|]; reflexivity.
  - apply ResolveStudent_frame in RS. destruct RS as (_ & Hl & _).
    cbn. rewrite Hl. split; intros _; [left|]; reflexivity.
  - apply ResolveStudent_frame in RS. destruct RS as (_ & Hl & _).
    inversion WL as [r2 Fl (Tb & Ts & Tl & Ti) A| |]; subst. cbn.
    rewrite Tl, Hl. split; intros _; [left|]; reflexivity.
  - apply ResolveStudent_frame in RS. destruct RS as (_ & Hl & _).
    destruct T as (_ & _ & T & _). cbn. rewrite T.
    inversion WL as [|e r2 E Fl A Tb Ts Tl Ti|r2 E Fl A Tb Ts Tl Ti]; subst; cbn.
    + split; [intros E'; congruence|intros _].
      rewrite Tl, Hl. apply update_where_keeps. apply patch_keeps_dates.
    + split; [intros _|intros E'; congruence].
      right. do 3 eexists. rewrite Tl, Hl. reflexivity.
Qed.

(** What [handleSaveLoan] does to the dates.  A loan written by the create
    branch has [loanDate = now] and [dueDate = addDays(now, 7)]; when the
    wall-clock reading seven calendar days after that of [now] is one the
    zone shows, the due date is on the seventh calendar day after the loan
    date, at the same time of day, and the time elapsed between the two is
    7 x 24 hours less the change of offset.  The edit branch leaves the
    identifier, [loanDate] and [dueDate] of every loan as they were. *)
Lemma handleSaveLoan_due_date (f : LoanForm) (now : instant) (w : World) :
  (editingLoan (app w) = None ->
   loans_table (remote (run (handleSaveLoan f now) w)) = loans_table (remote w)
   \/ exists row,
       loans_table (remote (run (handleSaveLoan f now) w))
         = (loans_table (remote w) ++ [row])%list
       /\ parseISO (LoanRow.loan_date row) = now
       /\ parseISO (LoanRow.due_date row)
          = addDays (parseISO (LoanRow.loan_date row)) 7
       /\ (wall_clock_exists (LocalTime now + 7 * millisecondsInDay) ->
           localDay (parseISO (LoanRow.due_date row))
           = localDay (parseISO (LoanRow.loan_date row)) + 7
           /\ localTime (parseISO (LoanRow.due_date row))
              = localTime (parseISO (LoanRow.loan_date row))
           /\ parseISO (LoanRow.due_date row) - parseISO (LoanRow.loan_date row)
              = 7 * millisecondsInDay
                - (LocalTZA (parseISO (LoanRow.due_date row)) true
                   - LocalTZA (parseISO (LoanRow.loan_date row)) true)))
  /\ (editingLoan (app w) <> None ->
      map loan_dates (loans_table (remote (run (handleSaveLoan f now) w)))
      = map loan_dates (loans_table (remote w))).
Proof.
  destruct (handleSaveLoan_loans f now w) as [Hc He]. split; [|exact He].
  intros E. destruct (Hc E) as [H|(id & s & b & H)]; [left; exact H|right].
  exists (created_row id s b now). split; [exact H|].
  unfold created_row, parseISO, toISOString.
  cbn [LoanRow.loan_date LoanRow.due_date].
  split; [reflexivity|]. split; [reflexivity|].
  apply DateFacts.addDays_calendar.
Qed.

(** C5 (as amended). [handleSaveLoan] gives up before any request, leaving
    the component and the store exactly as they were and showing no message,
    exactly when the book identifier resolves to no book of the snapshot or
    one of the two names is empty after trimming. *)
Theorem handleSaveLoan_ignored_iff (f : LoanForm) (now : instant) (w : World) :
  (invalid f w <-> run (handleSaveLoan f now) w = w)
  /\ (invalid f w ->
      remote (run (handleSaveLoan f now) w) = remote w
      /\ toasts (app (run (handleSaveLoan f now) w)) = toasts (app w)).
Proof.
  assert (G : forall w' : World,
             (exists t l, toasts (app w') = (toasts (app w) ++ l ++ [t])%list) ->
             w' <> w).
  { intros w' (t & l & E) ->. apply (f_equal (@List.length _)) in E.
    rewrite !length_app in E. cbn in E. lia. }
  destruct (handleSaveLoan_run f now w)
    as [V|w1 V RS|b s w1 w2 Fb V RS WL|b s w1 w2 d r3 Fb V RS WL T Fs D].
  - split; [tauto|auto].
  - split; [|tauto]. split; [tauto|]. intros E. exfalso. revert E. apply G.
    inversion RS; subst. cbn. exists (toast LoanSaveError error), []. reflexivity.
  - split; [|tauto]. split; [tauto|]. intros E. exfalso. revert E. apply G.
    inversion WL; subst. cbn. exists (toast LoanSaveError error).
    inversion RS; subst; cbn.
    + exists []. reflexivity.
    + eexists [_]. rewrite <- app_assoc. reflexivity.
  - split; [|tauto]. split; [tauto|]. intros E. exfalso. revert E. apply G.
    inversion WL; subst; cbn; inversion RS; subst; cbn;
      solve [ eexists; exists []; reflexivity
            | eexists; eexists [_]; rewrite <- app_assoc; reflexivity ].
Qed.

End WithPlatform.

(** C1.  A loan written by the create branch of [handleSaveLoan] has
    [loanDate = now] and [dueDate = addDays(loanDate, 7)]: the seventh
    calendar day after the loan date, at the same time of day, whenever the
    zone shows that reading.  The edit branch leaves the identifier,
    [loanDate] and [dueDate] of every loan as they were.  But the student is
    not all that an edit changes.  Ana Silva's loan of Dune, lent on
    2024-01-01, due on 2024-01-08 and given back on 2024-01-10, is opened in
    the loan form and saved for Bruno Costa of 8B: the stored loan keeps its
    identifier, loan date and due date and takes the name and class of the
    student, and its return date is erased. *)
Theorem edit_changes_more_than_student :
  (forall (P : Platform) (f : LoanForm) (now : instant) (w : World),
     (editingLoan (app w) = None ->
      loans_table (remote (run (handleSaveLoan f now) w)) = loans_table (remote w)
      \/ exists row,
          loans_table (remote (run (handleSaveLoan f now) w))
            = (loans_table (remote w) ++ [row])%list
          /\ parseISO (LoanRow.loan_date row) = now
          /\ parseISO (LoanRow.due_date row)
             = addDays (parseISO (LoanRow.loan_date row)) 7
          /\ (wall_clock_exists (LocalTime now + 7 * millisecondsInDay) ->
              localDay (parseISO (LoanRow.due_date row))
              = localDay (parseISO (LoanRow.loan_date row)) + 7
              /\ localTime (parseISO (LoanRow.due_date row))
                 = localTime (parseISO (LoanRow.loan_date row))))
     /\ (editingLoan (app w) <> None ->
         map loan_dates (loans_table (remote (run (handleSaveLoan f now) w)))
         = map loan_dates (loans_table (remote w))))
  /\ loans_table
       (remote (Scenario.world
                  (Scenario.store [Scenario.ana; Scenario.bruno_row]
                     [Scenario.returned_loan] [])
                  (Some (Db.rowToLoan Scenario.returned_loan))))
     = [{| LoanRow.id := "l1";
           LoanRow.student_name := "Ana Silva";
           LoanRow.student_class := "9A";
           LoanRow.book_id := Some "b1";
           LoanRow.book_title := "Dune";
           LoanRow.loan_date := Scenario.january_01;
           LoanRow.due_date := Scenario.january_08;
           LoanRow.return_date := Some Scenario.january_10 |}]
     /\ loans_table
          (remote (run (handleSaveLoan (P := Reference.platform)
                          Scenario.form_bruno Scenario.june_10)
                     (Scenario.world
                        (Scenario.store [Scenario.ana; Scenario.bruno_row]
                           [Scenario.returned_loan] [])
                        (Some (Db.rowToLoan Scenario.returned_loan)))))
        = [{| LoanRow.id := "l1";
              LoanRow.student_name := "Bruno Costa";
              LoanRow.student_class := "8B";
              LoanRow.book_id := Some "b1";
              LoanRow.book_title := "Dune";
              LoanRow.loan_date := Scenario.january_01;
              LoanRow.due_date := Scenario.january_08;
              LoanRow.return_date := None |}]
     /\ students_table
          (remote (run (handleSaveLoan (P := Reference.platform)
                          Scenario.form_bruno Scenario.june_10)
                     (Scenario.world
                        (Scenario.store [Scenario.ana; Scenario.bruno_row]
                           [Scenario.returned_loan] [])
                        (Some (Db.rowToLoan Scenario.returned_loan)))))
        = [Scenario.ana; Scenario.bruno_row].
Proof.
  split.
  - intros P f now w.
    destruct (handleSaveLoan_due_date f now w) as [Hc He]. split; [|exact He].
    intros E. destruct (Hc E) as [H|(row & H & Hl & Hd & Hw)]; [left; exact H|].
    right. exists row. repeat (split; [assumption|]).
    intros X. destruct (Hw X) as (D & T & _). split; assumption.
  - vm_compute. repeat split.
Qed.

(** A loan made in New York at noon on 2024-03-09, the day before the
    clocks go forward, is due at noon on 2024-03-16: seven calendar days
    and 167 hours later. *)
Example handleSaveLoan_due_date_new_york :
  editingLoan (app (Scenario.world (Scenario.store [] [] []) None)) = None
  /\ wall_clock_exists (P := Scenario.new_york)
       (LocalTime (P := Scenario.new_york) Scenario.march_09_noon
        + 7 * millisecondsInDay)
  /\ (loans_table (remote (run (handleSaveLoan (P := Scenario.new_york)
                                  Scenario.form_ana Scenario.march_09_noon)
                             (Scenario.world (Scenario.store [] [] []) None)))
      = []
      \/ exists row,
          loans_table (remote (run (handleSaveLoan (P := Scenario.new_york)
                                      Scenario.form_ana Scenario.march_09_noon)
                                 (Scenario.world (Scenario.store [] [] []) None)))
            = [row]
          /\ parseISO (LoanRow.loan_date row) = Scenario.march_09_noon
          /\ parseISO (LoanRow.due_date row)
             = addDays (P := Scenario.new_york) (parseISO (LoanRow.loan_date row)) 7
          /\ (wall_clock_exists (P := Scenario.new_york)
                (LocalTime (P := Scenario.new_york) Scenario.march_09_noon
                 + 7 * millisecondsInDay) ->
              localDay (P := Scenario.new_york) (parseISO (LoanRow.due_date row))
              = localDay (P := Scenario.new_york)
                  (parseISO (LoanRow.loan_date row)) + 7
              /\ localTime (P := Scenario.new_york) (parseISO (LoanRow.due_date row))
                 = localTime (P := Scenario.new_york)
                     (parseISO (LoanRow.loan_date row))
              /\ parseISO (LoanRow.due_date row) - parseISO (LoanRow.loan_date row)
                 = 7 * millisecondsInDay
                   - (LocalTZA (Platform := Scenario.new_york)
                        (parseISO (LoanRow.due_date row)) true
                      - LocalTZA (Platform := Scenario.new_york)
                          (parseISO (LoanRow.loan_date row)) true))).
Proof.
  split; [reflexivity|]. split; [vm_compute; reflexivity|].
  exact (proj1 (handleSaveLoan_due_date (P := Scenario.new_york)
                  Scenario.form_ana Scenario.march_09_noon
                  (Scenario.world (Scenario.store [] [] []) None)) eq_refl).
Qed.

(** The loan of that scenario, as stored. *)
Example handleSaveLoan_january :
  loans_table (remote (run (handleSaveLoan (P := Reference.platform)
                              Scenario.form_ana Scenario.january_01)
                         (Scenario.world (Scenario.store [] [] []) None)))
  = [ {| LoanRow.id := "rowi.";
         LoanRow.student_name := "Ana Silva";
         LoanRow.student_class := "9A";
         LoanRow.book_id := Some "b1";
         LoanRow.book_title := "Dune";
         LoanRow.loan_date := Scenario.january_01;
         LoanRow.due_date := Scenario.january_08;
         LoanRow.return_date := None |} ].
Proof. vm_compute. reflexivity. Qed.

(** C5, as stated, fails: submitting the loan form with a book identifier
    that no book has is a validation failure, yet nothing is reported: no
    toast is shown and the world after the handler is the world before. *)
Lemma handleSaveLoan_unknown_book_silent :
  invalid (P := Reference.platform) Scenario.form_unknown_book
    (Scenario.world (Scenario.store [] [] []) None)
  /\ toasts (app (run (handleSaveLoan (P := Reference.platform)
                         Scenario.form_unknown_book Scenario.january_01)
                    (Scenario.world (Scenario.store [] [] []) None))) = []
  /\ run (handleSaveLoan (P := Reference.platform)
            Scenario.form_unknown_book Scenario.january_01)
       (Scenario.world (Scenario.store [] [] []) None)
     = Scenario.world (Scenario.store [] [] []) None.
Proof. repeat split. left. reflexivity. Qed.

Lemma handleSaveLoan_ignored_iff_witness :
  invalid (P := Reference.platform) Scenario.form_unknown_book
    (Scenario.world (Scenario.store [] [] []) None)
  /\ remote (run (handleSaveLoan (P := Reference.platform)
                    Scenario.form_unknown_book Scenario.january_01)
               (Scenario.world (Scenario.store [] [] []) None))
     = Scenario.store [] [] []
  /\ toasts (app (run (handleSaveLoan (P := Reference.platform)
                         Scenario.form_unknown_book Scenario.january_01)
                    (Scenario.world (Scenario.store [] [] []) None))) = [].
Proof.
  assert (V : invalid (P := Reference.platform) Scenario.form_unknown_book
                (Scenario.world (Scenario.store [] [] []) None))
    by (left; reflexivity).
  split; [exact V|].
  exact (proj2 (handleSaveLoan_ignored_iff (P := Reference.platform)
                  Scenario.form_unknown_book Scenario.january_01
                  (Scenario.world (Scenario.store [] [] []) None)) V).
Defined.

End LoanFacts.

(** ** Students created on the way, and failed writes *)

Module EngineFacts.
Import DateFns App Supabase Semantics HandlerFacts.
Section WithPlatform.
Context {P : Platform}.

Lemma same_student_matches (name cls : string) (s : Student.t) :
  same_student name cls s = true <-> matches name cls s.
Proof.
  unfold same_student, matches.
  rewrite andb_true_iff, !String.eqb_eq. reflexivity.
Qed.

(** [find] returns the first matching student, and none when no student
    matches. *)
Lemma find_student (name cls : string) (ss : list Student.t) :
  (forall s, find (same_student name cls) ss = Some s ->
             In s ss /\ matches name cls s)
  /\ ((exists s, In s ss /\ matches name cls s) ->
      exists s, find (same_student name cls) ss = Some s)
  /\ ((forall s, In s ss -> ~ matches name cls s) ->
      find (same_student name cls) ss = None).
Proof.
  split; [|split].
  - intros s H. apply find_some in H as [Hin H].
    apply same_student_matches in H. auto.
  - intros (s & Hin & M).
    destruct (find (same_student name cls) ss) as [s'|] eqn:F; [eauto|].
    apply (find_none _ _ F) in Hin.
    apply same_student_matches in M. congruence.
  - intros H. destruct (find (same_student name cls) ss) as [s|] eqn:F;
      [|reflexivity].
    apply find_some in F as [Hin M]. apply same_student_matches in M.
    now apply H in Hin.
Qed.

Lemma fails_hd (r : Remote) : fails r = hd false (faults r).
Proof. unfold fails. destruct (faults r) as [|[] fs]; reflexivity. Qed.

(** C4. In the create branch, with a valid form: when a student of the
    snapshot matches the typed name and class case-insensitively, no row is
    added to [students] and the loan written carries the name and class of the
    (first) matching record as stored; when none matches, exactly one row is
    added, holding the trimmed name and class as typed, and the loan written
    carries them. *)
Theorem handleSaveLoan_student (f : LoanForm) (now : instant) (w : World) :
  ~ invalid f w ->
  editingLoan (app w) = None ->
  ((exists s0, In s0 (students (data (app w)))
               /\ matches (trim (form_studentName f)) (trim (form_studentClass f)) s0) ->
   exists s,
     In s (students (data (app w)))
     /\ matches (trim (form_studentName f)) (trim (form_studentClass f)) s
     /\ students_table (remote (run (handleSaveLoan f now) w))
        = students_table (remote w)
     /\ (fails (remote w) = false ->
         exists row,
           loans_table (remote (run (handleSaveLoan f now) w))
             = (loans_table (remote w) ++ [row])%list
           /\ LoanRow.student_name row = Student.name s
           /\ LoanRow.student_class row = Student.class s))
  /\ ((forall s, In s (students (data (app w))) ->
                 ~ matches (trim (form_studentName f)) (trim (form_studentClass f)) s) ->
      (fails (remote w) = true ->
       students_table (remote (run (handleSaveLoan f now) w))
         = students_table (remote w))
      /\ (fails (remote w) = false ->
          exists srow,
            students_table (remote (run (handleSaveLoan f now) w))
              = (students_table (remote w) ++ [srow])%list
            /\ StudentRow.name srow = trim (form_studentName f)
            /\ StudentRow.class srow = trim (form_studentClass f)
            /\ (hd false (tl (faults (remote w))) = false ->
                exists row,
                  loans_table (remote (run (handleSaveLoan f now) w))
                    = (loans_table (remote w) ++ [row])%list
                  /\ LoanRow.student_name row = trim (form_studentName f)
                  /\ LoanRow.student_class row = trim (form_studentClass f)))).
Proof.
  intros V El.
  destruct (find_student (trim (form_studentName f)) (trim (form_studentClass f))
              (students (data (app w)))) as (FS & FE & FN).
  destruct (handleSaveLoan_run f now w)
    as [V'|w1 V' RS|b s w1 w2 Fb V' RS WL|b s w1 w2 d r3 Fb V' RS WL T Fs D];
    [contradiction|..].
  - (* the student insert is rejected *)
    inversion RS as [|r1 F Fl (Tb & Ts & Tl & Ti) A|]; subst. cbn. split.
    + intros M. apply FE in M. destruct M as [s M]. congruence.
    + intros _. split; [auto|]. intros Fl'. congruence.
  - (* the loan insert is rejected *)
    inversion WL as [r2 Fl (Tb & Ts & Tl & Ti) A| |]; subst. cbn.
    inversion RS as [s' F| |row r1 F Fl' A' Hrow Tb' Ts' Tl' Ti']; subst; cbn in *.
    + split.
      * intros _. exists s. destruct (FS _ F) as [Hin M].
        repeat split; try assumption; try apply M. intros Fl'. congruence.
      * intros N. apply FN in N. congruence.
    + split.
      * intros M. apply FE in M. destruct M as [s M]. congruence.
      * intros _. split; [intros Fl''; congruence|]. intros _.
        eexists. rewrite Ts, Ts'. split; [reflexivity|]. cbn.
        repeat split. intros H.
        rewrite fails_hd, A' in Fl. congruence.
  - (* saved *)
    destruct T as (Tb3 & Ts3 & Tl3 & Ti3). cbn. rewrite Ts3, Tl3.
    inversion WL as [|e r2 E Fl A Tb Ts Tl Ti|r2 E Fl A Tb Ts Tl Ti]; subst;
      [congruence|]. cbn.
    inversion RS as [s' F| |row r1 F Fl' A' Hrow Tb' Ts' Tl' Ti']; subst; cbn in *.
    + split.
      * intros _. exists s. destruct (FS _ F) as [Hin M].
        repeat split; try assumption; try apply M. intros _.
        eexists. rewrite Tl. split; [reflexivity|]. cbn. auto.
      * intros N. apply FN in N. congruence.
    + split.
      * intros M. apply FE in M. destruct M as [s M]. congruence.
      * intros _. split; [intros Fl''; congruence|]. intros _.
        eexists. rewrite Ts, Ts'. split; [reflexivity|]. cbn.
        repeat split. intros _.
        eexists. rewrite Tl, Tl'. split; [reflexivity|]. cbn. auto.
Qed.

(** *** Editing a returned loan *)

(** The body [loanToRow] builds for an edit always carries
    [return_date: null]. *)
Lemma loanToRow_edit_return_date (s : Student.t) (b : Book.t) :
  LoanPatch.return_date (Db.loanToRow (edit_patch s b)) = Some None
  /\ LoanPatch.loan_date (Db.loanToRow (edit_patch s b)) = None
  /\ LoanPatch.due_date (Db.loanToRow (edit_patch s b)) = None.
Proof. repeat split. Qed.

(** So a successful edit leaves the edited loan without a return date,
    whatever it had. *)
Lemma handleSaveLoan_edit_return_date (f : LoanForm) (now : instant)
    (w : World) (e : Loan.t) :
  editingLoan (app w) = Some e ->
  ~ failed w (run (handleSaveLoan f now) w) ->
  ~ invalid f w ->
  forall row,
    In row (loans_table (remote (run (handleSaveLoan f now) w))) ->
    LoanRow.id row = Loan.id e ->
    LoanRow.return_date row = None.
Proof.
  intros El NF V.
  destruct (handleSaveLoan_run f now w)
    as [V'|w1 V' RS|b s w1 w2 Fb V' RS WL|b s w1 w2 d r3 Fb V' RS WL T Fs D];
    [contradiction|..].
  - exfalso. apply NF.
    apply ResolveStudent_toasts in RS. destruct RS as (l & E & _).
    apply failed_intro with (l := l) (m := LoanSaveError).
    cbn. rewrite E, app_assoc. reflexivity.
  - exfalso. apply NF.
    apply ResolveStudent_toasts in RS. destruct RS as (l & E & _).
    apply WriteLoan_toasts in WL.
    apply failed_intro with (l := l) (m := LoanSaveError).
    cbn. rewrite WL, E, app_assoc. reflexivity.
  - destruct T as (_ & _ & T & _). cbn. rewrite T.
    apply ResolveStudent_frame in RS. destruct RS as (_ & Hl & _ & He).
    inversion WL as [|e' r2 E Fl A Tb Ts Tl Ti|r2 E Fl A Tb Ts Tl Ti]; subst;
      [|congruence].
    cbn. rewrite Tl. intros row Hin Hid. unfold update_where in Hin.
    apply in_map_iff in Hin. destruct Hin as (row0 & <- & _).
    rewrite El in E. injection E as <-.
    destruct (String.eqb_spec (LoanRow.id row0) (Loan.id e)) as [_|Hne].
    + reflexivity.
    + contradiction.
Qed.

(** *** Failed actions *)

Ltac wp_request :=
  let o := fresh "o" in
  let r := fresh "r" in
  let E := fresh "E" in
  let Fl := fresh "Fl" in
  let T := fresh "T" in
  let A := fresh "A" in
  let r0 := fresh "r0" in
  apply wp_await; intros o r E; apply request_cases in E;
  destruct E as [(Fl & -> & T & A)|(Fl & r0 & T & A & E)];
  [ | cbn in E; inversion E; subst; clear E ].

Ltac closes_failed :=
  intros _; cbn; split; [assumption|reflexivity].

Ltac closes_saved :=
  let Hf := fresh "Hf" in
  intros Hf; exfalso; revert Hf;
  eapply failed_elim with (l := [_]);
  [cbn; reflexivity|repeat constructor; discriminate].

Lemma handleSaveBook_atomic (f : BookForm) (w : World) :
  atomic w (run (handleSaveBook f) w).
Proof.
  unfold run, handleSaveBook.
  match goal with
  | |- atomic _ (snd (?m w)) => change (wp m w (fun _ w' => atomic w w'))
  end.
  apply wp_bind, wp_try_catch, wp_bind.
  destruct (editingBook (app w)) as [eb|].
  - apply wp_bind. unfold Db.updateBook. wp_request.
    + apply wp_showToast. do 1 apply wp_bind, wp_set. apply wp_set.
      closes_failed.
    + apply wp_showToast, wp_loadAllData. intros d r3 T3 Fs D.
      apply wp_bind, wp_set, wp_set. closes_saved.
  - apply wp_bind. unfold Db.insertBook. wp_request.
    + apply wp_showToast. apply wp_bind, wp_set, wp_set. closes_failed.
    + apply wp_showToast, wp_loadAllData. intros d r3 T3 Fs D.
      apply wp_bind, wp_set, wp_set. closes_saved.
Qed.

Lemma handleSaveStudent_atomic (sd : StudentData.t) (w : World) :
  atomic w (run (handleSaveStudent sd) w).
Proof.
  unfold run, handleSaveStudent.
  match goal with
  | |- atomic _ (snd (?m w)) => change (wp m w (fun _ w' => atomic w w'))
  end.
  apply wp_bind, wp_try_catch, wp_bind.
  destruct (editingStudent (app w)) as [es|].
  - apply wp_bind. unfold Db.updateStudent. wp_request.
    + apply wp_showToast. apply wp_bind, wp_set, wp_set. closes_failed.
    + apply wp_showToast, wp_loadAllData. intros d r3 T3 Fs D.
      apply wp_bind, wp_set, wp_set. closes_saved.
  - apply wp_bind. unfold Db.insertStudent. wp_request.
    + apply wp_showToast. apply wp_bind, wp_set, wp_set. closes_failed.
    + apply wp_showToast, wp_loadAllData. intros d r3 T3 Fs D.
      apply wp_bind, wp_set, wp_set. closes_saved.
Qed.

Lemma handleReturnBook_atomic (loanId : string) (now : instant) (w : World) :
  atomic w (run (handleReturnBook loanId now) w).
Proof.
  unfold run, handleReturnBook.
  match goal with
  | |- atomic _ (snd (?m w)) => change (wp m w (fun _ w' => atomic w w'))
  end.
  apply wp_try_catch, wp_bind. unfold Db.updateLoan. wp_request.
  - apply wp_showToast. closes_failed.
  - apply wp_bind, wp_loadAllData. intros d r3 T3 Fs D.
    apply wp_showToast. closes_saved.
Qed.

Lemma executeDelete_atomic (w : World) :
  atomic w (run executeDelete w).
Proof.
  unfold run, executeDelete.
  destruct (confirmDelete (app w)) as [c|].
  2:{ intros (m & Hin). unfold shown in Hin. cbn in Hin.
      rewrite skipn_all in Hin. destruct Hin. }
  match goal with
  | |- atomic _ (snd (?m w)) => change (wp m w (fun _ w' => atomic w w'))
  end.
  apply wp_bind, wp_try_catch.
  destruct (delete_type c).
  - apply wp_bind. unfold Db.deleteBook. wp_request.
    + apply wp_showToast, wp_set. closes_failed.
    + do 2 apply wp_bind, wp_ret. apply wp_bind, wp_loadAllData.
      intros d r3 T3 Fs D. apply wp_showToast, wp_set. closes_saved.
  - apply wp_bind, wp_ret, wp_bind. unfold Db.deleteStudent. wp_request.
    + apply wp_showToast, wp_set. closes_failed.
    + apply wp_bind, wp_ret. apply wp_bind, wp_loadAllData.
      intros d r3 T3 Fs D. apply wp_showToast, wp_set. closes_saved.
  - do 2 apply wp_bind, wp_ret. apply wp_bind. unfold Db.deleteLoan. wp_request.
    + apply wp_showToast, wp_set. closes_failed.
    + apply wp_bind, wp_loadAllData.
      intros d r3 T3 Fs D. apply wp_showToast, wp_set. closes_saved.
Qed.

(** C6 (as amended). When an action shows an error toast, the in-memory
    snapshot is the one it started from and no row of [books] or [loans] was
    written.  The [students] table is unchanged too, except in one case: a
    loan save whose student matched no record, whose student insert
    succeeded and whose loan write was then rejected; the inserted student
    row stays in the store. *)
Theorem failed_action_effect (a : Action) (w : World) :
  failed w (run (handler a) w) ->
  data (app (run (handler a) w)) = data (app w)
  /\ books_table (remote (run (handler a) w)) = books_table (remote w)
  /\ loans_table (remote (run (handler a) w)) = loans_table (remote w)
  /\ (students_table (remote (run (handler a) w)) = students_table (remote w)
      \/ exists f now srow,
          a = SaveLoan f now
          /\ (forall s, In s (students (data (app w))) ->
                        ~ matches (trim (form_studentName f))
                            (trim (form_studentClass f)) s)
          /\ fails (remote w) = false
          /\ hd false (tl (faults (remote w))) = true
          /\ students_table (remote (run (handler a) w))
             = (students_table (remote w) ++ [srow])%list
          /\ StudentRow.name srow = trim (form_studentName f)
          /\ StudentRow.class srow = trim (form_studentClass f)).
Proof.
  assert (G : forall w' : World, atomic w w' -> failed w w' ->
            data (app w') = data (app w)
            /\ books_table (remote w') = books_table (remote w)
            /\ loans_table (remote w') = loans_table (remote w)
            /\ students_table (remote w') = students_table (remote w)).
  { intros w' At Hf. destruct (At Hf) as [(Tb & Ts & Tl & Ti) D]. auto. }
  destruct a as [bf|sd|f now|loanId now|]; cbn [handler]; intros Hf.
  - destruct (G _ (handleSaveBook_atomic bf w) Hf) as (D & Tb & Tl & Ts). auto.
  - destruct (G _ (handleSaveStudent_atomic sd w) Hf) as (D & Tb & Tl & Ts). auto.
  - revert Hf.
    destruct (handleSaveLoan_run f now w)
      as [V|w1 V RS|b s w1 w2 Fb V RS WL|b s w1 w2 d r3 Fb V RS WL T Fs D];
      intros Hf.
    + auto.
    + inversion RS as [|r1 F Fl (Tb & Ts & Tl & Ti) A|]; subst. cbn. auto.
    + inversion WL as [r2 Fl (Tb & Ts & Tl & Ti) A| |]; subst. cbn.
      inversion RS as [s' F| |row r1 F Fl' A' Hrow Tb' Ts' Tl' Ti'];
        subst; cbn in *.
      * auto.
      * rewrite Tb, Tl, Ts, Tb', Tl', Ts'.
        repeat split. right. exists f, now.
        eexists. split; [reflexivity|]. split.
        { intros s0 Hin M. apply same_student_matches in M.
          pose proof (find_none _ _ F _ Hin). congruence. }
        split; [exact Fl'|]. split; [|cbn; auto].
        rewrite fails_hd, A' in Fl. exact Fl.
    + exfalso. revert Hf.
      apply ResolveStudent_toasts in RS. destruct RS as (l & E & Hl).
      apply WriteLoan_toasts in WL. destruct WL as (m & WL).
      apply failed_elim with (l := (l ++ [toast m success])%list).
      * cbn. rewrite WL, E, app_assoc. reflexivity.
      * apply Forall_app. split; [|repeat constructor; discriminate].
        destruct Hl as [->| ->]; repeat constructor; discriminate.
  - destruct (G _ (handleReturnBook_atomic loanId now w) Hf) as (D & Tb & Tl & Ts).
    auto.
  - destruct (G _ (executeDelete_atomic w) Hf) as (D & Tb & Tl & Ts). auto.
Qed.

End WithPlatform.

(** C4 on the reference platform: the form typed in upper case resolves to
    the stored student Ana Silva, 9A. *)
Lemma handleSaveLoan_student_witness :
  ~ invalid (P := Reference.platform) Scenario.form_ana_upper
      (Scenario.world (Scenario.store [Scenario.ana] [] []) None)
  /\ editingLoan (app (Scenario.world (Scenario.store [Scenario.ana] [] []) None))
     = None
  /\ ((exists s0,
         In s0 (students (data (app (Scenario.world
                                      (Scenario.store [Scenario.ana] [] []) None))))
         /\ matches (P := Reference.platform) "ANA SILVA" "9a" s0) ->
      exists s,
        In s [Db.rowToStudent Scenario.ana]
        /\ matches (P := Reference.platform) "ANA SILVA" "9a" s
        /\ students_table
             (remote (run (handleSaveLoan (P := Reference.platform)
                             Scenario.form_ana_upper Scenario.january_01)
                        (Scenario.world (Scenario.store [Scenario.ana] [] []) None)))
           = [Scenario.ana]
        /\ (false = false ->
            exists row,
              loans_table
                (remote (run (handleSaveLoan (P := Reference.platform)
                                Scenario.form_ana_upper Scenario.january_01)
                           (Scenario.world (Scenario.store [Scenario.ana] [] []) None)))
              = [row]
              /\ LoanRow.student_name row = Student.name s
              /\ LoanRow.student_class row = Student.class s)).
Proof.
  assert (V : ~ invalid (P := Reference.platform) Scenario.form_ana_upper
                  (Scenario.world (Scenario.store [Scenario.ana] [] []) None)).
  { intros [H|[H|H]]; discriminate H. }
  split; [exact V|]. split; [reflexivity|].
  exact (proj1 (handleSaveLoan_student (P := Reference.platform)
                  Scenario.form_ana_upper Scenario.january_01
                  (Scenario.world (Scenario.store [Scenario.ana] [] []) None)
                  V eq_refl)).
Defined.

(** The two branches of C4 run: the upper-case form reuses Ana Silva as
    stored; with an empty roster the trimmed name is inserted as typed. *)
Example handleSaveLoan_reuses_student :
  let w' := run (handleSaveLoan (P := Reference.platform)
                   Scenario.form_ana_upper Scenario.january_01)
              (Scenario.world (Scenario.store [Scenario.ana] [] []) None) in
  students_table (remote w') = [Scenario.ana]
  /\ map LoanRow.student_name (loans_table (remote w')) = ["Ana Silva"]
  /\ map LoanRow.student_class (loans_table (remote w')) = ["9A"].
Proof. vm_compute. repeat split. Qed.

Example handleSaveLoan_registers_student :
  let w' := run (handleSaveLoan (P := Reference.platform)
                   Scenario.form_ana Scenario.january_01)
              (Scenario.world (Scenario.store [] [] []) None) in
  students_table (remote w')
  = [ {| StudentRow.id := "row."; StudentRow.name := "Ana Silva";
         StudentRow.class := "9A" |} ]
  /\ map LoanRow.student_name (loans_table (remote w')) = ["Ana Silva"].
Proof. vm_compute. repeat split. Qed.

(** C6, as stated, fails: the student insert succeeds, the loan insert is
    rejected, the error toast is shown, and the student row created on the
    way is still in the store. *)
Lemma failed_create_keeps_student :
  failed (Scenario.world (Scenario.store [] [] [false; true]) None)
    (run (handleSaveLoan (P := Reference.platform)
            Scenario.form_ana Scenario.january_01)
       (Scenario.world (Scenario.store [] [] [false; true]) None))
  /\ students_table (remote (Scenario.world (Scenario.store [] [] [false; true]) None))
     = []
  /\ students_table
       (remote (run (handleSaveLoan (P := Reference.platform)
                       Scenario.form_ana Scenario.january_01)
                  (Scenario.world (Scenario.store [] [] [false; true]) None)))
     = [ {| StudentRow.id := "row."; StudentRow.name := "Ana Silva";
            StudentRow.class := "9A" |} ]
  /\ loans_table
       (remote (run (handleSaveLoan (P := Reference.platform)
                       Scenario.form_ana Scenario.january_01)
                  (Scenario.world (Scenario.store [] [] [false; true]) None)))
     = [].
Proof.
  split; [|repeat split].
  exists LoanSaveError. vm_compute. auto.
Qed.

Lemma failed_action_effect_witness :
  failed (Scenario.world (Scenario.store [] [] [false; true]) None)
    (run (handler (P := Reference.platform)
            (SaveLoan Scenario.form_ana Scenario.january_01))
       (Scenario.world (Scenario.store [] [] [false; true]) None))
  /\ data (app (run (handler (P := Reference.platform)
                       (SaveLoan Scenario.form_ana Scenario.january_01))
                  (Scenario.world (Scenario.store [] [] [false; true]) None)))
     = data (app (Scenario.world (Scenario.store [] [] [false; true]) None)).
Proof.
  assert (F : failed (Scenario.world (Scenario.store [] [] [false; true]) None)
                (run (handler (P := Reference.platform)
                        (SaveLoan Scenario.form_ana Scenario.january_01))
                   (Scenario.world (Scenario.store [] [] [false; true]) None))).
  { exists LoanSaveError. vm_compute. auto. }
  split; [exact F|].
  exact (proj1 (failed_action_effect (P := Reference.platform)
                  (SaveLoan Scenario.form_ana Scenario.january_01)
                  (Scenario.world (Scenario.store [] [] [false; true]) None) F)).
Defined.

(** C3. Ana Silva's loan of Dune was given back on 2024-01-10.  Opening it
    in the loan form and saving it unchanged writes [return_date: null]: the
    stored row, and the loan of the reloaded snapshot, have no return date
    any more, and the badge no longer shows the loan as returned. *)
Theorem edit_clears_return_date :
  map LoanRow.return_date
    (loans_table (remote (Scenario.world
                            (Scenario.store [Scenario.ana] [Scenario.returned_loan] [])
                            (Some (Db.rowToLoan Scenario.returned_loan)))))
  = [Some Scenario.january_10]
  /\ map LoanRow.return_date
       (loans_table
          (remote (run (handleSaveLoan (P := Reference.platform)
                          Scenario.form_ana Scenario.january_10)
                     (Scenario.world
                        (Scenario.store [Scenario.ana] [Scenario.returned_loan] [])
                        (Some (Db.rowToLoan Scenario.returned_loan))))))
     = [None]
  /\ map Loan.returnDate
       (loans (data (app (run (handleSaveLoan (P := Reference.platform)
                                 Scenario.form_ana Scenario.january_10)
                            (Scenario.world
                               (Scenario.store [Scenario.ana] [Scenario.returned_loan] [])
                               (Some (Db.rowToLoan Scenario.returned_loan)))))))
     = [None]
  /\ map (LoanStatusBadge (P := Reference.platform) Scenario.january_10)
       (loans (data (app (run (handleSaveLoan (P := Reference.platform)
                                 Scenario.form_ana Scenario.january_10)
                            (Scenario.world
                               (Scenario.store [Scenario.ana] [Scenario.returned_loan] [])
                               (Some (Db.rowToLoan Scenario.returned_loan)))))))
     = [Atrasado 2].
Proof. vm_compute. repeat split. Qed.

End EngineFacts.

(** ** The reference codec is a codec *)

Module ReferenceFacts.
Import Reference.

Lemma json_induction (Q : json -> Prop) :
  Q JNull ->
  (forall b, Q (JBool b)) ->
  (forall n, Q (JNumber n)) ->
  (forall s, Q (JString s)) ->
  (forall l, Forall Q l -> Q (JArray l)) ->
  (forall l, Forall (fun kv => Q (snd kv)) l -> Q (JObject l)) ->
  forall j, Q j.
Proof.
  intros Hn Hb Hz Hs Ha Ho.
  fix IH 1. intros [|b|n|s|l|l]; [exact Hn|apply Hb|apply Hz|apply Hs| |].
  - apply Ha. induction l as [|x l IHl]; constructor; [apply IH|exact IHl].
  - apply Ho. induction l as [|[k v] l IHl]; constructor; [apply IH|exact IHl].
Qed.

Lemma read_pos_print (p : positive) (rest : string) :
  read_pos (String.append (print_pos p) rest) = Some (p, rest).
Proof. induction p as [p IH|p IH|]; cbn; rewrite ?IH; reflexivity. Qed.

Lemma read_Z_print (z : Z) (rest : string) :
  read_Z (String.append (print_Z z) rest) = Some (z, rest).
Proof. destruct z; cbn; rewrite ?read_pos_print; reflexivity. Qed.

Lemma take_append (s rest : string) :
  take (String.length s) (String.append s rest) = Some (s, rest).
Proof. induction s as [|c s IH]; cbn; rewrite ?IH; reflexivity. Qed.

Lemma append_assoc (a b c : string) :
  String.append (String.append a b) c = String.append a (String.append b c).
Proof. induction a as [|x a IH]; cbn; congruence. Qed.

Lemma read_string_print (s rest : string) :
  read_string (String.append (print_string s) rest) = Some (s, rest).
Proof.
  unfold read_string, print_string. rewrite append_assoc, read_Z_print.
  destruct (Z.ltb_spec (Z.of_nat (String.length s)) 0); [lia|].
  rewrite Nat2Z.id. apply take_append.
Qed.

Lemma print_array (l : list json) : print (JArray l) = String "["%char (print_items l).
Proof. reflexivity. Qed.
Lemma print_object (l : list (string * json)) : print (JObject l) = String "{"%char (print_members l).
Proof.
  unfold print_members. cbn [print]. apply f_equal.
  induction l as [|[k v] l IH]; [reflexivity|].
  cbn [fold_right fst snd]. rewrite <- IH. reflexivity.
Qed.

Lemma read_print (j : json) :
  forall fuel rest, (size j <= fuel)%nat ->
    read fuel Value (String.append (print j) rest) = Some (j, rest).
Proof.
  induction j as [|b|n|s|l IH|l IH] using json_induction; intros fuel rest Hf.
  - destruct fuel; [cbn in Hf; lia|]. reflexivity.
  - destruct fuel; [cbn in Hf; lia|]. destruct b; reflexivity.
  - destruct fuel; [cbn in Hf; lia|]. cbn. rewrite read_Z_print. reflexivity.
  - destruct fuel; [cbn in Hf; lia|]. cbn [print String.append read].
    rewrite read_string_print. reflexivity.
  - rewrite print_array. destruct fuel; [cbn in Hf; lia|].
    cbn [String.append read]. cbn [size] in Hf. apply le_S_n in Hf.
    revert fuel Hf. induction IH as [|x l Hx Hl IHl]; intros fuel Hf.
    + destruct fuel; [cbn in Hf; lia|]. reflexivity.
    + destruct fuel; [cbn in Hf; lia|]. cbn [fold_right] in Hf.
      cbn [print_items fold_right String.append read].
      rewrite append_assoc, Hx by lia.
      fold (print_items l). rewrite IHl by lia. reflexivity.
  - rewrite print_object. destruct fuel; [cbn in Hf; lia|].
    cbn [String.append read]. cbn [size] in Hf. apply le_S_n in Hf.
    revert fuel Hf. induction IH as [|[k v] l Hx Hl IHl]; intros fuel Hf.
    + destruct fuel; [cbn in Hf; lia|]. reflexivity.
    + destruct fuel; [cbn in Hf; lia|]. cbn [fold_right snd] in Hf.
      cbn [print_members fold_right String.append read fst snd].
      rewrite !append_assoc, read_string_print. cbn [snd] in Hx.
      rewrite Hx by lia.
      fold (print_members l). rewrite IHl by lia. reflexivity.
Qed.

Lemma length_append (a b : string) :
  String.length (String.append a b) = (String.length a + String.length b)%nat.
Proof. induction a; cbn; congruence. Qed.

Lemma size_length (j : json) : (size j <= String.length (print j))%nat.
Proof.
  induction j as [|b|n|s|l IH|l IH] using json_induction.
  - cbn. lia.
  - destruct b; cbn; lia.
  - cbn. lia.
  - cbn. lia.
  - rewrite print_array. cbn [size String.length]. apply le_n_S.
    induction IH as [|x l Hx Hl IHl]; cbn; [lia|].
    rewrite length_append. fold (print_items l). lia.
  - rewrite print_object. cbn [size String.length]. apply le_n_S.
    induction IH as [|[k v] l Hx Hl IHl]; cbn; [lia|].
    rewrite !length_append. fold (print_members l). cbn in Hx. lia.
Qed.

Lemma append_empty (s : string) : String.append s EmptyString = s.
Proof. induction s; cbn; congruence. Qed.

(** The reference codec reads back every document it writes. *)
Lemma parse_print (j : json) : parse (print j) = Some j.
Proof.
  unfold parse.
  rewrite <- (append_empty (print j)) at 2.
  rewrite read_print; [reflexivity|].
  pose proof (size_length j). lia.
Qed.

End ReferenceFacts.

(** ** JSON text: [JSON.parse] reads back what [JSON.stringify] writes *)

Module JsonTextFacts.
Import Decimal DecimalString DecimalFacts.
Import JsonText.
Import ReferenceFacts.

(** *** White space *)

Lemma skip_ws_idempotent (s : string) : skip_ws (skip_ws s) = skip_ws s.
Proof.
  induction s as [|c s IH]; [reflexivity|].
  cbn [skip_ws]. destruct (is_ws c) eqn:E; [exact IH|].
  cbn [skip_ws]. now rewrite E.
Qed.

Lemma skip_ws_spaces (n : nat) (s : string) :
  skip_ws (String.append (spaces n) s) = skip_ws s.
Proof. induction n as [|n IH]; [reflexivity|exact IH]. Qed.

Lemma skip_ws_line (gap depth : nat) (s : string) :
  skip_ws (String.append (line gap depth) s) = skip_ws s.
Proof. destruct gap; [reflexivity|]. apply skip_ws_spaces. Qed.

Lemma read_key_skip_ws (s : string) : read_key s = read_key (skip_ws s).
Proof. unfold read_key. now rewrite skip_ws_idempotent. Qed.

Lemma closes_skip_ws (c : ascii) (s : string) : closes c s = closes c (skip_ws s).
Proof. unfold closes. now rewrite skip_ws_idempotent. Qed.

(** [read] starts by skipping white space. *)
Lemma read_skip_ws (fuel : nat) (m : mode) (s : string) :
  read fuel m s = read fuel m (skip_ws s).
Proof.
  destruct fuel as [|fuel]; [reflexivity|].
  destruct m; cbn [read]; rewrite skip_ws_idempotent; reflexivity.
Qed.

Lemma read_line (fuel : nat) (m : mode) (gap depth : nat) (s : string) :
  read fuel m (String.append (line gap depth) s) = read fuel m s.
Proof.
  rewrite read_skip_ws, skip_ws_line, <- read_skip_ws. reflexivity.
Qed.

(** *** Numbers *)

Lemma read_digits_print (u : Decimal.uint) (rest : string) :
  read_digits rest = (Nil, rest) ->
  read_digits (String.append (NilEmpty.string_of_uint u) rest) = (u, rest).
Proof.
  intros H. induction u as [|u IH|u IH|u IH|u IH|u IH|u IH|u IH|u IH|u IH|u IH];
    cbn [NilEmpty.string_of_uint String.append read_digits];
    [exact H|..]; rewrite IH; reflexivity.
Qed.

Lemma stop_cases (rest : string) :
  stop rest = true ->
  rest = EmptyString
  \/ exists c r, rest = String c r
                 /\ (c = ","%char \/ c = "]"%char \/ c = "}"%char \/ c = newline).
Proof.
  destruct rest as [|c r]; [auto|]. intros H. right. exists c, r.
  split; [reflexivity|]. cbn [stop] in H.
  repeat (apply orb_true_iff in H; destruct H as [H|H]);
    apply Ascii.eqb_eq in H; auto.
Qed.

Lemma stop_no_digit (rest : string) :
  stop rest = true -> read_digits rest = (Nil, rest).
Proof.
  intros H. destruct (stop_cases rest H) as [->|(c & r & -> & [->|[->|[->| ->]]])];
    reflexivity.
Qed.

Lemma canonical_to_uint (p : positive) : canonical (Pos.to_uint p) = true.
Proof.
  pose proof (DecimalPos.Unsigned.to_uint_nonnil p) as Hn.
  pose proof (DecimalPos.Unsigned.to_uint_nonzero p) as Hz.
  pose proof (DecimalPos.Unsigned.to_of (Pos.to_uint p)) as Hu.
  rewrite DecimalPos.Unsigned.of_to in Hu. change (N.to_uint (N.pos p)) with (Pos.to_uint p) in Hu.
  destruct (Pos.to_uint p) as [|u|u|u|u|u|u|u|u|u|u] eqn:E; try reflexivity.
  - contradiction.
  - exfalso. unfold unorm in Hu.
    destruct (nzhead (D0 u)) eqn:Eh;
      try (symmetry in Hu; revert Hu; rewrite <- Eh; apply nzhead_nonzero);
      try discriminate.
    injection Hu as ->. now apply Hz.
Qed.

Lemma print_number_digits (p : positive) :
  exists c s, NilEmpty.string_of_uint (Pos.to_uint p) = String c s
              /\ In c ["0"; "1"; "2"; "3"; "4"; "5"; "6"; "7"; "8"; "9"]%char.
Proof.
  pose proof (DecimalPos.Unsigned.to_uint_nonnil p) as Hn.
  destruct (Pos.to_uint p); [contradiction|..];
    cbn [NilEmpty.string_of_uint]; do 2 eexists; (split; [reflexivity|]);
    cbn; tauto.
Qed.

Lemma read_fraction_stop (rest : string) :
  stop rest = true -> read_fraction rest = Some (Nil, rest).
Proof.
  intros H. destruct (stop_cases rest H) as [->|(c & r & -> & [->|[->|[->| ->]]])];
    reflexivity.
Qed.

Lemma read_exponent_stop (rest : string) :
  stop rest = true -> read_exponent rest = Some (0, rest).
Proof.
  intros H. destruct (stop_cases rest H) as [->|(c & r & -> & [->|[->|[->| ->]]])];
    reflexivity.
Qed.

Lemma number_value_integer (negative : bool) (u : Decimal.uint) :
  (N.of_uint u <= 9007199254740991)%N ->
  number_value negative u Nil 0
  = Some (if negative then - Z.of_N (N.of_uint u) else Z.of_N (N.of_uint u)).
Proof.
  intros H. unfold number_value. rewrite DecimalFacts.app_nil_r.
  cbn [Decimal.nb_digits Z.of_nat Z.sub Z.opp Z.add Z.leb Z.compare Z.pow Z.pow_pos
       Pos.iter].
  rewrite Z.mul_1_r.
  destruct (Z.leb_spec (Z.of_N (N.of_uint u)) 9007199254740991); [reflexivity|lia].
Qed.

Lemma read_number_sign (negative : bool) (u : Decimal.uint) (rest : string) :
  canonical u = true -> (N.of_uint u <= 9007199254740991)%N -> stop rest = true ->
  (let (u', r) := read_digits (String.append (NilEmpty.string_of_uint u) rest) in
   if canonical u' then
     match read_fraction r with
     | Some (f, r1) =>
         match read_exponent r1 with
         | Some (e, r2) =>
             match number_value negative u' f e with
             | Some z => Some (z, r2)
             | None => None
             end
         | None => None
         end
     | None => None
     end
   else None)
  = Some (if negative then - Z.of_N (N.of_uint u) else Z.of_N (N.of_uint u), rest).
Proof.
  intros Hc Hb Hs.
  rewrite (read_digits_print u rest (stop_no_digit rest Hs)), Hc.
  rewrite (read_fraction_stop rest Hs), (read_exponent_stop rest Hs).
  rewrite (number_value_integer negative u Hb). reflexivity.
Qed.

Lemma read_number_digits (u : Decimal.uint) (rest : string) :
  canonical u = true -> (N.of_uint u <= 9007199254740991)%N -> stop rest = true ->
  read_number (String.append (NilEmpty.string_of_uint u) rest)
  = Some (Z.of_N (N.of_uint u), rest).
Proof.
  intros Hc Hb Hs. unfold read_number.
  assert (E : match String.append (NilEmpty.string_of_uint u) rest with
              | String "-"%char r => (true, r)
              | _ => (false, String.append (NilEmpty.string_of_uint u) rest)
              end = (false, String.append (NilEmpty.string_of_uint u) rest)).
  { destruct u; try reflexivity. discriminate Hc. }
  rewrite E. exact (read_number_sign false u rest Hc Hb Hs).
Qed.

Lemma read_number_print (z : Z) (rest : string) :
  Z.abs z <= 9007199254740991 -> stop rest = true ->
  read_number (String.append (print_number z) rest) = Some (z, rest).
Proof.
  intros Hb Hs. destruct z as [|p|p]; cbn [print_number].
  - exact (read_number_digits (D0 Nil) rest eq_refl ltac:(cbn; lia) Hs).
  - assert (Hn : (N.of_uint (Pos.to_uint p) <= 9007199254740991)%N).
    { change (N.of_uint (Pos.to_uint p)) with (Pos.of_uint (Pos.to_uint p)).
      rewrite DecimalPos.Unsigned.of_to. cbn in Hb. lia. }
    rewrite (read_number_digits _ rest (canonical_to_uint p) Hn Hs).
    change (N.of_uint (Pos.to_uint p)) with (Pos.of_uint (Pos.to_uint p)).
    rewrite DecimalPos.Unsigned.of_to. reflexivity.
  - assert (Hn : (N.of_uint (Pos.to_uint p) <= 9007199254740991)%N).
    { change (N.of_uint (Pos.to_uint p)) with (Pos.of_uint (Pos.to_uint p)).
      rewrite DecimalPos.Unsigned.of_to. cbn in Hb. lia. }
    unfold read_number. cbn [String.append].
    rewrite (read_number_sign true _ rest (canonical_to_uint p) Hn Hs).
    change (N.of_uint (Pos.to_uint p)) with (Pos.of_uint (Pos.to_uint p)).
    rewrite DecimalPos.Unsigned.of_to. reflexivity.
Qed.

(** A numeral is read by [read_number]. *)
Lemma read_value_number (fuel : nat) (z : Z) (rest : string) :
  read (S fuel) Value (String.append (print_number z) rest)
  = match read_number (String.append (print_number z) rest) with
    | Some (z', r) => Some (JNumber z', r)
    | None => None
    end.
Proof.
  destruct z as [|p|p]; [reflexivity| |reflexivity].
  cbn [print_number].
  destruct (print_number_digits p) as (c & s & -> & Hin).
  cbn in Hin. decompose [or] Hin; subst; try reflexivity; contradiction.
Qed.

(** *** Strings *)

(** One step of [read_chars] reads back one escaped byte. *)
Lemma read_chars_escape_char (c : ascii) (fuel : nat) (r : string) :
  read_chars (S fuel) (String.append (escape_char c) r)
  = match read_chars fuel r with
    | Some (x, r') => Some (String c x, r')
    | None => None
    end.
Proof. destruct c as [[] [] [] [] [] [] [] []]; reflexivity. Qed.

Lemma read_chars_escape (s : string) :
  forall fuel rest, (String.length s < fuel)%nat ->
    read_chars fuel (String.append (escape s) (String quote rest))
    = Some (s, rest).
Proof.
  induction s as [|c s IH]; intros fuel rest Hf;
    (destruct fuel as [|fuel]; [cbn in Hf; lia|]).
  - reflexivity.
  - cbn [escape]. rewrite append_assoc, read_chars_escape_char.
    rewrite IH by (cbn in Hf; lia). reflexivity.
Qed.

Lemma length_escape_char (c : ascii) : (1 <= String.length (escape_char c))%nat.
Proof. destruct c as [[] [] [] [] [] [] [] []]; cbn; lia. Qed.

Lemma length_escape (s : string) :
  (String.length s <= String.length (escape s))%nat.
Proof.
  induction s as [|c s IH]; [reflexivity|].
  cbn [escape String.length]. rewrite length_append.
  pose proof (length_escape_char c). lia.
Qed.

Lemma read_string_escape (s rest : string) :
  read_string (String.append (escape s) (String quote rest)) = Some (s, rest).
Proof.
  unfold read_string. apply read_chars_escape.
  rewrite length_append. cbn [String.length].
  pose proof (length_escape s). lia.
Qed.

Lemma print_string_append (s rest : string) :
  String.append (print_string s) rest
  = String quote (String.append (escape s) (String quote rest)).
Proof. unfold print_string. cbn [String.append]. now rewrite append_assoc. Qed.

Lemma read_key_print (gap : nat) (k rest : string) :
  exists ws,
    read_key (String.append (print_string k) (String.append (colon gap) rest))
    = Some (k, String.append ws rest)
    /\ skip_ws (String.append ws rest) = skip_ws rest.
Proof.
  exists (match gap with O => EmptyString | S _ => " " end).
  rewrite print_string_append. unfold read_key.
  change (skip_ws (String quote ?s)) with (String quote s).
  cbv iota. rewrite read_string_escape. destruct gap; split; reflexivity.
Qed.

(** *** Objects *)

Lemma set_property_new (k : string) (v : json) (object : list (string * json)) :
  forallb (fun k' => before k' k) (map fst object) = true ->
  set_property k v object = (object ++ [(k, v)])%list.
Proof.
  unfold set_property, before. destruct (array_index k) as [n|] eqn:E.
  - induction object as [|[k' v'] object IH]; [reflexivity|].
    cbn [map fst forallb set_index_key app].
    destruct (array_index k') as [n'|]; [|discriminate].
    intros H. apply andb_true_iff in H. destruct H as [H1 H2].
    rewrite H1, (IH H2). reflexivity.
  - induction object as [|[k' v'] object IH]; [reflexivity|].
    cbn [map fst forallb set_string_key app].
    intros H. apply andb_true_iff in H. destruct H as [H1 H2].
    rewrite (IH H2).
    destruct (String.eqb_spec k' k) as [->|_]; [|reflexivity].
    rewrite E in H1. discriminate H1.
Qed.

Lemma keys_in_order_before (a : list string) (k : string) (r : list string) :
  keys_in_order (a ++ k :: r)%list = true ->
  forallb (fun k' => before k' k) a = true.
Proof.
  induction a as [|k0 a IH]; [reflexivity|].
  cbn [app keys_in_order forallb]. intros H.
  apply andb_true_iff in H. destruct H as [H1 H2].
  rewrite forallb_app in H1. apply andb_true_iff in H1. destruct H1 as [_ H1].
  cbn [forallb] in H1. apply andb_true_iff in H1. destruct H1 as [H1 _].
  rewrite H1, (IH H2). reflexivity.
Qed.

Lemma fold_set_property (l object : list (string * json)) :
  keys_in_order (map fst (object ++ l)%list) = true ->
  fold_left (fun object kv => set_property (fst kv) (snd kv) object) l object
  = (object ++ l)%list.
Proof.
  revert object. induction l as [|[k v] l IH]; intros object H.
  - now rewrite List.app_nil_r.
  - cbn [fold_left fst snd]. rewrite set_property_new.
    + rewrite IH; rewrite <- List.app_assoc; [reflexivity|exact H].
    + rewrite map_app in H. now apply keys_in_order_before in H.
Qed.

(** An object whose members are in the order of its keys is the object its
    members make. *)
Lemma object_of_in_order (l : list (string * json)) :
  keys_in_order (map fst l) = true -> object_of l = l.
Proof. intros H. unfold object_of. now rewrite fold_set_property. Qed.

(** *** Values *)

Lemma opens_print (gap depth : nat) (j : json) (rest : string) :
  opens (String.append (print gap depth j) rest).
Proof.
  assert (D : forall c, In c ["0"; "1"; "2"; "3"; "4"; "5"; "6"; "7"; "8"; "9"]%char ->
              is_ws c = false /\ c <> "]"%char /\ c <> "}"%char).
  { intros c Hin. cbn in Hin. decompose [or] Hin; subst;
      try contradiction; repeat split; discriminate. }
  destruct j as [|[]|[|p|p]|s|[|x l]|[|kv l]];
    try (do 2 eexists; split; [reflexivity|repeat split; discriminate]).
  cbn [print print_number].
  destruct (print_number_digits p) as (c & s & -> & Hin).
  exists c, (String.append s rest). split; [reflexivity|]. now apply D.
Qed.

Lemma closes_opens (c : ascii) (gap depth : nat) (s : string) :
  c = "]"%char \/ c = "}"%char -> opens s ->
  closes c (String.append (line gap depth) s) = None.
Proof.
  intros Hc (c' & r & -> & Hw & H1 & H2).
  rewrite closes_skip_ws, skip_ws_line. unfold closes. cbn [skip_ws].
  rewrite Hw. cbn [skip_ws]. rewrite Hw.
  destruct (Ascii.eqb_spec c' c) as [->|_]; [|reflexivity].
  destruct Hc; contradiction.
Qed.

Lemma print_array_cons (gap depth : nat) (x : json) (l : list json) :
  print gap depth (JArray (x :: l))
  = String "["%char
      (String.append (line gap (S depth))
         (String.append (print gap (S depth) x) (print_elements gap depth l))).
Proof. reflexivity. Qed.

Lemma print_object_cons (gap depth : nat) (k : string) (v : json)
    (l : list (string * json)) :
  print gap depth (JObject ((k, v) :: l))
  = String "{"%char
      (String.append (line gap (S depth))
         (String.append (print_string k)
            (String.append (colon gap)
               (String.append (print gap (S depth) v)
                  (print_members gap depth l))))).
Proof. reflexivity. Qed.

Lemma stop_line (gap depth : nat) (c : ascii) (rest : string) :
  c = "]"%char \/ c = "}"%char ->
  stop (String.append (line gap depth) (String c rest)) = true.
Proof. intros [->| ->]; destruct gap; reflexivity. Qed.

Lemma stop_elements (gap depth : nat) (l : list json) (rest : string) :
  stop (String.append (print_elements gap depth l) rest) = true.
Proof.
  destruct l as [|y l]; [|reflexivity].
  cbn [print_elements fold_right]. rewrite append_assoc.
  apply stop_line. now left.
Qed.

Lemma stop_members (gap depth : nat) (l : list (string * json)) (rest : string) :
  stop (String.append (print_members gap depth l) rest) = true.
Proof.
  destruct l as [|y l]; [|reflexivity].
  cbn [print_members fold_right]. rewrite append_assoc.
  apply stop_line. now right.
Qed.

(** The equations of [read]. *)
Lemma read_array (fuel : nat) (r : string) :
  read (S fuel) Value (String "["%char r)
  = match closes "]" r with
    | Some r' => Some (JArray [], r')
    | None =>
        match read fuel Value r with
        | Some (x, r1) =>
            match read fuel Elements r1 with
            | Some (JArray l, r2) => Some (JArray (x :: l), r2)
            | _ => None
            end
        | None => None
        end
    end.
Proof. reflexivity. Qed.

Lemma read_elements_close (fuel : nat) (r : string) :
  read (S fuel) Elements (String "]"%char r) = Some (JArray [], r).
Proof. reflexivity. Qed.

Lemma read_elements_comma (fuel : nat) (r : string) :
  read (S fuel) Elements (String ","%char r)
  = match read fuel Value r with
    | Some (x, r1) =>
        match read fuel Elements r1 with
        | Some (JArray l, r2) => Some (JArray (x :: l), r2)
        | _ => None
        end
    | None => None
    end.
Proof. reflexivity. Qed.

Lemma read_object (fuel : nat) (r : string) :
  read (S fuel) Value (String "{"%char r)
  = match closes "}" r with
    | Some r' => Some (JObject [], r')
    | None =>
        match
          match read_key r with
          | Some (k, r0) =>
              match read fuel Value r0 with
              | Some (v, r1) =>
                  match read fuel Members r1 with
                  | Some (JObject l, r2) => Some (JObject ((k, v) :: l), r2)
                  | _ => None
                  end
              | None => None
              end
          | None => None
          end
        with
        | Some (JObject l, r') => Some (JObject (object_of l), r')
        | _ => None
        end
    end.
Proof. reflexivity. Qed.

Lemma read_members_close (fuel : nat) (r : string) :
  read (S fuel) Members (String "}"%char r) = Some (JObject [], r).
Proof. reflexivity. Qed.

Lemma read_members_comma (fuel : nat) (r : string) :
  read (S fuel) Members (String ","%char r)
  = match read_key r with
    | Some (k, r0) =>
        match read fuel Value r0 with
        | Some (v, r1) =>
            match read fuel Members r1 with
            | Some (JObject l, r2) => Some (JObject ((k, v) :: l), r2)
            | _ => None
            end
        | None => None
        end
    | None => None
    end.
Proof. reflexivity. Qed.

Lemma read_print_elements (gap depth : nat) (l : list json) :
  Forall reads_back l ->
  forall fuel rest,
    (fold_right (fun x n => S (size x + n)) 1 l <= fuel)%nat ->
    read fuel Elements (String.append (print_elements gap depth l) rest)
    = Some (JArray l, rest).
Proof.
  induction 1 as [|y l Hy Hl IH]; intros fuel rest Hf;
    (destruct fuel as [|fuel]; [cbn in Hf; lia|]).
  - cbn [print_elements fold_right]. rewrite append_assoc, read_line.
    apply read_elements_close.
  - cbn [fold_right] in Hf. cbn [print_elements fold_right String.append].
    fold (print_elements gap depth l).
    rewrite read_elements_comma, !append_assoc, read_line.
    rewrite Hy by (lia || apply stop_elements).
    rewrite IH by lia. reflexivity.
Qed.

Lemma read_print_members (gap depth : nat) (l : list (string * json)) :
  Forall (fun kv => reads_back (snd kv)) l ->
  forall fuel rest,
    (fold_right (fun kv n => S (size (snd kv) + n)) 1 l <= fuel)%nat ->
    read fuel Members (String.append (print_members gap depth l) rest)
    = Some (JObject l, rest).
Proof.
  induction 1 as [|[k v] l Hy Hl IH]; intros fuel rest Hf;
    (destruct fuel as [|fuel]; [cbn in Hf; lia|]).
  - cbn [print_members fold_right]. rewrite append_assoc, read_line.
    apply read_members_close.
  - cbn [fold_right snd] in Hf. cbn [print_members fold_right String.append fst snd].
    fold (print_members gap depth l). cbn [snd] in Hy.
    rewrite read_members_comma, !append_assoc.
    rewrite read_key_skip_ws, skip_ws_line, <- read_key_skip_ws.
    destruct (read_key_print gap k
                (String.append (print gap (S depth) v)
                   (String.append (print_members gap depth l) rest)))
      as (ws & -> & Hws).
    rewrite read_skip_ws, Hws, <- read_skip_ws.
    rewrite Hy by (lia || apply stop_members).
    rewrite IH by lia. reflexivity.
Qed.

Lemma read_string_literal (fuel : nat) (r : string) :
  read (S fuel) Value (String quote r)
  = match read_string r with
    | Some (x, r') => Some (JString x, r')
    | None => None
    end.
Proof. reflexivity. Qed.

Lemma size_positive (j : json) : (1 <= size j)%nat.
Proof. destruct j as [| | | |[|x l]|[|kv l]]; cbn; lia. Qed.

(** [read] reads back the text of every value of JavaScript. *)
Lemma read_print_value (j : json) : js_value j = true -> reads_back j.
Proof.
  induction j as [|b|n|s|l IH|l IH] using json_induction; intros Hv;
    intros gap depth fuel rest Hf Hs;
    (destruct fuel as [|fuel];
     [match type of Hf with (size ?j <= _)%nat => pose proof (size_positive j) end;
      lia|]).
  - reflexivity.
  - destruct b; reflexivity.
  - cbn [print js_value] in *. apply Z.leb_le in Hv.
    rewrite read_value_number, read_number_print by assumption.
    reflexivity.
  - cbn [print]. rewrite print_string_append, read_string_literal.
    rewrite read_string_escape. reflexivity.
  - destruct l as [|x l]; [reflexivity|].
    cbn [js_value forallb] in Hv. apply andb_true_iff in Hv.
    destruct Hv as [Hx Hl]. cbn [size fold_right] in Hf.
    inversion IH as [|x' l' IHx IHl]; subst.
    assert (F : Forall reads_back l).
    { clear - Hl IHl. induction IHl as [|y l Hy _ IHl]; constructor;
        cbn [forallb] in Hl; apply andb_true_iff in Hl; tauto. }
    rewrite print_array_cons. cbn [String.append].
    rewrite read_array, !append_assoc.
    rewrite closes_opens by (auto using opens_print).
    rewrite read_line, (IHx Hx) by (lia || apply stop_elements).
    rewrite (read_print_elements gap depth l F) by lia. reflexivity.
  - destruct l as [|[k v] l]; [reflexivity|].
    cbn [js_value] in Hv. apply andb_true_iff in Hv. destruct Hv as [Hk Hv].
    cbn [forallb snd] in Hv. apply andb_true_iff in Hv.
    destruct Hv as [Hx Hl]. cbn [size fold_right snd] in Hf.
    inversion IH as [|x' l' IHx IHl]; subst. cbn [snd] in IHx.
    assert (F : Forall (fun kv => reads_back (snd kv)) l).
    { clear - Hl IHl. induction IHl as [|y l Hy _ IHl]; constructor;
        cbn [forallb] in Hl; apply andb_true_iff in Hl; tauto. }
    rewrite print_object_cons. cbn [String.append].
    rewrite read_object, !append_assoc.
    rewrite closes_opens; [|now right|].
    2:{ rewrite print_string_append. do 2 eexists.
        split; [reflexivity|repeat split; discriminate]. }
    rewrite read_key_skip_ws, skip_ws_line, <- read_key_skip_ws.
    destruct (read_key_print gap k
                (String.append (print gap (S depth) v)
                   (String.append (print_members gap depth l) rest)))
      as (ws & -> & Hws).
    rewrite read_skip_ws, Hws, <- read_skip_ws.
    rewrite (IHx Hx) by (lia || apply stop_members).
    rewrite (read_print_members gap depth l F) by lia.
    rewrite (object_of_in_order _ Hk). reflexivity.
Qed.

Lemma length_print_number (z : Z) : (1 <= String.length (print_number z))%nat.
Proof.
  destruct z as [|p|p]; cbn [print_number String.length]; [reflexivity| |lia].
  destruct (print_number_digits p) as (c & s & -> & _). cbn. lia.
Qed.

Lemma size_le_text (gap : nat) (j : json) :
  forall depth, (size j <= String.length (print gap depth j))%nat.
Proof.
  induction j as [|b|n|s|l IH|l IH] using json_induction; intros depth.
  - cbn. lia.
  - destruct b; cbn; lia.
  - apply length_print_number.
  - cbn. lia.
  - destruct l as [|x l]; [cbn; lia|].
    inversion IH as [|x' l' IHx IHl]; subst.
    rewrite print_array_cons. cbn [size fold_right String.length].
    rewrite !length_append. specialize (IHx (S depth)).
    assert (fold_right (fun x n => S (size x + n)) 1 l
            <= String.length (print_elements gap depth l))%nat; [|lia].
    clear - IHl. induction IHl as [|y l Hy _ IHl].
    + cbn [fold_right print_elements]. rewrite length_append. cbn. lia.
    + cbn [fold_right print_elements String.length].
      fold (print_elements gap depth l). rewrite !length_append.
      specialize (Hy (S depth)). lia.
  - destruct l as [|[k v] l]; [cbn; lia|].
    inversion IH as [|x' l' IHx IHl]; subst. cbn [snd] in IHx.
    rewrite print_object_cons. cbn [size fold_right String.length snd].
    rewrite !length_append. specialize (IHx (S depth)).
    assert (fold_right (fun kv n => S (size (snd kv) + n)) 1 l
            <= String.length (print_members gap depth l))%nat; [|lia].
    clear - IHl. induction IHl as [|y l Hy _ IHl].
    + cbn [fold_right print_members]. rewrite length_append. cbn. lia.
    + cbn [fold_right print_members String.length].
      fold (print_members gap depth l). rewrite !length_append.
      specialize (Hy (S depth)). lia.
Qed.

(** [JSON.parse(JSON.stringify(value, null, gap))] is [value], for every
    value of JavaScript and every gap. *)
Lemma parse_stringify (gap : nat) (j : json) :
  js_value j = true -> parse (stringify gap j) = Some j.
Proof.
  intros Hv. unfold parse, stringify.
  rewrite <- (append_empty (print gap 0 j)) at 2.
  rewrite (read_print_value j Hv); [reflexivity| |reflexivity].
  pose proof (size_le_text gap j 0). lia.
Qed.

(** The layout of [JSON.stringify(value, null, 2)], and the compact one. *)
Example stringify_layout :
  stringify 2 (JArray [JNumber 1; JArray []; JArray [JNull; JBool true]; JNumber (-20)])
  = String.concat (String newline EmptyString)
      ["["; "  1,"; "  [],"; "  ["; "    null,"; "    true"; "  ],"; "  -20"; "]"]
  /\ stringify 0 (JArray [JNumber 1; JArray []; JArray [JNull; JBool true]; JNumber (-20)])
     = "[1,[],[null,true],-20]".
Proof. split; vm_compute; reflexivity. Qed.

Example print_string_escapes :
  print_string (String newline (String quote "a\b"))
  = String quote (String.append "\n\" (String quote (String.append "a\\b" (String quote EmptyString)))).
Proof. vm_compute. reflexivity. Qed.

(** [JSON.parse] takes any white space between tokens, and refuses a
    trailing comma, a leading zero and text after the value. *)
Example parse_white_space :
  parse " [1 , [ ] ,null ] " = Some (JArray [JNumber 1; JArray []; JNull])
  /\ parse "[1,]" = None /\ parse "01" = None /\ parse "[] []" = None
  /\ parse "nul" = None /\ parse EmptyString = None.
Proof. vm_compute. repeat split. Qed.

(** Numerals with a fraction or an exponent: read when they denote a safe
    integer. *)
Example parse_numerals :
  parse "[1.0, 12e2, 1200E-2, -0, 0.5e1, 9007199254740991]"
  = Some (JArray [JNumber 1; JNumber 1200; JNumber 12; JNumber 0; JNumber 5;
                  JNumber 9007199254740991])
  /\ parse "1." = None /\ parse ".5" = None /\ parse "1e" = None
  /\ parse "+1" = None /\ parse "1.5" = None
  /\ parse "9007199254740993" = None.
Proof. vm_compute. repeat split. Qed.

(** A term that lists a key twice is no value of JavaScript: the text
    [stringify] gives for it is read as the object with the key once. *)
Example parse_repeated_key :
  js_value (JObject [("a", JNumber 1); ("a", JNumber 2)]) = false
  /\ parse (stringify 2 (JObject [("a", JNumber 1); ("a", JNumber 2)]))
     = Some (JObject [("a", JNumber 2)]).
Proof. vm_compute. split; reflexivity. Qed.

End JsonTextFacts.

(** ** Backup and local storage *)

Module BackupFacts.
Import StorageService Backup.
Section WithJSON.
Context {J : JSON}.

Lemma or_empty_array_missing : JsValue.or_empty_array None = JArray [].
Proof. reflexivity. Qed.

Lemma or_empty_array_array (l : list json) :
  JsValue.or_empty_array (Some (JArray l)) = JArray l.
Proof. reflexivity. Qed.

Lemma or_empty_array_cases (x : option json) :
  (JsValue.truthy x = true /\ x = Some (JsValue.or_empty_array x))
  \/ (JsValue.truthy x = false /\ JsValue.or_empty_array x = JArray []).
Proof.
  destruct x as [v|]; [|right; split; reflexivity].
  unfold JsValue.or_empty_array. destruct (JsValue.truthy (Some v)); auto.
Qed.

Lemma well_formed_or_empty_array (b l s : option json) :
  (forall v, In (Some v) [b; l; s] -> JsValue.isArray v = true) ->
  well_formed {| books := JsValue.or_empty_array b;
                 loans := JsValue.or_empty_array l;
                 students := JsValue.or_empty_array s |}.
Proof.
  intros H.
  assert (G : forall x, In x [b; l; s] -> JsValue.isArray (JsValue.or_empty_array x) = true).
  { intros x Hin. destruct (or_empty_array_cases x) as [[_ E]|[_ E]].
    - apply H. rewrite <- E. exact Hin.
    - rewrite E. reflexivity. }
  repeat split; cbn; apply G; cbn; auto.
Qed.

(** Reading a property throws on [null] only. *)
Lemma get_not_null (data : json) (k : string) :
  data <> JNull -> exists x, JsValue.get data k = Resolved x.
Proof. destruct data; cbn; eauto. congruence. Qed.

(** A collection of the result is an array exactly when the stored member,
    if present and truthy, is one. *)
Lemma isArray_or_empty_array (x : option json) :
  JsValue.isArray (JsValue.or_empty_array x) = true
  <-> (forall v, x = Some v -> JsValue.truthy (Some v) = true ->
                 JsValue.isArray v = true).
Proof.
  destruct x as [v|]; [|split; [intros _ v; discriminate|reflexivity]].
  unfold JsValue.or_empty_array.
  destruct (JsValue.truthy (Some v)) eqn:T; split.
  - intros H v' E _. now inversion E; subst.
  - intros H. now apply H.
  - intros _ v' E T'. inversion E; subst. congruence.
  - reflexivity.
Qed.

(** C10 (as amended). [loadData] is a total function: nothing it does
    throws past it.  It returns the empty snapshot when the key is absent,
    when the stored text is empty or does not parse, and when it parses to
    [null] (whose property read throws inside the [try]).  For any other
    stored document each collection of the result is the stored member when
    that is present and truthy, whatever its type, and the empty array when
    it is missing or falsy; so the result is made of three arrays exactly
    when every stored member that is truthy is an array. *)
Theorem loadData_total (saved : option string) :
  ((saved = None \/ saved = Some EmptyString
    \/ exists text, saved = Some text
                    /\ (JSON_parse text = None \/ JSON_parse text = Some JNull)) ->
   loadData saved = empty)
  /\ (forall text data,
        saved = Some text -> text <> EmptyString ->
        JSON_parse text = Some data -> data <> JNull ->
        exists b l s,
          JsValue.get data "books" = Resolved b
          /\ JsValue.get data "loans" = Resolved l
          /\ JsValue.get data "students" = Resolved s
          /\ loadData saved = {| books := JsValue.or_empty_array b;
                                 loans := JsValue.or_empty_array l;
                                 students := JsValue.or_empty_array s |}
          /\ (well_formed (loadData saved)
              <-> forall v, In (Some v) [b; l; s] ->
                            JsValue.truthy (Some v) = true ->
                            JsValue.isArray v = true))
  /\ (forall x, JsValue.truthy x = false -> JsValue.or_empty_array x = JArray [])
  /\ (forall v, JsValue.truthy (Some v) = true ->
                JsValue.or_empty_array (Some v) = v).
Proof.
  split; [|split; [|split]].
  - intros [->|[->|(text & -> & [Hp|Hp])]]; try reflexivity;
      unfold loadData; rewrite Hp; destruct (JS.truthy_string text); reflexivity.
  - intros text data -> Ht Hp Hn.
    destruct (get_not_null data "books" Hn) as [b Hb].
    destruct (get_not_null data "loans" Hn) as [l Hl].
    destruct (get_not_null data "students" Hn) as [s Hs].
    exists b, l, s. repeat (split; [assumption|]).
    assert (E : loadData (Some text)
                = {| books := JsValue.or_empty_array b;
                     loans := JsValue.or_empty_array l;
                     students := JsValue.or_empty_array s |}).
    { unfold loadData, loadData_parsed, JS.truthy_string.
      destruct (String.eqb_spec text EmptyString); [contradiction|].
      cbn. rewrite Hp, Hb, Hl, Hs. reflexivity. }
    split; [exact E|]. rewrite E. unfold well_formed. cbn [books loans students].
    rewrite !isArray_or_empty_array. split.
    + intros (Wb & Wl & Ws) v [H|[H|[H|[]]]] T; eauto.
    + intros H. repeat split; intros v -> T; apply H; cbn; auto.
  - intros x Hx. destruct (or_empty_array_cases x) as [[T _]|[_ E]];
      [congruence|exact E].
  - intros v T. unfold JsValue.or_empty_array. now rewrite T.
Qed.

(** *** importBackup *)

Lemma importBackup_parsed_resolve (data : json) (d : LibraryData) :
  importBackup_parsed data = Resolved (Resolve d) <->
  exists b l s,
    JsValue.get data "books" = Resolved (Some b)
    /\ JsValue.get data "loans" = Resolved (Some l)
    /\ JsValue.get data "students" = Resolved s
    /\ JsValue.truthy (Some b) = true /\ JsValue.truthy (Some l) = true
    /\ d = {| books := b; loans := l; students := JsValue.or_empty_array s |}.
Proof.
  unfold importBackup_parsed. split.
  - destruct (JsValue.get data "books") as [[b|]|]; try discriminate;
      destruct (JsValue.get data "loans") as [[l|]|]; try discriminate;
      destruct (JsValue.get data "students") as [s|]; try discriminate.
    destruct (JsValue.truthy (Some b)) eqn:Tb; [|discriminate].
    destruct (JsValue.truthy (Some l)) eqn:Tl; [|discriminate].
    cbn. intros E. injection E as <-. exists b, l, s. auto 10.
  - intros (b & l & s & -> & -> & -> & Tb & Tl & ->).
    rewrite Tb, Tl. reflexivity.
Qed.

(** C9 (as amended). [importBackup] resolves exactly when the text parses
    to a value whose [books] and [loans] members are present and truthy;
    whether they are arrays is not looked at.  The result carries the two
    members as they are, and [students] as it is, or the empty array when it
    is absent (or falsy).  Text that does not parse and a document without
    [books] or without [loans] are rejected.  [handleImport] over
    [importBackup] replaces the snapshot only by a resolved import that the
    user confirms: on a rejection it alerts and leaves the snapshot as it
    was.  The [handleImport] of [App.tsx] likewise alerts and leaves the
    snapshot as it was when the text does not parse. *)
Theorem importBackup_resolves_iff :
  (forall file d,
     importBackup file = Resolve d <->
     exists text data b l s,
       file = Some text /\ JSON_parse text = Some data
       /\ JsValue.get data "books" = Resolved (Some b)
       /\ JsValue.get data "loans" = Resolved (Some l)
       /\ JsValue.get data "students" = Resolved s
       /\ JsValue.truthy (Some b) = true /\ JsValue.truthy (Some l) = true
       /\ d = {| books := b; loans := l; students := JsValue.or_empty_array s |})
  /\ (forall text, JSON_parse text = None ->
                   importBackup (Some text) = Reject UnreadableBackup)
  /\ (forall text members,
        JSON_parse text = Some (JObject members) ->
        JsValue.lookup "books" members = None \/ JsValue.lookup "loans" members = None ->
        importBackup (Some text) = Reject InvalidFormat)
  /\ (forall file e confirm data,
        importBackup file = Reject e ->
        handleImport_local (Some file) confirm data
        = (data, Some (AlertBackupError e)))
  /\ (forall file d data,
        importBackup file = Resolve d ->
        handleImport_local (Some file) true data = (d, None)
        /\ handleImport_local (Some file) false data = (data, None))
  /\ (forall text confirm data,
        JSON_parse text = None ->
        handleImport (Some (Resolved text)) confirm data
        = (data, Some AlertSyntaxError)).
Proof.
  repeat apply conj.
  - intros file d. unfold importBackup. split.
    + destruct file as [text|]; [|discriminate].
      destruct (JSON_parse text) as [data|] eqn:Hp; [|discriminate].
      destruct (importBackup_parsed data) as [r|] eqn:Hr; [|discriminate].
      intros ->. apply importBackup_parsed_resolve in Hr.
      destruct Hr as (b & l & s & Hr). exists text, data, b, l, s. auto.
    + intros (text & data & b & l & s & -> & Hp & Hr). rewrite Hp.
      assert (E : importBackup_parsed data = Resolved (Resolve d))
        by (apply importBackup_parsed_resolve; eauto).
      rewrite E. reflexivity.
  - intros text Hp. unfold importBackup. rewrite Hp. reflexivity.
  - intros text members Hp H. unfold importBackup, importBackup_parsed.
    rewrite Hp. cbn.
    destruct H as [-> | ->]; [reflexivity|].
    destruct (JsValue.lookup "books" members); reflexivity.
  - intros file e confirm data H. unfold handleImport_local. rewrite H.
    reflexivity.
  - intros file d data H. unfold handleImport_local. rewrite H. split; reflexivity.
  - intros text confirm data Hp. unfold handleImport. rewrite Hp. reflexivity.
Qed.

(** *** Export then import *)

(** Importing what export wrote, for a codec that reads back what it wrote
    for the snapshot: the [handleImport] of [App.tsx] replaces the snapshot
    by the one exported, and so does [importBackup] for a snapshot made of
    three arrays. *)
Lemma import_of_export :
  (forall data current : json,
     JSON_parse (JSON_stringify data) = Some data ->
     handleImport (Some (Resolved (handleExport data))) true current
     = (data, None))
  /\ (forall d current : LibraryData,
        JSON_parse (JSON_stringify (toObject d)) = Some (toObject d) ->
        well_formed d ->
        importBackup (Some (exportBackup d)) = Resolve d
        /\ handleImport_local (Some (Some (handleExport_local d))) true current
           = (d, None)).
Proof.
  split.
  - intros data current Hp. unfold handleImport, handleExport.
    rewrite Hp. reflexivity.
  - intros d current Hp (Wb & Wl & Ws).
    assert (E : importBackup (Some (exportBackup d)) = Resolve d).
    { unfold importBackup, exportBackup. rewrite Hp.
      unfold importBackup_parsed, toObject. cbn.
      destruct d as [b l s]. cbn in *.
      destruct b; try discriminate. destruct l; try discriminate.
      destruct s; try discriminate. reflexivity. }
    split; [exact E|].
    unfold handleImport_local, handleExport_local. rewrite E. reflexivity.
Qed.

End WithJSON.

(** C8. With [JSON.stringify(data, null, 2)] and [JSON.parse] as ECMAScript
    defines them, importing the file that export wrote, and confirming,
    makes the snapshot exported the current one again, whatever the current
    one was: for [handleExport] and [handleImport] of [App.tsx] on every
    snapshot that is a value of JavaScript, and for [exportBackup] and
    [importBackup] (and the handlers over them) on every such snapshot made of
    three arrays. *)
Theorem export_import_roundtrip :
  (forall data current : json,
     JsonText.js_value data = true ->
     handleImport (J := JsonText.codec 2)
       (Some (Resolved (handleExport (J := JsonText.codec 2) data))) true current
     = (data, None))
  /\ (forall d current : LibraryData,
        JsonText.js_value (toObject d) = true ->
        well_formed d ->
        importBackup (J := JsonText.codec 2)
          (Some (exportBackup (J := JsonText.codec 2) d)) = Resolve d
        /\ handleImport_local (J := JsonText.codec 2)
             (Some (Some (handleExport_local (J := JsonText.codec 2) d)))
             true current
           = (d, None)).
Proof.
  split.
  - intros data current V.
    apply (proj1 (import_of_export (J := JsonText.codec 2))).
    exact (JsonTextFacts.parse_stringify 2 data V).
  - intros d current V W.
    apply (proj2 (import_of_export (J := JsonText.codec 2))); [|exact W].
    exact (JsonTextFacts.parse_stringify 2 (toObject d) V).
Qed.

(** The reference codec reads back what it writes for the documents of the
    scenarios. *)
Example reference_codec_library :
  Reference.parse (Reference.print (toObject Scenario.library))
  = Some (toObject Scenario.library).
Proof. vm_compute. reflexivity. Qed.

(** The file that [handleExport] writes for the library of the scenarios
    starts with an opening brace, a line break and the indented key
    [books]. *)
Example handleExport_library_text :
  exists rest,
    handleExport (J := JsonText.codec 2) (toObject Scenario.library)
    = String "{"%char
        (String JsonText.newline
           (String.append "  "
              (String JsonText.quote
                 (String.append "books"
                    (String JsonText.quote (String.append ": [" rest)))))).
Proof. vm_compute. eexists. reflexivity. Qed.

Lemma export_import_roundtrip_witness :
  JsonText.js_value (toObject Scenario.library) = true
  /\ well_formed Scenario.library
  /\ handleImport (J := JsonText.codec 2)
       (Some (Resolved (handleExport (J := JsonText.codec 2)
                          (toObject Scenario.library))))
       true JNull
     = (toObject Scenario.library, None)
  /\ importBackup (J := JsonText.codec 2)
       (Some (exportBackup (J := JsonText.codec 2) Scenario.library))
     = Resolve Scenario.library
  /\ handleImport_local (J := JsonText.codec 2)
       (Some (Some (handleExport_local (J := JsonText.codec 2) Scenario.library)))
       true StorageService.empty
     = (Scenario.library, None).
Proof.
  assert (V : JsonText.js_value (toObject Scenario.library) = true)
    by (vm_compute; reflexivity).
  assert (W : well_formed Scenario.library) by (repeat split).
  split; [exact V|]. split; [exact W|].
  split.
  - exact (proj1 export_import_roundtrip (toObject Scenario.library) JNull V).
  - exact (proj2 export_import_roundtrip Scenario.library StorageService.empty V W).
Defined.

(** C9, as stated, fails: a document whose [books] is a number and whose
    [loans] is a boolean is imported, and the snapshot is replaced by it. *)
Lemma importBackup_accepts_non_arrays :
  JsValue.isArray (JNumber 1) = false
  /\ JsValue.isArray (JBool true) = false
  /\ importBackup (J := Reference.codec)
       (Some (@JSON_stringify Reference.codec Scenario.not_arrays))
     = Resolve {| books := JNumber 1; loans := JBool true; students := JArray [] |}
  /\ handleImport_local (J := Reference.codec)
       (Some (Some (@JSON_stringify Reference.codec Scenario.not_arrays)))
       true Scenario.library
     = ({| books := JNumber 1; loans := JBool true; students := JArray [] |}, None).
Proof. vm_compute. repeat split. Qed.

(** The [handleImport] of [App.tsx] accepts any text that parses: the empty
    object replaces the snapshot. *)
Example handleImport_accepts_empty_object :
  handleImport (J := Reference.codec)
    (Some (Resolved (@JSON_stringify Reference.codec (JObject []))))
    true (toObject Scenario.library)
  = (JObject [], None).
Proof. vm_compute. reflexivity. Qed.

Lemma importBackup_resolves_iff_witness :
  @JSON_parse Reference.codec "not a backup" = None
  /\ importBackup (J := Reference.codec) (Some "not a backup")
     = Reject UnreadableBackup
  /\ handleImport_local (J := Reference.codec) (Some (Some "not a backup"))
       true Scenario.library
     = (Scenario.library, Some (AlertBackupError UnreadableBackup)).
Proof.
  assert (Hp : @JSON_parse Reference.codec "not a backup" = None)
    by (vm_compute; reflexivity).
  pose proof (importBackup_resolves_iff (J := Reference.codec))
    as (_ & Hbad & _ & Hrej & _).
  split; [exact Hp|]. split; [exact (Hbad _ Hp)|].
  exact (Hrej _ _ true Scenario.library (Hbad _ Hp)).
Defined.

(** C10, counterexample.  A stored document whose [loans] member is a
    string: [loadData] returns that string as the loans of the snapshot,
    which is not made of three arrays. *)
Lemma loadData_keeps_non_array :
  loadData (J := Reference.codec)
    (Some (@JSON_stringify Reference.codec Scenario.loans_text))
  = {| books := JArray []; loans := JString "x"; students := JArray [] |}
  /\ ~ well_formed
        (loadData (J := Reference.codec)
           (Some (@JSON_stringify Reference.codec Scenario.loans_text))).
Proof.
  split; [vm_compute; reflexivity|].
  intros (_ & W & _). vm_compute in W. discriminate W.
Qed.

(** C10 on the reference codec: a stored document with [books] only. *)
Lemma loadData_total_witness :
  @JSON_parse Reference.codec
    (@JSON_stringify Reference.codec Scenario.only_books)
  = Some Scenario.only_books
  /\ exists b l s,
      JsValue.get Scenario.only_books "books" = Resolved b
      /\ JsValue.get Scenario.only_books "loans" = Resolved l
      /\ JsValue.get Scenario.only_books "students" = Resolved s
      /\ loadData (J := Reference.codec)
           (Some (@JSON_stringify Reference.codec Scenario.only_books))
         = {| books := JsValue.or_empty_array b;
              loans := JsValue.or_empty_array l;
              students := JsValue.or_empty_array s |}
      /\ (well_formed
            (loadData (J := Reference.codec)
               (Some (@JSON_stringify Reference.codec Scenario.only_books)))
          <-> forall v, In (Some v) [b; l; s] ->
                        JsValue.truthy (Some v) = true ->
                        JsValue.isArray v = true).
Proof.
  assert (Hp : @JSON_parse Reference.codec
                 (@JSON_stringify Reference.codec Scenario.only_books)
               = Some Scenario.only_books)
    by (exact (ReferenceFacts.parse_print Scenario.only_books)).
  split; [exact Hp|].
  apply (proj1 (proj2 (loadData_total (J := Reference.codec)
                  (Some (@JSON_stringify Reference.codec Scenario.only_books))))
           _ Scenario.only_books eq_refl);
    [discriminate|exact Hp|discriminate].
Defined.

Example loadData_only_books :
  loadData (J := Reference.codec)
    (Some (@JSON_stringify Reference.codec Scenario.only_books))
  = {| books := JArray [JObject [("id", JString "b1")]];
       loans := JArray []; students := JArray [] |}.
Proof. vm_compute. reflexivity. Qed.

Example loadData_null :
  loadData (J := Reference.codec)
    (Some (@JSON_stringify Reference.codec JNull))
  = StorageService.empty.
Proof. vm_compute. reflexivity. Qed.

End BackupFacts.

(** ** Sorting: [.order(...)] and [Array.prototype.sort] *)

Module SortFacts.
Import Supabase.

Lemma insert_sorted_perm {A} (leb : A -> A -> bool) (x : A) (l : list A) :
  Permutation (insert_sorted leb x l) (x :: l).
Proof.
  induction l as [|y l IH]; cbn; [reflexivity|].
  destruct (leb x y); [reflexivity|].
  rewrite IH. apply perm_swap.
Qed.

(** Sorting loses and duplicates nothing. *)
Lemma order_perm {A} (leb : A -> A -> bool) (l : list A) :
  Permutation (order leb l) l.
Proof.
  induction l as [|x l IH]; cbn; [reflexivity|].
  unfold order in IH. rewrite insert_sorted_perm. now apply perm_skip.
Qed.

Lemma insert_sorted_sorted {A} (leb : A -> A -> bool) (x : A) (l : list A) :
  (forall a b, leb a b = false -> leb b a = true) ->
  (forall a b c, leb a b = true -> leb b c = true -> leb a c = true) ->
  StronglySorted (fun a b => leb a b = true) l ->
  StronglySorted (fun a b => leb a b = true) (insert_sorted leb x l).
Proof.
  intros Total Trans. induction 1 as [|y l Hs IH Hy]; cbn.
  - repeat constructor.
  - destruct (leb x y) eqn:E.
    + constructor; [now constructor|]. constructor; [exact E|].
      rewrite Forall_forall in *. eauto.
    + constructor; [exact IH|].
      eapply Permutation_Forall; [symmetry; apply insert_sorted_perm|].
      constructor; [now apply Total|exact Hy].
Qed.

(** Under a total and transitive comparison the result is sorted. *)
Lemma order_sorted {A} (leb : A -> A -> bool) (l : list A) :
  (forall a b, leb a b = false -> leb b a = true) ->
  (forall a b c, leb a b = true -> leb b c = true -> leb a c = true) ->
  StronglySorted (fun a b => leb a b = true) (order leb l).
Proof.
  intros Total Trans. induction l as [|x l IH]; cbn; [constructor|].
  now apply insert_sorted_sorted.
Qed.

(** The sort is stable: a sorted list is left as it is. *)
Lemma order_sorted_id {A} (leb : A -> A -> bool) (l : list A) :
  StronglySorted (fun a b => leb a b = true) l -> order leb l = l.
Proof.
  induction 1 as [|x l Hs IH Hx]; [reflexivity|].
  cbn. unfold order in IH. rewrite IH.
  destruct l as [|y l']; [reflexivity|]. cbn.
  inversion Hx as [|? ? Hxy ?]; subst. now rewrite Hxy.
Qed.

Lemma StronglySorted_map {A B} (R : A -> A -> Prop) (R' : B -> B -> Prop)
    (f : A -> B) (l : list A) :
  (forall a b, R a b -> R' (f a) (f b)) ->
  StronglySorted R l -> StronglySorted R' (map f l).
Proof.
  intros H. induction 1 as [|a l Hs IH Ha]; cbn; constructor; [exact IH|].
  rewrite Forall_forall in *. intros b Hb. apply in_map_iff in Hb.
  destruct Hb as (x & <- & Hx). auto.
Qed.

Lemma StronglySorted_weaken {A} (R1 R2 : A -> A -> Prop) (l : list A) :
  (forall a b, R1 a b -> R2 a b) ->
  StronglySorted R1 l -> StronglySorted R2 l.
Proof.
  intros H. induction 1 as [|a l Hs IH Ha]; constructor; [exact IH|].
  eapply Forall_impl; [|exact Ha]. auto.
Qed.

Lemma filter_all {A} (f : A -> bool) (l : list A) :
  (forall x, f x = true) -> filter f l = l.
Proof.
  intros H. induction l as [|x l IH]; cbn; [reflexivity|].
  now rewrite H, IH.
Qed.

Lemma filter_length_le {A} (f : A -> bool) (l : list A) :
  (List.length (filter f l) <= List.length l)%nat.
Proof.
  induction l as [|x l IH]; cbn; [lia|]. destruct (f x); cbn; lia.
Qed.

Lemma filter_length_partition {A} (f : A -> bool) (l : list A) :
  (List.length (filter f l) + List.length (filter (fun x => negb (f x)) l)
   = List.length l)%nat.
Proof.
  induction l as [|x l IH]; cbn; [reflexivity|].
  destruct (f x); cbn; lia.
Qed.

(** [String.leb], the collation of the reference platform, is a total
    preorder. *)
Lemma string_compare_trans (a b c : string) :
  String.compare a b <> Gt -> String.compare b c <> Gt ->
  String.compare a c <> Gt.
Proof.
  revert b c. induction a as [|x a IH]; intros [|y b] [|z c]; cbn;
    try congruence.
  unfold Ascii.compare.
  destruct (N.compare_spec (N_of_ascii x) (N_of_ascii y));
    destruct (N.compare_spec (N_of_ascii y) (N_of_ascii z));
    destruct (N.compare_spec (N_of_ascii x) (N_of_ascii z));
    try congruence; try lia; eauto.
Qed.

Lemma string_leb_trans (a b c : string) :
  String.leb a b = true -> String.leb b c = true -> String.leb a c = true.
Proof.
  unfold String.leb. intros H1 H2.
  pose proof (string_compare_trans a b c) as T.
  destruct (String.compare a b); try discriminate;
    destruct (String.compare b c); try discriminate;
    destruct (String.compare a c); try reflexivity;
    exfalso; apply T; congruence.
Qed.

Lemma string_leb_total (a b : string) :
  String.leb a b = false -> String.leb b a = true.
Proof.
  intros H. destruct (String.leb_total a b) as [E|E]; congruence.
Qed.

End SortFacts.

(** ** The handlers of [src/App.tsx] over the store *)

Module StoreFacts.
Import DateFns App Supabase Semantics HandlerFacts.

(** One request of a handler: it fails, or it ran its operation. *)
Ltac wp_await_request :=
  let o := fresh "o" in
  let r := fresh "r" in
  let E := fresh "E" in
  let Fl := fresh "Fl" in
  let T := fresh "T" in
  let A := fresh "A" in
  let r0 := fresh "r0" in
  apply wp_await; intros o r E; apply request_cases in E;
  destruct E as [(Fl & -> & T & A)|(Fl & r0 & T & A & E)];
  [ | cbn in E; inversion E; subst; clear E ].

Ltac wp_step :=
  cbn beta iota;
  lazymatch goal with
  | |- wp (bind _ _) _ _ => apply wp_bind
  | |- wp (try_catch _ _) _ _ => apply wp_try_catch
  | |- wp (ret _) _ _ => apply wp_ret
  | |- wp (set _) _ _ => apply wp_set
  | |- wp (showToast _ _) _ _ => apply wp_showToast
  | |- wp loadAllData _ _ =>
      let d := fresh "d" in
      let r3 := fresh "r3" in
      let T3 := fresh "T3" in
      let Fs := fresh "Fs" in
      let D := fresh "D" in
      apply wp_loadAllData; intros d r3 T3 Fs D
  end.

(** A statement about the state [snd (m w)] a handler ends in, read as a
    postcondition of [m]. *)
Ltac start_wp :=
  cbv zeta;
  lazymatch goal with
  | |- context [snd (?m ?w)] =>
      let w' := fresh "w'" in
      set (w' := snd (m w)); pattern w';
      lazymatch goal with
      | |- ?Q w' => subst w'; change (wp m w (fun _ x => Q x)); cbn beta
      end
  end.

Ltac not_failed :=
  eapply failed_elim with (l := [_]);
  [cbn; reflexivity|repeat constructor; discriminate].

Ltac has_failed :=
  eapply failed_intro with (l := []); cbn; reflexivity.

Ltac finish :=
  repeat match goal with
         | |- _ /\ _ => split
         | |- fails _ = _ -> _ => intro
         end;
  try congruence; try has_failed; try not_failed;
  try (unfold update_where, delete_where in *; congruence).

(** The tables after the write and the reload, in terms of those before. *)
Ltac tables :=
  match goal with
  | T : same_tables _ _ |- _ =>
      let Tb := fresh "Tb" in
      let Ts := fresh "Ts" in
      let Tl := fresh "Tl" in
      let Ti := fresh "Ti" in
      destruct T as (Tb & Ts & Tl & Ti); cbn in Tb, Ts, Tl, Ti
  end.

Ltac done_or_failed :=
  repeat wp_step; repeat tables; cbn; unfold same_tables; finish.

(** The fault plan stays empty and the reloaded snapshot is that of the
    store. *)
Ltac reloaded_in_sync F :=
  repeat wp_step;
  match goal with
  | A : advanced _ _, D : _ = (if _ then _ else _), T3 : same_tables _ _ |- _ =>
      unfold advanced in A; rewrite F in A; cbn in *;
      rewrite A in *; cbn in *; subst; unfold snapshot;
      destruct T3 as (-> & -> & -> & _); cbn; auto
  end.

Section WithPlatform.
Context {P : Platform}.

(** X1. Saving the book form writes the [books] table only.  When the
    request fails no row changes and the error toast is shown.  When it
    succeeds no error toast is shown and: in edit mode every column but [id]
    of the row with the edited book's id is overwritten from the form (an
    empty barcode and a missing collection become NULL) while the other rows
    stay; otherwise one row is appended, under the next generated id.  In
    both cases the form is closed afterwards. *)
Theorem handleSaveBook_effect (f : BookForm) (w : World) :
  let w' := run (handleSaveBook f) w in
  students_table (remote w') = students_table (remote w)
  /\ loans_table (remote w') = loans_table (remote w)
  /\ showBookForm (app w') = false
  /\ editingBook (app w') = None
  /\ (fails (remote w) = true ->
      books_table (remote w') = books_table (remote w) /\ failed w w')
  /\ (fails (remote w) = false ->
      ~ failed w w'
      /\ books_table (remote w') =
         match editingBook (app w) with
         | Some eb =>
             map (fun row => if String.eqb (BookRow.id row) (Book.id eb)
                             then new_book (BookRow.id row) (Db.bookToRow (bookData f))
                             else row)
               (books_table (remote w))
         | None =>
             (books_table (remote w)
              ++ [new_book (gen_random_uuid (inserted (remote w)))
                    (Db.bookToRow (bookData f))])%list
         end).
Proof.
  unfold run, handleSaveBook. start_wp. do 3 wp_step.
  destruct (editingBook (app w)) as [eb|]; wp_step.
  - unfold Db.updateBook. wp_await_request; done_or_failed.
  - unfold Db.insertBook. wp_await_request; done_or_failed.
Qed.

(** X2. Saving the student form writes the [students] table only: loans
    keep the student name and class they were made with.  When the request
    fails no row changes and the error toast is shown.  When it succeeds: in
    edit mode the rows with the edited student's id get the name and class
    of the form; otherwise one row is appended with the name and class as
    given, whether or not a student of that name and class exists. *)
Theorem handleSaveStudent_effect (d : StudentData.t) (w : World) :
  let w' := run (handleSaveStudent d) w in
  books_table (remote w') = books_table (remote w)
  /\ loans_table (remote w') = loans_table (remote w)
  /\ showStudentForm (app w') = false
  /\ editingStudent (app w') = None
  /\ (fails (remote w) = true ->
      students_table (remote w') = students_table (remote w) /\ failed w w')
  /\ (fails (remote w) = false ->
      ~ failed w w'
      /\ students_table (remote w') =
         match editingStudent (app w) with
         | Some es =>
             map (fun row => if String.eqb (StudentRow.id row) (Student.id es)
                             then {| StudentRow.id := StudentRow.id row;
                                     StudentRow.name := StudentData.name d;
                                     StudentRow.class := StudentData.class d |}
                             else row)
               (students_table (remote w))
         | None =>
             (students_table (remote w)
              ++ [{| StudentRow.id := gen_random_uuid (inserted (remote w));
                     StudentRow.name := StudentData.name d;
                     StudentRow.class := StudentData.class d |}])%list
         end).
Proof.
  unfold run, handleSaveStudent. start_wp. do 3 wp_step.
  destruct (editingStudent (app w)) as [es|]; wp_step.
  - unfold Db.updateStudent. wp_await_request; done_or_failed.
  - unfold Db.insertStudent. wp_await_request; done_or_failed.
Qed.

(** X3. Registering a return writes the [loans] table only.  When the
    request fails no row changes and the error toast is shown.  When it
    succeeds, the rows with the given id get [return_date] = now and
    [book_id] = NULL (the body [loanToRow] builds always carries
    [book_id: loan.bookId ?? null]); their id, student, book title, loan
    date and due date stay, and the other rows are untouched. *)
Theorem handleReturnBook_effect (loanId : string) (now : instant) (w : World) :
  let w' := run (handleReturnBook loanId now) w in
  books_table (remote w') = books_table (remote w)
  /\ students_table (remote w') = students_table (remote w)
  /\ (fails (remote w) = true ->
      loans_table (remote w') = loans_table (remote w) /\ failed w w')
  /\ (fails (remote w) = false ->
      ~ failed w w'
      /\ loans_table (remote w') =
         map (fun row =>
                if String.eqb (LoanRow.id row) loanId
                then {| LoanRow.id := LoanRow.id row;
                        LoanRow.student_name := LoanRow.student_name row;
                        LoanRow.student_class := LoanRow.student_class row;
                        LoanRow.book_id := None;
                        LoanRow.book_title := LoanRow.book_title row;
                        LoanRow.loan_date := LoanRow.loan_date row;
                        LoanRow.due_date := LoanRow.due_date row;
                        LoanRow.return_date := Some (toISOString now) |}
                else row)
           (loans_table (remote w))).
Proof.
  unfold run, handleReturnBook. start_wp. do 2 wp_step.
  unfold Db.updateLoan. wp_await_request; done_or_failed.
  unfold update_where, patch_loan in *. cbn in *. congruence.
Qed.

(** X4. [executeDelete] does nothing at all when no deletion is pending.
    Otherwise it clears the pending deletion and issues one delete: when that
    fails no table changes and the error toast is shown; when it succeeds,
    exactly the rows with the given id leave the table of the given kind and
    the two other tables are untouched (deleting a book or a student deletes
    none of their loans). *)
Theorem executeDelete_effect (w : World) :
  let w' := run executeDelete w in
  match confirmDelete (app w) with
  | None => w' = w
  | Some c =>
      confirmDelete (app w') = None
      /\ (fails (remote w) = true ->
          same_tables (remote w) (remote w') /\ failed w w')
      /\ (fails (remote w) = false ->
          ~ failed w w'
          /\ books_table (remote w') =
             match delete_type c with
             | type_book =>
                 filter (fun row => negb (String.eqb (BookRow.id row) (delete_id c)))
                   (books_table (remote w))
             | _ => books_table (remote w)
             end
          /\ students_table (remote w') =
             match delete_type c with
             | type_student =>
                 filter (fun row => negb (String.eqb (StudentRow.id row) (delete_id c)))
                   (students_table (remote w))
             | _ => students_table (remote w)
             end
          /\ loans_table (remote w') =
             match delete_type c with
             | type_loan =>
                 filter (fun row => negb (String.eqb (LoanRow.id row) (delete_id c)))
                   (loans_table (remote w))
             | _ => loans_table (remote w)
             end)
  end.
Proof.
  cbv zeta.
  destruct (confirmDelete (app w)) as [[ty id]|] eqn:C;
    unfold run, executeDelete; rewrite C; [|reflexivity].
  start_wp. cbn [delete_type delete_id]. destruct ty.
  - do 3 wp_step. unfold Db.deleteBook. wp_await_request; done_or_failed.
  - do 5 wp_step. unfold Db.deleteStudent. wp_await_request; done_or_failed.
  - do 7 wp_step. unfold Db.deleteLoan. wp_await_request; done_or_failed.
Qed.

(** X5. [loadAllData] never rejects, writes no table, shows no toast and
    ends with the loading flag off.  It is all or nothing: if one of its
    three fetches fails the snapshot stays as it was (no collection is
    replaced on its own); if none fails the snapshot becomes the three
    tables, each in the order of its query. *)
Theorem loadAllData_all_or_nothing (w : World) :
  fst (loadAllData w) = Resolved tt
  /\ same_tables (remote w) (remote (snd (loadAllData w)))
  /\ toasts (app (snd (loadAllData w))) = toasts (app w)
  /\ dataLoading (app (snd (loadAllData w))) = false
  /\ data (app (snd (loadAllData w))) =
     (if existsb (fun x => x) (firstn 3 (faults (remote w)))
      then data (app w)
      else {| books := map Db.rowToBook (order Db.by_title (books_table (remote w)));
              students := map Db.rowToStudent
                            (order Db.by_class_then_name (students_table (remote w)));
              loans := map Db.rowToLoan
                         (order Db.by_loan_date_desc (loans_table (remote w))) |}).
Proof.
  destruct w as [s [bt st lt n fs]].
  unfold loadAllData, bind, try_catch, Promise_all3, await, set, ret,
    Db.fetchBooks, Db.fetchStudents, Db.fetchLoans, request, same_tables.
  cbn.
  destruct fs as [|[] [|[] [|[] fs]]]; cbn; auto 10.
Qed.

(** With an empty fault plan neither step of [handleSaveLoan] is rejected,
    and the plan stays empty. *)
Lemma ResolveStudent_no_fault w name cls o w1 :
  ResolveStudent w name cls o w1 ->
  faults (remote w) = [] ->
  faults (remote w1) = [] /\ o <> Rejected.
Proof.
  intros [s Fs|r1 Fs Fl T A|row r1 Fs Fl A Hrow Tb Ts Tl Ti] F; cbn.
  - split; [exact F|discriminate].
  - unfold fails in Fl. rewrite F in Fl. discriminate.
  - unfold advanced in A. rewrite A, F. split; [reflexivity|discriminate].
Qed.

Lemma WriteLoan_no_fault el s b now w o w2 :
  WriteLoan el s b now w o w2 ->
  faults (remote w) = [] ->
  faults (remote w2) = [] /\ o <> Rejected.
Proof.
  intros [r2 Fl T A|e r2 E Fl A Tb Ts Tl Ti|r2 E Fl A Tb Ts Tl Ti] F; cbn.
  - unfold fails in Fl. rewrite F in Fl. discriminate.
  - unfold advanced in A. rewrite A, F. split; [reflexivity|discriminate].
  - unfold advanced in A. rewrite A, F. split; [reflexivity|discriminate].
Qed.

(** With a store that does not fail, an action leaves the snapshot equal to
    what the store holds. *)
Lemma in_sync_step (a : Action) (w : World) :
  faults (remote w) = [] ->
  data (app w) = snapshot (remote w) ->
  faults (remote (run (handler a) w)) = []
  /\ data (app (run (handler a) w)) = snapshot (remote (run (handler a) w)).
Proof.
  intros F S.
  assert (Fl0 : fails (remote w) = false) by (unfold fails; now rewrite F).
  destruct a as [f|d|f now|i now|]; cbn [handler].
  - unfold run, handleSaveBook. start_wp. do 3 wp_step.
    destruct (editingBook (app w)); wp_step.
    + unfold Db.updateBook. wp_await_request; [congruence|reloaded_in_sync F].
    + unfold Db.insertBook. wp_await_request; [congruence|reloaded_in_sync F].
  - unfold run, handleSaveStudent. start_wp. do 3 wp_step.
    destruct (editingStudent (app w)); wp_step.
    + unfold Db.updateStudent. wp_await_request; [congruence|reloaded_in_sync F].
    + unfold Db.insertStudent. wp_await_request; [congruence|reloaded_in_sync F].
  - destruct (handleSaveLoan_run f now w)
      as [V|w1 V RS|b s w1 w2 Fb V RS WL|b s w1 w2 d r3 Fb V RS WL T3 Fs D];
      [auto|exfalso|exfalso|].
    + destruct (ResolveStudent_no_fault _ _ _ _ _ RS F) as [_ N]. now apply N.
    + destruct (ResolveStudent_no_fault _ _ _ _ _ RS F) as [F1 _].
      destruct (WriteLoan_no_fault _ _ _ _ _ _ _ WL F1) as [_ N]. now apply N.
    + destruct (ResolveStudent_no_fault _ _ _ _ _ RS F) as [F1 _].
      destruct (WriteLoan_no_fault _ _ _ _ _ _ _ WL F1) as [F2 _].
      cbn. rewrite F2 in *. cbn in *. subst d. split; [exact Fs|].
      unfold snapshot. destruct T3 as (-> & -> & -> & _). reflexivity.
  - unfold run, handleReturnBook. start_wp. do 2 wp_step.
    unfold Db.updateLoan. wp_await_request; [congruence|reloaded_in_sync F].
  - unfold run, executeDelete.
    destruct (confirmDelete (app w)) as [[ty id]|]; [|auto].
    start_wp. cbn [delete_type delete_id]. destruct ty.
    + do 3 wp_step. unfold Db.deleteBook.
      wp_await_request; [congruence|reloaded_in_sync F].
    + do 5 wp_step. unfold Db.deleteStudent.
      wp_await_request; [congruence|reloaded_in_sync F].
    + do 7 wp_step. unfold Db.deleteLoan.
      wp_await_request; [congruence|reloaded_in_sync F].
Qed.

(** X6. As long as no request fails, the snapshot the component shows stays
    equal to the content of the store (each table in the order of its query)
    through any sequence of user actions: save book, save student, save
    loan, return, delete, in any order and whether or not an action is
    ignored by its guard. *)
Theorem actions_keep_snapshot_in_sync (acts : list Action) (w : World) :
  faults (remote w) = [] ->
  data (app w) = snapshot (remote w) ->
  let w' := fold_left (fun w a => run (handler a) w) acts w in
  faults (remote w') = [] /\ data (app w') = snapshot (remote w').
Proof.
  revert w. induction acts as [|a acts IH]; intros w F S; cbn; [auto|].
  destruct (in_sync_step a w F S) as (F' & S'). now apply IH.
Qed.

(** X7. With a store that does not fail, saving a valid new-loan form
    closes the form and lists the new loan in the reloaded snapshot: it
    carries the id and title of the chosen book, the loan date [now], the due
    date [addDays(now, 7)] (the seventh calendar day after the loan date, at
    the same time of day, when the zone shows that reading) and no return
    date, and its badge is Em Aberto at every instant up to and including the
    due date and no longer after it. *)
Theorem handleSaveLoan_new_loan_listed (f : LoanForm) (now : instant) (w : World)
    (b : Book.t) :
  faults (remote w) = [] ->
  editingLoan (app w) = None ->
  find (fun b => String.eqb (Book.id b) (form_bookId f)) (books (data (app w)))
    = Some b ->
  trim (form_studentName f) <> EmptyString ->
  trim (form_studentClass f) <> EmptyString ->
  let w' := run (handleSaveLoan f now) w in
  showLoanForm (app w') = false
  /\ exists l,
       In l (loans (data (app w')))
       /\ Loan.bookId l = Some (Book.id b)
       /\ Loan.bookTitle l = Book.title b
       /\ Loan.loanDate l = toISOString now
       /\ Loan.dueDate l = toISOString (addDays now 7)
       /\ Loan.returnDate l = None
       /\ (wall_clock_exists (LocalTime now + 7 * millisecondsInDay) ->
           localDay (parseISO (Loan.dueDate l))
           = localDay (parseISO (Loan.loanDate l)) + 7
           /\ localTime (parseISO (Loan.dueDate l))
              = localTime (parseISO (Loan.loanDate l)))
       /\ forall later,
            LoanStatusBadge later l = EmAberto <-> later <= addDays now 7.
Proof.
  intros F El Fb Hn Hc. cbv zeta.
  assert (Made : forall id s,
             Loan.bookId (Db.rowToLoan (created_row id s b now))
             = Some (Book.id b)
             /\ Loan.bookTitle (Db.rowToLoan (created_row id s b now))
                = Book.title b
             /\ Loan.loanDate (Db.rowToLoan (created_row id s b now))
                = toISOString now
             /\ Loan.dueDate (Db.rowToLoan (created_row id s b now))
                = toISOString (addDays now 7)
             /\ Loan.returnDate (Db.rowToLoan (created_row id s b now)) = None
             /\ (wall_clock_exists (LocalTime now + 7 * millisecondsInDay) ->
                 localDay (parseISO (Loan.dueDate
                                       (Db.rowToLoan (created_row id s b now))))
                 = localDay (parseISO (Loan.loanDate
                                         (Db.rowToLoan (created_row id s b now))))
                   + 7
                 /\ localTime (parseISO (Loan.dueDate
                                          (Db.rowToLoan (created_row id s b now))))
                    = localTime (parseISO (Loan.loanDate
                                            (Db.rowToLoan (created_row id s b now)))))
             /\ forall later,
                  LoanStatusBadge later (Db.rowToLoan (created_row id s b now))
                  = EmAberto <-> later <= addDays now 7).
  { intros id s. do 5 (split; [reflexivity|]). split.
    { intros W.
      cbn [Db.rowToLoan created_row Loan.dueDate Loan.loanDate
           LoanRow.due_date LoanRow.loan_date].
      unfold parseISO, toISOString.
      destruct (DateFacts.addDays_calendar now 7 W) as (D & T & _).
      split; assumption. }
    intros later. split.
    - rewrite DashboardFacts.LoanStatusBadge_eq.
      cbn [Db.rowToLoan created_row Loan.dueDate Loan.returnDate
           LoanRow.due_date LoanRow.return_date].
      unfold parseISO, toISOString.
      destruct (Z.ltb_spec (addDays now 7) later);
        [discriminate|intros _; assumption].
    - rewrite DashboardFacts.LoanStatusBadge_eq.
      cbn [Db.rowToLoan created_row Loan.dueDate Loan.returnDate
           LoanRow.due_date LoanRow.return_date].
      unfold parseISO, toISOString.
      destruct (Z.ltb_spec (addDays now 7) later); [lia|reflexivity]. }
  assert (V : ~ invalid f w).
  { unfold invalid. rewrite Fb. intros [H|[H|H]]; [discriminate|auto|auto]. }
  destruct (handleSaveLoan_run f now w)
    as [V'|w1 V' RS|b' s w1 w2 Fb' V' RS WL|b' s w1 w2 d r3 Fb' V' RS WL T3 Fs D];
    [contradiction|exfalso|exfalso|].
  - destruct (ResolveStudent_no_fault _ _ _ _ _ RS F) as [_ N]. now apply N.
  - destruct (ResolveStudent_no_fault _ _ _ _ _ RS F) as [F1 _].
    destruct (WriteLoan_no_fault _ _ _ _ _ _ _ WL F1) as [_ N]. now apply N.
  - destruct (ResolveStudent_no_fault _ _ _ _ _ RS F) as [F1 _].
    destruct (WriteLoan_no_fault _ _ _ _ _ _ _ WL F1) as [F2 _].
    assert (E1 : editingLoan (app w1) = None).
    { destruct (ResolveStudent_frame _ _ _ _ _ RS) as (_ & _ & _ & E). congruence. }
    rewrite Fb in Fb'. inversion Fb'; subst b'. clear Fb'.
    cbn. split; [reflexivity|].
    inversion WL as [|e r2 E Fl A Tb Ts Tl Ti|r2 E Fl A Tb Ts Tl Ti]; subst;
      [congruence|].
    cbn in *. rewrite F2. cbn.
    exists (Db.rowToLoan
              (created_row (gen_random_uuid (inserted (remote w1))) s b now)).
    split.
    + apply in_map. eapply Permutation_in; [symmetry; apply SortFacts.order_perm|].
      rewrite Tl. apply in_or_app. right. left. reflexivity.
    + apply (Made (gen_random_uuid (inserted (remote w1))) s).
Qed.

End WithPlatform.

(** X1 on the reference platform: Solaris is added to the store that holds
    Dune. *)
Lemma handleSaveBook_effect_witness :
  fails (remote Scenario.fresh_world) = false
  /\ ~ failed Scenario.fresh_world
         (run (handleSaveBook (P := Reference.platform) Scenario.form_solaris)
            Scenario.fresh_world)
  /\ books_table
       (remote (run (handleSaveBook (P := Reference.platform) Scenario.form_solaris)
                  Scenario.fresh_world))
     = [Scenario.dune;
        new_book "row." (Db.bookToRow Scenario.solaris)].
Proof.
  split; [reflexivity|].
  exact (proj2 (proj2 (proj2 (proj2 (proj2
           (handleSaveBook_effect (P := Reference.platform)
              Scenario.form_solaris Scenario.fresh_world)))))
           eq_refl).
Defined.

(** X2 on the reference platform: a second Ana Silva of 9A is registered
    beside the first. *)
Lemma handleSaveStudent_effect_witness :
  fails (remote Scenario.lending_world) = false
  /\ ~ failed Scenario.lending_world
         (run (handleSaveStudent (P := Reference.platform)
                 {| StudentData.name := "Ana Silva"; StudentData.class := "9A" |})
            Scenario.lending_world)
  /\ students_table
       (remote (run (handleSaveStudent (P := Reference.platform)
                       {| StudentData.name := "Ana Silva"; StudentData.class := "9A" |})
                  Scenario.lending_world))
     = [Scenario.ana;
        {| StudentRow.id := "row."; StudentRow.name := "Ana Silva";
           StudentRow.class := "9A" |}].
Proof.
  split; [reflexivity|].
  exact (proj2 (proj2 (proj2 (proj2 (proj2
           (handleSaveStudent_effect (P := Reference.platform)
              {| StudentData.name := "Ana Silva"; StudentData.class := "9A" |}
              Scenario.lending_world)))))
           eq_refl).
Defined.

(** X3 on the reference platform: Ana Silva gives Dune back on
    2024-01-10; the stored loan loses its book id. *)
Lemma handleReturnBook_effect_witness :
  fails (remote Scenario.lending_world) = false
  /\ ~ failed Scenario.lending_world
         (run (handleReturnBook (P := Reference.platform) "l1" Scenario.january_10)
            Scenario.lending_world)
  /\ loans_table
       (remote (run (handleReturnBook (P := Reference.platform) "l1"
                       Scenario.january_10)
                  Scenario.lending_world))
     = [{| LoanRow.id := "l1";
           LoanRow.student_name := "Ana Silva";
           LoanRow.student_class := "9A";
           LoanRow.book_id := None;
           LoanRow.book_title := "Dune";
           LoanRow.loan_date := Scenario.january_01;
           LoanRow.due_date := Scenario.january_08;
           LoanRow.return_date := Some Scenario.january_10 |}].
Proof.
  split; [reflexivity|].
  exact (proj2 (proj2 (proj2
           (handleReturnBook_effect (P := Reference.platform) "l1"
              Scenario.january_10 Scenario.lending_world)))
           eq_refl).
Defined.

(** X4 on the reference platform: deleting Dune while Ana Silva's loan of
    it is outstanding removes the book and keeps the loan. *)
Lemma executeDelete_effect_witness :
  fails (remote (Scenario.confirming Scenario.delete_dune Scenario.lending_world))
    = false
  /\ ~ failed (Scenario.confirming Scenario.delete_dune Scenario.lending_world)
         (run (executeDelete (P := Reference.platform))
            (Scenario.confirming Scenario.delete_dune Scenario.lending_world))
  /\ books_table
       (remote (run (executeDelete (P := Reference.platform))
                  (Scenario.confirming Scenario.delete_dune Scenario.lending_world)))
     = []
  /\ students_table
       (remote (run (executeDelete (P := Reference.platform))
                  (Scenario.confirming Scenario.delete_dune Scenario.lending_world)))
     = [Scenario.ana]
  /\ loans_table
       (remote (run (executeDelete (P := Reference.platform))
                  (Scenario.confirming Scenario.delete_dune Scenario.lending_world)))
     = [Scenario.open_loan].
Proof.
  split; [reflexivity|].
  exact (proj2 (proj2
           (executeDelete_effect (P := Reference.platform)
              (Scenario.confirming Scenario.delete_dune Scenario.lending_world)))
           eq_refl).
Defined.

(** X6 on the reference platform: a loan is made, given back and the book
    deleted. *)
Lemma actions_keep_snapshot_in_sync_witness :
  faults (remote Scenario.fresh_world) = []
  /\ data (app Scenario.fresh_world)
     = snapshot (P := Reference.platform) (remote Scenario.fresh_world)
  /\ faults
       (remote
          (fold_left (fun w a => run (handler (P := Reference.platform) a) w)
             [SaveLoan Scenario.form_ana Scenario.january_01;
              ReturnBook "row.i" Scenario.january_10;
              SaveBook Scenario.form_solaris]
             Scenario.fresh_world)) = []
  /\ data
       (app
          (fold_left (fun w a => run (handler (P := Reference.platform) a) w)
             [SaveLoan Scenario.form_ana Scenario.january_01;
              ReturnBook "row.i" Scenario.january_10;
              SaveBook Scenario.form_solaris]
             Scenario.fresh_world))
     = snapshot (P := Reference.platform)
         (remote
            (fold_left (fun w a => run (handler (P := Reference.platform) a) w)
               [SaveLoan Scenario.form_ana Scenario.january_01;
                ReturnBook "row.i" Scenario.january_10;
                SaveBook Scenario.form_solaris]
               Scenario.fresh_world)).
Proof.
  split; [reflexivity|]. split; [reflexivity|].
  exact (actions_keep_snapshot_in_sync (P := Reference.platform)
           [SaveLoan Scenario.form_ana Scenario.january_01;
            ReturnBook "row.i" Scenario.january_10;
            SaveBook Scenario.form_solaris]
           Scenario.fresh_world eq_refl eq_refl).
Defined.

(** X7 in New York: Dune is lent to Ana Silva at noon on 2024-03-09 and is
    due at noon on 2024-03-16, the clocks going forward in between. *)
Lemma handleSaveLoan_new_loan_listed_witness :
  faults (remote Scenario.fresh_world) = []
  /\ editingLoan (app Scenario.fresh_world) = None
  /\ find (fun b => String.eqb (Book.id b) (form_bookId Scenario.form_ana))
       (books (data (app Scenario.fresh_world)))
     = Some (Db.rowToBook Scenario.dune)
  /\ trim (Platform := Scenario.new_york) (form_studentName Scenario.form_ana)
     <> EmptyString
  /\ trim (Platform := Scenario.new_york) (form_studentClass Scenario.form_ana)
     <> EmptyString
  /\ showLoanForm
       (app (run (handleSaveLoan (P := Scenario.new_york) Scenario.form_ana
                    Scenario.march_09_noon)
               Scenario.fresh_world)) = false
  /\ exists l,
       In l (loans (data (app (run (handleSaveLoan (P := Scenario.new_york)
                                      Scenario.form_ana Scenario.march_09_noon)
                                 Scenario.fresh_world))))
       /\ Loan.bookId l = Some "b1"
       /\ Loan.bookTitle l = "Dune"
       /\ Loan.loanDate l = Scenario.march_09_noon
       /\ Loan.dueDate l = Scenario.march_16_noon
       /\ Loan.returnDate l = None
       /\ (wall_clock_exists (P := Scenario.new_york)
             (LocalTime (P := Scenario.new_york) Scenario.march_09_noon
              + 7 * millisecondsInDay) ->
           localDay (P := Scenario.new_york) (parseISO (Loan.dueDate l))
           = localDay (P := Scenario.new_york) (parseISO (Loan.loanDate l)) + 7
           /\ localTime (P := Scenario.new_york) (parseISO (Loan.dueDate l))
              = localTime (P := Scenario.new_york) (parseISO (Loan.loanDate l)))
       /\ forall later,
            LoanStatusBadge (P := Scenario.new_york) later l = EmAberto
            <-> later <= Scenario.march_16_noon.
Proof.
  assert (Hn : trim (Platform := Scenario.new_york)
                 (form_studentName Scenario.form_ana) <> EmptyString)
    by (vm_compute; discriminate).
  assert (Hc : trim (Platform := Scenario.new_york)
                 (form_studentClass Scenario.form_ana) <> EmptyString)
    by (vm_compute; discriminate).
  split; [reflexivity|]. split; [reflexivity|]. split; [reflexivity|].
  split; [exact Hn|]. split; [exact Hc|].
  exact (handleSaveLoan_new_loan_listed (P := Scenario.new_york)
           Scenario.form_ana Scenario.march_09_noon Scenario.fresh_world
           (Db.rowToBook Scenario.dune) eq_refl eq_refl eq_refl Hn Hc).
Defined.

End StoreFacts.

(** ** src/services/supabaseService.ts: queries and mappers *)

Module ServiceFacts.
Import Supabase Semantics HandlerFacts.
Section WithPlatform.
Context {P : Platform}.

(** X8. [fetchLoans] writes nothing; it rejects exactly when its request
    fails, and otherwise returns every row of the [loans] table exactly once,
    mapped by [rowToLoan], newest loan date first. *)
Theorem fetchLoans_newest_first (r : Remote) :
  same_tables r (snd (Db.fetchLoans r))
  /\ (fails r = true -> fst (Db.fetchLoans r) = Rejected)
  /\ (fails r = false ->
      exists ls,
        fst (Db.fetchLoans r) = Resolved ls
        /\ Permutation ls (map Db.rowToLoan (loans_table r))
        /\ StronglySorted (fun a b => Loan.loanDate b <= Loan.loanDate a) ls).
Proof.
  destruct (Db.fetchLoans r) as [o r'] eqn:E. unfold Db.fetchLoans in E.
  apply request_cases in E.
  destruct E as [(Fl & -> & T & A)|(Fl & r0 & T & A & E)].
  - cbn. split; [exact T|]. split; [reflexivity|congruence].
  - inversion E; subst. cbn. split; [exact T|]. split; [congruence|].
    intros _. eexists. split; [reflexivity|].
    destruct T as (_ & _ & -> & _). split.
    + apply Permutation_map, SortFacts.order_perm.
    + apply SortFacts.StronglySorted_map
        with (R := fun a b => Db.by_loan_date_desc a b = true).
      * unfold Db.by_loan_date_desc. intros a b H. cbn. lia.
      * apply SortFacts.order_sorted; unfold Db.by_loan_date_desc; intros; lia.
Qed.

(** X9. When the collation of the database is a total preorder, what
    [fetchStudents] returns is every row of the [students] table exactly
    once, ordered by class and, within one class, by name. *)
Theorem fetchStudents_by_class_then_name (r : Remote) (ss : list Student.t)
    (r' : Remote) :
  (forall a b, collate_leb a b = false -> collate_leb b a = true) ->
  (forall a b c, collate_leb a b = true -> collate_leb b c = true ->
                 collate_leb a c = true) ->
  Db.fetchStudents r = (Resolved ss, r') ->
  Permutation ss (map Db.rowToStudent (students_table r))
  /\ StronglySorted
       (fun a b =>
          collate_leb (Student.class a) (Student.class b) = true
          /\ (collate_leb (Student.class b) (Student.class a) = true ->
              collate_leb (Student.name a) (Student.name b) = true)) ss.
Proof.
  intros Total Trans E. unfold Db.fetchStudents in E.
  apply request_cases in E.
  destruct E as [(Fl & Ho & T & A)|(Fl & r0 & T & A & E)]; [discriminate|].
  inversion E; subst. destruct T as (_ & -> & _ & _). split.
  - apply Permutation_map, SortFacts.order_perm.
  - apply SortFacts.StronglySorted_map
      with (R := fun a b => Db.by_class_then_name a b = true).
    + unfold Db.by_class_then_name. intros a b H. cbn.
      destruct (collate_leb (StudentRow.class a) (StudentRow.class b)) eqn:Eab;
        destruct (collate_leb (StudentRow.class b) (StudentRow.class a)) eqn:Eba;
        cbn in H; try discriminate; split; auto; discriminate.
    + apply SortFacts.order_sorted; unfold Db.by_class_then_name.
      * intros a b.
        destruct (collate_leb (StudentRow.class a) (StudentRow.class b)) eqn:Eab;
          destruct (collate_leb (StudentRow.class b) (StudentRow.class a)) eqn:Eba;
          cbn; auto.
        intros _. apply Total in Eab. congruence.
      * intros a b c H1 H2.
        assert (Eab : collate_leb (StudentRow.class a) (StudentRow.class b) = true).
        { destruct (collate_leb (StudentRow.class a) (StudentRow.class b));
            [reflexivity|exact H1]. }
        assert (Ebc : collate_leb (StudentRow.class b) (StudentRow.class c) = true).
        { destruct (collate_leb (StudentRow.class b) (StudentRow.class c));
            [reflexivity|exact H2]. }
        rewrite (Trans _ _ _ Eab Ebc). cbn [andb].
        destruct (collate_leb (StudentRow.class c) (StudentRow.class a)) eqn:Eca;
          [|reflexivity].
        rewrite Eab, (Trans _ _ _ Ebc Eca) in H1.
        rewrite Ebc, (Trans _ _ _ Eca Eab) in H2.
        cbn [andb] in H1, H2. eauto.
Qed.

(** X10. On a store that does not fail, [insertBook] followed by
    [fetchBooks]: the book returned carries the next generated id and every
    field as given ([bookToRow] then [rowToBook] lose nothing, an absent
    barcode or collection staying absent), and the fetch returns it together
    with the books that were there, each exactly once; the other tables are
    untouched. *)
Theorem insertBook_then_fetchBooks (book : BookData.t) (r : Remote) :
  faults r = [] ->
  exists b r1 bs r2,
    Db.insertBook book r = (Resolved b, r1)
    /\ Db.fetchBooks r1 = (Resolved bs, r2)
    /\ Book.id b = gen_random_uuid (inserted r)
    /\ (Book.title b, Book.author b, Book.year b, Book.publisher b, Book.isbn b,
        Book.barcode b, Book.editionYear b, Book.location b, Book.collection b)
       = (BookData.title book, BookData.author book, BookData.year book,
          BookData.publisher book, BookData.isbn book, BookData.barcode book,
          BookData.editionYear book, BookData.location book,
          BookData.collection book)
    /\ Permutation bs (b :: map Db.rowToBook (books_table r))
    /\ students_table r2 = students_table r
    /\ loans_table r2 = loans_table r.
Proof.
  intros F. destruct r as [bt st lt n fs]. cbn in F. subst fs.
  do 4 eexists. split; [reflexivity|]. split; [reflexivity|]. cbn.
  repeat split.
  etransitivity; [apply Permutation_map, SortFacts.order_perm|].
  rewrite map_app. cbn. symmetry. apply Permutation_cons_append.
Qed.

(** X11. On a store that does not fail, [insertLoan] of a complete loan
    followed by [fetchLoans]: the loan returned is the loan given under the
    next generated id ([loanToRow] then [rowToLoan] keep every field, a
    missing book id and a missing return date staying [null]), and the fetch
    returns it together with the loans that were there, each exactly once. *)
Theorem insertLoan_then_fetchLoans (l : Loan.t) (r : Remote) :
  faults r = [] ->
  exists l' r1 ls r2,
    Db.insertLoan
      {| PartialLoan.studentName := Some (Loan.studentName l);
         PartialLoan.studentClass := Some (Loan.studentClass l);
         PartialLoan.bookId := Loan.bookId l;
         PartialLoan.bookTitle := Some (Loan.bookTitle l);
         PartialLoan.loanDate := Some (Loan.loanDate l);
         PartialLoan.dueDate := Some (Loan.dueDate l);
         PartialLoan.returnDate := Some (Loan.returnDate l) |} r
      = (Resolved l', r1)
    /\ Db.fetchLoans r1 = (Resolved ls, r2)
    /\ l' = {| Loan.id := gen_random_uuid (inserted r);
               Loan.studentName := Loan.studentName l;
               Loan.studentClass := Loan.studentClass l;
               Loan.bookId := Loan.bookId l;
               Loan.bookTitle := Loan.bookTitle l;
               Loan.loanDate := Loan.loanDate l;
               Loan.dueDate := Loan.dueDate l;
               Loan.returnDate := Loan.returnDate l |}
    /\ Permutation ls (l' :: map Db.rowToLoan (loans_table r))
    /\ books_table r2 = books_table r
    /\ students_table r2 = students_table r.
Proof.
  intros F. destruct r as [bt st lt n fs]. cbn in F. subst fs.
  do 4 eexists. split; [reflexivity|]. split; [reflexivity|]. cbn.
  repeat split.
  etransitivity; [apply Permutation_map, SortFacts.order_perm|].
  rewrite map_app. cbn. symmetry. apply Permutation_cons_append.
Qed.

End WithPlatform.

(** X8 on the reference platform: a store whose first request succeeds. *)
Lemma fetchLoans_newest_first_witness :
  fails (Scenario.store [] [Scenario.open_loan] [false]) = false
  /\ exists ls,
       fst (Db.fetchLoans (Scenario.store [] [Scenario.open_loan] [false]))
       = Resolved ls
       /\ Permutation ls (map Db.rowToLoan [Scenario.open_loan])
       /\ StronglySorted (fun a b => Loan.loanDate b <= Loan.loanDate a) ls.
Proof.
  split; [reflexivity|].
  exact (proj2 (proj2 (fetchLoans_newest_first
                         (Scenario.store [] [Scenario.open_loan] [false])))
           eq_refl).
Defined.

(** X9 on the reference platform, whose collation is [String.leb]: Bruno
    Costa of 8B comes before Ana Silva of 9A. *)
Lemma fetchStudents_by_class_then_name_witness :
  Db.fetchStudents (P := Reference.platform)
    (Scenario.store [Scenario.ana; Scenario.bruno_row] [] [])
  = (Resolved [Db.rowToStudent Scenario.bruno_row; Db.rowToStudent Scenario.ana],
     Scenario.store [Scenario.ana; Scenario.bruno_row] [] [])
  /\ Permutation
       [Db.rowToStudent Scenario.bruno_row; Db.rowToStudent Scenario.ana]
       (map Db.rowToStudent [Scenario.ana; Scenario.bruno_row])
  /\ StronglySorted
       (fun a b =>
          String.leb (Student.class a) (Student.class b) = true
          /\ (String.leb (Student.class b) (Student.class a) = true ->
              String.leb (Student.name a) (Student.name b) = true))
       [Db.rowToStudent Scenario.bruno_row; Db.rowToStudent Scenario.ana].
Proof.
  split; [reflexivity|].
  exact (fetchStudents_by_class_then_name (P := Reference.platform)
           (Scenario.store [Scenario.ana; Scenario.bruno_row] [] [])
           [Db.rowToStudent Scenario.bruno_row; Db.rowToStudent Scenario.ana]
           (Scenario.store [Scenario.ana; Scenario.bruno_row] [] [])
           SortFacts.string_leb_total SortFacts.string_leb_trans eq_refl).
Defined.

(** X10 on the reference platform: Solaris joins Dune. *)
Lemma insertBook_then_fetchBooks_witness :
  faults (Scenario.store [] [] []) = []
  /\ exists b r1 bs r2,
       Db.insertBook (P := Reference.platform) Scenario.solaris
         (Scenario.store [] [] []) = (Resolved b, r1)
       /\ Db.fetchBooks (P := Reference.platform) r1 = (Resolved bs, r2)
       /\ Book.id b = "row."
       /\ (Book.title b, Book.author b, Book.year b, Book.publisher b, Book.isbn b,
           Book.barcode b, Book.editionYear b, Book.location b, Book.collection b)
          = ("Solaris", "Stanislaw Lem", 1961, "MON", "9780156027601",
             None, 1970, "A2", None)
       /\ Permutation bs (b :: map Db.rowToBook [Scenario.dune])
       /\ students_table r2 = []
       /\ loans_table r2 = [].
Proof.
  split; [reflexivity|].
  exact (insertBook_then_fetchBooks (P := Reference.platform) Scenario.solaris
           (Scenario.store [] [] []) eq_refl).
Defined.

(** X11 on the reference platform: Ana Silva's returned loan is inserted
    again. *)
Lemma insertLoan_then_fetchLoans_witness :
  faults (Scenario.store [] [] []) = []
  /\ exists l' r1 ls r2,
       Db.insertLoan (P := Reference.platform)
         {| PartialLoan.studentName := Some "Ana Silva";
            PartialLoan.studentClass := Some "9A";
            PartialLoan.bookId := Some "b1";
            PartialLoan.bookTitle := Some "Dune";
            PartialLoan.loanDate := Some Scenario.january_01;
            PartialLoan.dueDate := Some Scenario.january_08;
            PartialLoan.returnDate := Some (Some Scenario.january_10) |}
         (Scenario.store [] [] []) = (Resolved l', r1)
       /\ Db.fetchLoans r1 = (Resolved ls, r2)
       /\ l' = {| Loan.id := "row.";
                  Loan.studentName := "Ana Silva";
                  Loan.studentClass := "9A";
                  Loan.bookId := Some "b1";
                  Loan.bookTitle := "Dune";
                  Loan.loanDate := Scenario.january_01;
                  Loan.dueDate := Scenario.january_08;
                  Loan.returnDate := Some Scenario.january_10 |}
       /\ Permutation ls (l' :: map Db.rowToLoan [])
       /\ books_table r2 = [Scenario.dune]
       /\ students_table r2 = [].
Proof.
  split; [reflexivity|].
  exact (insertLoan_then_fetchLoans (P := Reference.platform)
           (Db.rowToLoan Scenario.returned_loan) (Scenario.store [] [] []) eq_refl).
Defined.

End ServiceFacts.

(** ** src/App.tsx: the loan list, the dashboard counts and the
    notifications *)

Module ViewFacts.
Import DateFns App AppViews.

Lemma includes_empty (s : string) : includes s EmptyString = true.
Proof. unfold includes. destruct s; reflexivity. Qed.

Section WithPlatform.
Context {P : Platform}.

(** X12. [filteredLoans] lists exactly the loans whose student name or book
    title contains the search term, case-insensitively, each as often as it
    occurs in the snapshot, newest loan date first.  A search term that
    lowers to the empty string filters nothing out, and a snapshot already
    ordered newest first (as [fetchLoans] delivers it) is then shown as it
    is. *)
Theorem filteredLoans_sound (searchTerm : string) (ls : list Loan.t) :
  Permutation (filteredLoans searchTerm ls) (filter (loan_matches searchTerm) ls)
  /\ StronglySorted (fun a b => Loan.loanDate b <= Loan.loanDate a)
       (filteredLoans searchTerm ls)
  /\ (forall l,
        In l (filteredLoans searchTerm ls) <->
        In l ls
        /\ (includes (toLowerCase (Loan.studentName l)) (toLowerCase searchTerm) = true
            \/ includes (toLowerCase (Loan.bookTitle l)) (toLowerCase searchTerm) = true))
  /\ (toLowerCase searchTerm = EmptyString ->
      StronglySorted (fun a b => Loan.loanDate b <= Loan.loanDate a) ls ->
      filteredLoans searchTerm ls = ls).
Proof.
  unfold filteredLoans, sort.
  assert (Hp : Permutation
                 (Supabase.order (fun a b => by_loanDate_desc a b <=? 0)
                    (filter (loan_matches searchTerm) ls))
                 (filter (loan_matches searchTerm) ls))
    by apply SortFacts.order_perm.
  split; [exact Hp|]. split; [|split].
  - eapply SortFacts.StronglySorted_weaken
      with (R1 := fun a b => (by_loanDate_desc a b <=? 0) = true).
    + unfold by_loanDate_desc, parseISO. intros a b H. lia.
    + apply SortFacts.order_sorted; unfold by_loanDate_desc; intros; lia.
  - intros l. split.
    + intros H. apply (Permutation_in _ Hp) in H. apply filter_In in H.
      destruct H as [Hin Hm]. split; [exact Hin|].
      unfold loan_matches in Hm. now apply orb_true_iff in Hm.
    + intros [Hin Hm]. apply (Permutation_in _ (Permutation_sym Hp)).
      apply filter_In. split; [exact Hin|].
      unfold loan_matches. now apply orb_true_iff.
  - intros He Hs. rewrite SortFacts.filter_all.
    + apply SortFacts.order_sorted_id.
      eapply SortFacts.StronglySorted_weaken; [|exact Hs].
      unfold by_loanDate_desc, parseISO. intros a b H. cbv beta. lia.
    + intros l. unfold loan_matches. rewrite He, includes_empty. reflexivity.
Qed.

(** X13. The dashboard counts agree with each other and with the badges:
    overdue <= active <= total; active plus returned is the total; the active
    count is the number of loans whose badge is not Devolvido and the overdue
    count is the number of loans whose badge is Atrasado, at the same
    instant. *)
Theorem stats_consistent (now : instant) (d : LibraryData) :
  (overdueLoans (stats now d) <= activeLoans (stats now d)
   <= totalLoans (stats now d))%nat
  /\ (activeLoans (stats now d)
      + List.length (filter (fun l => JS.truthy_timestamp (Loan.returnDate l)) (loans d))
      = totalLoans (stats now d))%nat
  /\ activeLoans (stats now d)
     = List.length
         (filter (fun l => match LoanStatusBadge now l with
                           | Devolvido => false
                           | _ => true
                           end) (loans d))
  /\ overdueLoans (stats now d)
     = List.length
         (filter (fun l => match LoanStatusBadge now l with
                           | Atrasado _ => true
                           | _ => false
                           end) (loans d)).
Proof.
  unfold stats. cbn [overdueLoans activeLoans totalLoans].
  split; [split; apply SortFacts.filter_length_le|]. split; [|split].
  - rewrite <- (SortFacts.filter_length_partition
                  (fun l => negb (JS.truthy_timestamp (Loan.returnDate l))) (loans d)).
    f_equal. f_equal. apply filter_ext. intros l. now rewrite negb_involutive.
  - f_equal. apply filter_ext. intros l.
    unfold LoanStatusBadge, LoanStatusBadge_at.
    destruct (JS.truthy_timestamp (Loan.returnDate l)); [reflexivity|].
    now destruct (isAfter now (parseISO (Loan.dueDate l))).
  - induction (loans d) as [|l ls IH]; [reflexivity|].
    cbn [filter]. unfold LoanStatusBadge at 1, LoanStatusBadge_at at 1.
    destruct (JS.truthy_timestamp (Loan.returnDate l)); cbn [negb filter];
      [exact IH|].
    destruct (isAfter now (parseISO (Loan.dueDate l))); cbn [List.length];
      [f_equal; exact IH|exact IH].
Qed.

(** X14. In a regular zone (a reading the zone shows resolves to an instant
    with that reading, every day begins on itself and the calendar day never
    goes back: every zone of constant offset, and zones whose clocks change
    as in New York), there are at most as many due-soon notifications as
    active loans, and each one stands for a loan of the snapshot, carrying
    its id, book title, student name and due date, whose badge at the same
    instant is Em Aberto or Atrasado with 0 or 1 day of delay: a returned
    loan or a loan two or more days overdue is never notified. *)
Theorem upcoming_loans_outstanding (now : instant) (d : LibraryData) :
  regular_zone ->
  (List.length (upcoming now (loans d)) <= activeLoans (stats now d))%nat
  /\ forall n,
       In n (upcoming now (loans d)) ->
       exists l,
         In l (loans d)
         /\ notification_id n = Loan.id l
         /\ notification_bookTitle n = Loan.bookTitle l
         /\ notification_studentName n = Loan.studentName l
         /\ notification_due n = parseISO (Loan.dueDate l)
         /\ (LoanStatusBadge now l = EmAberto
             \/ LoanStatusBadge now l = Atrasado 0
             \/ LoanStatusBadge now l = Atrasado 1).
Proof.
  intros R. split.
  - unfold upcoming, stats. cbn [activeLoans]. rewrite length_map.
    apply SortFacts.filter_length_le.
  - intros n Hn. unfold upcoming in Hn. apply in_map_iff in Hn.
    destruct Hn as (l & <- & Hl). apply filter_In in Hl.
    destruct Hl as [Hl Hd]. apply filter_In in Hl. destruct Hl as [Hl Hr].
    exists l. cbn. repeat (split; [auto|]).
    rewrite DashboardFacts.LoanStatusBadge_eq.
    destruct (Loan.returnDate l); [discriminate|].
    unfold due_soon in Hd. apply andb_true_iff in Hd. destruct Hd as [Hd _].
    apply Z.leb_le in Hd.
    destruct (Z.ltb_spec (parseISO (Loan.dueDate l)) now) as [Hlt|Hge];
      [|auto].
    right.
    destruct (DateFacts.differenceInDays_recent now (parseISO (Loan.dueDate l))
                R Hlt Hd) as [-> | ->]; auto.
Qed.

End WithPlatform.

(** X12 on the reference platform: with an empty search term the list
    stays as fetched. *)
Lemma filteredLoans_sound_witness :
  toLowerCase (Platform := Reference.platform) EmptyString = EmptyString
  /\ StronglySorted (fun a b => Loan.loanDate b <= Loan.loanDate a)
       [Scenario.loan_due Scenario.june_12_23h; Scenario.loan_due Scenario.june_10]
  /\ filteredLoans (P := Reference.platform) EmptyString
       [Scenario.loan_due Scenario.june_12_23h; Scenario.loan_due Scenario.june_10]
     = [Scenario.loan_due Scenario.june_12_23h; Scenario.loan_due Scenario.june_10].
Proof.
  assert (S : StronglySorted (fun a b => Loan.loanDate b <= Loan.loanDate a)
                [Scenario.loan_due Scenario.june_12_23h;
                 Scenario.loan_due Scenario.june_10]).
  { constructor; [constructor; constructor|].
    constructor; [|constructor]. vm_compute. discriminate. }
  split; [reflexivity|]. split; [exact S|].
  exact (proj2 (proj2 (proj2 (filteredLoans_sound (P := Reference.platform)
           EmptyString
           [Scenario.loan_due Scenario.june_12_23h;
            Scenario.loan_due Scenario.june_10])))
           eq_refl S).
Defined.

(** X14 in New York: at noon on 2024-03-10, 23 hours after noon on
    2024-03-09 as the clocks went forward, the loan due then is notified and
    its badge shows 1 day of delay. *)
Lemma upcoming_loans_outstanding_witness :
  regular_zone (P := Scenario.new_york)
  /\ In (Scenario.notification_due Scenario.march_09_noon)
       (upcoming (P := Scenario.new_york) Scenario.march_10_noon
          [Scenario.loan_due Scenario.march_09_noon])
  /\ exists l,
       In l [Scenario.loan_due Scenario.march_09_noon]
       /\ notification_id (Scenario.notification_due Scenario.march_09_noon)
          = Loan.id l
       /\ notification_bookTitle (Scenario.notification_due Scenario.march_09_noon)
          = Loan.bookTitle l
       /\ notification_studentName (Scenario.notification_due Scenario.march_09_noon)
          = Loan.studentName l
       /\ notification_due (Scenario.notification_due Scenario.march_09_noon)
          = parseISO (Loan.dueDate l)
       /\ (LoanStatusBadge (P := Scenario.new_york) Scenario.march_10_noon l
           = EmAberto
           \/ LoanStatusBadge (P := Scenario.new_york) Scenario.march_10_noon l
              = Atrasado 0
           \/ LoanStatusBadge (P := Scenario.new_york) Scenario.march_10_noon l
              = Atrasado 1).
Proof.
  assert (H : In (Scenario.notification_due Scenario.march_09_noon)
                (upcoming (P := Scenario.new_york) Scenario.march_10_noon
                   [Scenario.loan_due Scenario.march_09_noon])).
  { vm_compute. left. reflexivity. }
  split; [exact DashboardFacts.new_york_regular|]. split; [exact H|].
  exact (proj2 (upcoming_loans_outstanding (P := Scenario.new_york)
                  Scenario.march_10_noon
                  {| books := []; students := [];
                     loans := [Scenario.loan_due Scenario.march_09_noon] |}
                  DashboardFacts.new_york_regular)
           (Scenario.notification_due Scenario.march_09_noon) H).
Defined.

End ViewFacts.

(** ** src/services/storageService.ts: storage and backup agree *)

Module StorageFacts.
Import StorageService.
Section WithJSON.
Context {J : JSON}.

(** X15. What [saveData] stores, [loadData] reads back: for a snapshot of
    three arrays whose JSON text is not empty and parses back to it,
    loading the slot [saveData] wrote returns the snapshot saved. *)
Theorem saveData_loadData_roundtrip (d : LibraryData) :
  JSON_parse (JSON_stringify (toObject d)) = Some (toObject d) ->
  JSON_stringify (toObject d) <> EmptyString ->
  well_formed d ->
  loadData (saveData d) = d.
Proof.
  intros Hp Hn (Wb & Wl & Ws). unfold saveData, loadData, JS.truthy_string.
  destruct (String.eqb_spec (JSON_stringify (toObject d)) EmptyString);
    [contradiction|].
  cbn [negb]. rewrite Hp. destruct d as [b l s]. cbn in *.
  destruct b; try discriminate. destruct l; try discriminate.
  destruct s; try discriminate. reflexivity.
Qed.

(** X16. The backup format is the storage format: a non-empty text that
    [importBackup] accepts, put into the storage slot as it is, is loaded by
    [loadData] as the very snapshot the import resolves with. *)
Theorem importBackup_agrees_with_loadData (text : string) (d : LibraryData) :
  importBackup (Some text) = Resolve d ->
  text <> EmptyString ->
  loadData (Some text) = d.
Proof.
  intros Hi Hn. unfold importBackup in Hi. unfold loadData, JS.truthy_string.
  destruct (String.eqb_spec text EmptyString); [contradiction|]. cbn [negb].
  destruct (JSON_parse text) as [data|]; [|discriminate].
  destruct (importBackup_parsed data) as [r|] eqn:E; [|discriminate]. subst r.
  apply BackupFacts.importBackup_parsed_resolve in E.
  destruct E as (b & l & s & Hb & Hl & Hs & Tb & Tl & ->).
  unfold loadData_parsed. rewrite Hb, Hl, Hs.
  unfold JsValue.or_empty_array at 1 2. rewrite Tb, Tl. reflexivity.
Qed.

End WithJSON.

(** X15 on the reference codec. *)
Lemma saveData_loadData_roundtrip_witness :
  @JSON_parse Reference.codec
    (@JSON_stringify Reference.codec (toObject Scenario.library))
  = Some (toObject Scenario.library)
  /\ @JSON_stringify Reference.codec (toObject Scenario.library) <> EmptyString
  /\ well_formed Scenario.library
  /\ loadData (J := Reference.codec) (saveData (J := Reference.codec) Scenario.library)
     = Scenario.library.
Proof.
  assert (Hp : @JSON_parse Reference.codec
                 (@JSON_stringify Reference.codec (toObject Scenario.library))
               = Some (toObject Scenario.library))
    by (exact (ReferenceFacts.parse_print (toObject Scenario.library))).
  assert (Hn : @JSON_stringify Reference.codec (toObject Scenario.library)
               <> EmptyString)
    by (vm_compute; discriminate).
  assert (W : well_formed Scenario.library) by (repeat split).
  split; [exact Hp|]. split; [exact Hn|]. split; [exact W|].
  exact (saveData_loadData_roundtrip (J := Reference.codec) Scenario.library
           Hp Hn W).
Defined.

(** X16 on the reference codec: the document with [books] and [loans] that
    are no arrays is imported, and loaded, as it is. *)
Lemma importBackup_agrees_with_loadData_witness :
  importBackup (J := Reference.codec)
    (Some (@JSON_stringify Reference.codec Scenario.not_arrays))
  = Resolve {| books := JNumber 1; loans := JBool true; students := JArray [] |}
  /\ @JSON_stringify Reference.codec Scenario.not_arrays <> EmptyString
  /\ loadData (J := Reference.codec)
       (Some (@JSON_stringify Reference.codec Scenario.not_arrays))
     = {| books := JNumber 1; loans := JBool true; students := JArray [] |}.
Proof.
  assert (Hi : importBackup (J := Reference.codec)
                 (Some (@JSON_stringify Reference.codec Scenario.not_arrays))
               = Resolve {| books := JNumber 1; loans := JBool true;
                            students := JArray [] |})
    by (vm_compute; reflexivity).
  assert (Hn : @JSON_stringify Reference.codec Scenario.not_arrays <> EmptyString)
    by (vm_compute; discriminate).
  split; [exact Hi|]. split; [exact Hn|].
  exact (importBackup_agrees_with_loadData (J := Reference.codec) _ _ Hi Hn).
Defined.

End StorageFacts.

(** ** The handlers of the local-storage variant of [App] *)

Module LocalFacts.
Import DateFns LocalApp.
Section WithPlatform.
Context {P : Platform}.

(** X17. In the local-storage variant, saving the loan form in edit mode
    with a known book keeps the id, the loan date, the due date and the
    return date of every loan (a returned loan stays returned); the loans
    with the edited id get the id and title of the chosen book, the others
    are untouched; no loan is added or removed, the books stay and the form
    is closed. *)
Theorem local_handleSaveLoan_edit_keeps_loan (f : App.LoanForm) (now : instant)
    (student_uuid loan_uuid : string) (s : State) (el : Loan.t) (b : Book.t) :
  editingLoan s = Some el ->
  find (fun b => String.eqb (Book.id b) (App.form_bookId f)) (books (data s))
    = Some b ->
  let s' := handleSaveLoan f now student_uuid loan_uuid s in
  map (fun l => (Loan.id l, Loan.loanDate l, Loan.dueDate l, Loan.returnDate l))
    (loans (data s'))
  = map (fun l => (Loan.id l, Loan.loanDate l, Loan.dueDate l, Loan.returnDate l))
      (loans (data s))
  /\ Forall2 (fun l l' =>
                if String.eqb (Loan.id l) (Loan.id el)
                then Loan.bookId l' = Some (Book.id b)
                     /\ Loan.bookTitle l' = Book.title b
                else l' = l)
       (loans (data s)) (loans (data s'))
  /\ books (data s') = books (data s)
  /\ showLoanForm s' = false /\ editingLoan s' = None.
Proof.
  intros E Fb. cbv zeta. unfold handleSaveLoan. rewrite Fb, E. cbn.
  split; [|split; [|auto]].
  - rewrite map_map. apply map_ext. intros l.
    destruct (String.eqb (Loan.id l) (Loan.id el)); reflexivity.
  - induction (loans (data s)) as [|l ls IH]; cbn; constructor; [|exact IH].
    destruct (String.eqb (Loan.id l) (Loan.id el)); cbn; auto.
Qed.

(** X18. In the local-storage variant, saving the loan form outside edit
    mode: with an unknown book nothing changes, and the form stays open;
    with a known book one loan is appended, under the given id, for that
    book, lent now, due at [addDays(now, 7)] (the seventh calendar day
    after, at the same time of day, when the zone shows that reading) and
    not returned.  Its student is the first record matching the typed name
    and class case-insensitively, and then no student is added; else one
    student is appended with the name and class exactly as typed, untrimmed
    and possibly empty. *)
Theorem local_handleSaveLoan_create (f : App.LoanForm) (now : instant)
    (student_uuid loan_uuid : string) (s : State) :
  editingLoan s = None ->
  let s' := handleSaveLoan f now student_uuid loan_uuid s in
  match find (fun b => String.eqb (Book.id b) (App.form_bookId f))
          (books (data s)) with
  | None => s' = s
  | Some b =>
      exists student,
        loans (data s')
        = (loans (data s)
           ++ [{| Loan.id := loan_uuid;
                  Loan.studentName := Student.name student;
                  Loan.studentClass := Student.class student;
                  Loan.bookId := Some (Book.id b);
                  Loan.bookTitle := Book.title b;
                  Loan.loanDate := toISOString now;
                  Loan.dueDate := toISOString (addDays now 7);
                  Loan.returnDate := None |}])%list
        /\ match find (App.same_student (App.form_studentName f)
                         (App.form_studentClass f))
                   (students (data s)) with
           | Some st => student = st /\ students (data s') = students (data s)
           | None =>
               student = {| Student.id := student_uuid;
                            Student.name := App.form_studentName f;
                            Student.class := App.form_studentClass f |}
               /\ students (data s') = (students (data s) ++ [student])%list
           end
        /\ books (data s') = books (data s)
        /\ showLoanForm s' = false
        /\ (wall_clock_exists (LocalTime now + 7 * millisecondsInDay) ->
            localDay (addDays now 7) = localDay now + 7
            /\ localTime (addDays now 7) = localTime now)
  end.
Proof.
  intros E. cbv zeta. unfold handleSaveLoan.
  assert (C : wall_clock_exists (LocalTime now + 7 * millisecondsInDay) ->
              localDay (addDays now 7) = localDay now + 7
              /\ localTime (addDays now 7) = localTime now).
  { intros W. destruct (DateFacts.addDays_calendar now 7 W) as (D & T & _).
    split; assumption. }
  destruct (find _ (books (data s))) as [b|]; [|reflexivity]. rewrite E.
  destruct (find (App.same_student _ _) (students (data s))) as [st|];
    eexists; cbn [data loans students books showLoanForm closeLoanForm setData];
    unfold newLoan; (do 4 (split; [repeat split|])); exact C.
Qed.

(** X19. In the local-storage variant, registering a return changes only
    the return date of the loans with the given id, which becomes now; their
    book id stays (unlike in the store variant), as does every other field of
    every loan; books and students are untouched, and the badge of a loan
    with that id is Devolvido from then on. *)
Theorem local_handleReturnBook_marks_returned (loanId : string) (now : instant)
    (s : State) :
  let s' := handleReturnBook loanId now s in
  Forall2 (fun l l' =>
             (Loan.id l', Loan.studentName l', Loan.studentClass l',
              Loan.bookId l', Loan.bookTitle l', Loan.loanDate l', Loan.dueDate l')
             = (Loan.id l, Loan.studentName l, Loan.studentClass l,
                Loan.bookId l, Loan.bookTitle l, Loan.loanDate l, Loan.dueDate l)
             /\ Loan.returnDate l'
                = (if String.eqb (Loan.id l) loanId then Some (toISOString now)
                   else Loan.returnDate l))
    (loans (data s)) (loans (data s'))
  /\ (forall l' later,
        In l' (loans (data s')) -> Loan.id l' = loanId ->
        App.LoanStatusBadge later l' = App.Devolvido)
  /\ books (data s') = books (data s)
  /\ students (data s') = students (data s).
Proof.
  cbv zeta. unfold handleReturnBook. cbn. split; [|split; [|auto]].
  - induction (loans (data s)) as [|l ls IH]; cbn; constructor; [|exact IH].
    destruct (String.eqb (Loan.id l) loanId); cbn; auto.
  - intros l' later Hin Hid. apply in_map_iff in Hin.
    destruct Hin as (l & <- & _).
    destruct (String.eqb_spec (Loan.id l) loanId) as [_|Hne];
      [reflexivity|contradiction].
Qed.

End WithPlatform.

(** X20. In the local-storage variant, a confirmed deletion removes from
    the collection of the given kind exactly the records with the given id,
    leaves the two other collections as they are (the loans of a deleted book
    or student stay) and clears the pending deletion. *)
Theorem local_executeDelete_no_cascade (s : State) (c : App.ConfirmDelete) :
  confirmDelete s = Some c ->
  let s' := executeDelete s in
  confirmDelete s' = None
  /\ match App.delete_type c with
     | App.type_book =>
         (forall b, In b (books (data s')) <->
                    In b (books (data s)) /\ Book.id b <> App.delete_id c)
         /\ students (data s') = students (data s)
         /\ loans (data s') = loans (data s)
     | App.type_student =>
         (forall st, In st (students (data s')) <->
                     In st (students (data s)) /\ Student.id st <> App.delete_id c)
         /\ books (data s') = books (data s)
         /\ loans (data s') = loans (data s)
     | App.type_loan =>
         (forall l, In l (loans (data s')) <->
                    In l (loans (data s)) /\ Loan.id l <> App.delete_id c)
         /\ books (data s') = books (data s)
         /\ students (data s') = students (data s)
     end.
Proof.
  intros C. cbv zeta. unfold executeDelete. rewrite C.
  split; [reflexivity|].
  destruct (App.delete_type c); cbn; (split; [|auto]); intros x;
    rewrite filter_In, negb_true_iff, String.eqb_neq; reflexivity.
Qed.

(** X22. In the local-storage variant, saving the book form or the student
    form never removes a record nor changes an id: in edit mode the ids of
    the collection are as before (editing a record that is no longer there
    changes nothing), otherwise the generated id is appended.  Each form
    writes its own collection only, so the loans keep the student name and
    class and the book title they were made with; the form is closed. *)
Theorem local_save_keeps_ids (s : State) (uuid : string) :
  (forall f,
     let s' := handleSaveBook f uuid s in
     map Book.id (books (data s'))
     = (map Book.id (books (data s))
        ++ match editingBook s with Some _ => [] | None => [uuid] end)%list
     /\ (forall eb, editingBook s = Some eb ->
         ~ In (Book.id eb) (map Book.id (books (data s))) ->
         data s' = data s)
     /\ students (data s') = students (data s)
     /\ loans (data s') = loans (data s)
     /\ showBookForm s' = false /\ editingBook s' = None)
  /\ (forall d,
        let s' := handleSaveStudent d uuid s in
        map Student.id (students (data s'))
        = (map Student.id (students (data s))
           ++ match editingStudent s with Some _ => [] | None => [uuid] end)%list
        /\ (forall es, editingStudent s = Some es ->
            ~ In (Student.id es) (map Student.id (students (data s))) ->
            data s' = data s)
        /\ books (data s') = books (data s)
        /\ loans (data s') = loans (data s)
        /\ showStudentForm s' = false /\ editingStudent s' = None).
Proof.
  split.
  - intros f. cbv zeta. unfold handleSaveBook.
    destruct (editingBook s) as [eb|]; cbn.
    + rewrite app_nil_r, map_map. split; [|split; [|auto]].
      * apply map_ext. intros b. now destruct (String.eqb (Book.id b) (Book.id eb)).
      * intros eb' E Hn. inversion E; subst eb'. destruct (data s) as [bs ss ls].
        cbn in *. unfold with_books. cbn. f_equal.
        induction bs as [|b bs IH]; [reflexivity|]. cbn in *.
        destruct (String.eqb_spec (Book.id b) (Book.id eb)) as [Eq|_];
          [exfalso; auto|].
        f_equal. apply IH. auto.
    + rewrite map_app. cbn. split; [reflexivity|]. split; [discriminate|auto].
  - intros d. cbv zeta. unfold handleSaveStudent.
    destruct (editingStudent s) as [es|]; cbn.
    + rewrite app_nil_r, map_map. split; [|split; [|auto]].
      * apply map_ext. intros st.
        now destruct (String.eqb (Student.id st) (Student.id es)).
      * intros es' E Hn. inversion E; subst es'. destruct (data s) as [bs ss ls].
        cbn in *. unfold with_students. cbn. f_equal.
        induction ss as [|st ss IH]; [reflexivity|]. cbn in *.
        destruct (String.eqb_spec (Student.id st) (Student.id es)) as [Eq|_];
          [exfalso; auto|].
        f_equal. apply IH. auto.
    + rewrite map_app. cbn. split; [reflexivity|]. split; [discriminate|auto].
Qed.

(** X17 on the reference platform: Ana Silva's returned loan is opened in
    the form and saved for the same book and student. *)
Lemma local_handleSaveLoan_edit_keeps_loan_witness :
  editingLoan (Scenario.local_state (Some (Db.rowToLoan Scenario.returned_loan)) None)
    = Some (Db.rowToLoan Scenario.returned_loan)
  /\ find (fun b => String.eqb (Book.id b) (App.form_bookId Scenario.form_ana_upper))
       (books (data (Scenario.local_state
                       (Some (Db.rowToLoan Scenario.returned_loan)) None)))
     = Some (Db.rowToBook Scenario.dune)
  /\ map (fun l => (Loan.id l, Loan.loanDate l, Loan.dueDate l, Loan.returnDate l))
       (loans (data (handleSaveLoan (P := Reference.platform)
                       Scenario.form_ana_upper Scenario.june_10 "u1" "u2"
                       (Scenario.local_state
                          (Some (Db.rowToLoan Scenario.returned_loan)) None))))
     = [("l1", Scenario.january_01, Scenario.january_08, Some Scenario.january_10)].
Proof.
  split; [reflexivity|]. split; [reflexivity|].
  exact (proj1 (local_handleSaveLoan_edit_keeps_loan (P := Reference.platform)
                  Scenario.form_ana_upper Scenario.june_10 "u1" "u2"
                  (Scenario.local_state
                     (Some (Db.rowToLoan Scenario.returned_loan)) None)
                  (Db.rowToLoan Scenario.returned_loan)
                  (Db.rowToBook Scenario.dune) eq_refl eq_refl)).
Defined.

(** X18 in New York, at noon on 2024-03-09: the name typed with blanks
    around it matches no student, and a student of that very name is added;
    the loan is due at noon on 2024-03-16, the clocks going forward in
    between. *)
Lemma local_handleSaveLoan_create_witness :
  editingLoan (Scenario.local_state None None) = None
  /\ exists student,
       loans (data (handleSaveLoan (P := Scenario.new_york) Scenario.form_ana
                      Scenario.march_09_noon "u1" "u2"
                      (Scenario.local_state None None)))
       = [Db.rowToLoan Scenario.returned_loan;
          {| Loan.id := "u2";
             Loan.studentName := Student.name student;
             Loan.studentClass := Student.class student;
             Loan.bookId := Some "b1";
             Loan.bookTitle := "Dune";
             Loan.loanDate := Scenario.march_09_noon;
             Loan.dueDate := Scenario.march_16_noon;
             Loan.returnDate := None |}]
       /\ (student = {| Student.id := "u1";
                        Student.name := "  Ana Silva ";
                        Student.class := "9A" |}
           /\ students (data (handleSaveLoan (P := Scenario.new_york)
                                Scenario.form_ana Scenario.march_09_noon "u1" "u2"
                                (Scenario.local_state None None)))
              = [Db.rowToStudent Scenario.ana; student])
       /\ books (data (handleSaveLoan (P := Scenario.new_york) Scenario.form_ana
                         Scenario.march_09_noon "u1" "u2"
                         (Scenario.local_state None None)))
          = [Db.rowToBook Scenario.dune]
       /\ showLoanForm (handleSaveLoan (P := Scenario.new_york) Scenario.form_ana
                          Scenario.march_09_noon "u1" "u2"
                          (Scenario.local_state None None)) = false
       /\ (wall_clock_exists (P := Scenario.new_york)
             (LocalTime (P := Scenario.new_york) Scenario.march_09_noon
              + 7 * millisecondsInDay) ->
           localDay (P := Scenario.new_york)
             (addDays (P := Scenario.new_york) Scenario.march_09_noon 7)
           = localDay (P := Scenario.new_york) Scenario.march_09_noon + 7
           /\ localTime (P := Scenario.new_york)
                (addDays (P := Scenario.new_york) Scenario.march_09_noon 7)
              = localTime (P := Scenario.new_york) Scenario.march_09_noon).
Proof.
  split; [reflexivity|].
  exact (local_handleSaveLoan_create (P := Scenario.new_york) Scenario.form_ana
           Scenario.march_09_noon "u1" "u2" (Scenario.local_state None None)
           eq_refl).
Defined.

(** X20: Dune is deleted while Ana Silva's loan of it is in the snapshot. *)
Lemma local_executeDelete_no_cascade_witness :
  confirmDelete (Scenario.local_state None (Some Scenario.delete_dune))
    = Some Scenario.delete_dune
  /\ confirmDelete
       (executeDelete (Scenario.local_state None (Some Scenario.delete_dune)))
     = None
  /\ (forall b,
        In b (books (data (executeDelete
                             (Scenario.local_state None (Some Scenario.delete_dune)))))
        <-> In b [Db.rowToBook Scenario.dune] /\ Book.id b <> "b1")
  /\ students (data (executeDelete
                       (Scenario.local_state None (Some Scenario.delete_dune))))
     = [Db.rowToStudent Scenario.ana]
  /\ loans (data (executeDelete
                    (Scenario.local_state None (Some Scenario.delete_dune))))
     = [Db.rowToLoan Scenario.returned_loan].
Proof.
  split; [reflexivity|].
  exact (local_executeDelete_no_cascade
           (Scenario.local_state None (Some Scenario.delete_dune))
           Scenario.delete_dune eq_refl).
Defined.

End LocalFacts.

(** ** src/components/ChangePasswordModal.tsx *)

Module PasswordFacts.
Import ChangePasswordModal.

Lemma strict_equal_eq (a b : jsstring) : strict_equal a b = true <-> a = b.
Proof.
  revert b. induction a as [|x a IH]; intros [|y b]; cbn; split;
    try congruence; try discriminate.
  - intros H. apply andb_true_iff in H. destruct H as [Hx Hab].
    apply N.eqb_eq in Hx. apply IH in Hab. congruence.
  - intros H. inversion H; subst. rewrite N.eqb_refl. cbn. now apply IH.
Qed.

(** X21. The password form calls the service exactly when the new password
    has at least 6 code units and equals its confirmation, and never with
    anything but the new password; [onSuccess] is called exactly when, in
    addition, the service reports no error, and that is the only case that
    ends without an error message.  A password that is too short is reported
    as such whether or not the confirmation matches; a mismatch is reported
    only for a password that is long enough.  A rejected form leaves the
    loading flag as it was; after a call it is off. *)
Theorem handleSubmit_validates (newPassword confirmPassword : jsstring)
    (updateUser : jsstring -> UpdateUser) (s : State) :
  let r := handleSubmit newPassword confirmPassword updateUser s in
  (sent (snd r) = Some newPassword
   <-> (6 <= List.length newPassword)%nat /\ newPassword = confirmPassword)
  /\ (sent (snd r) = None \/ sent (snd r) = Some newPassword)
  /\ (succeeded (snd r) = true
      <-> (6 <= List.length newPassword)%nat /\ newPassword = confirmPassword
          /\ updateUser newPassword = Updated)
  /\ (error (fst r) = None <-> succeeded (snd r) = true)
  /\ (error (fst r) = Some TooShort <-> (List.length newPassword < 6)%nat)
  /\ (error (fst r) = Some Mismatch
      <-> (6 <= List.length newPassword)%nat /\ newPassword <> confirmPassword)
  /\ (sent (snd r) = None -> loading (fst r) = loading s)
  /\ (sent (snd r) <> None -> loading (fst r) = false).
Proof.
  cbv zeta. unfold handleSubmit.
  destruct (Nat.ltb_spec (List.length newPassword) 6) as [Hlt|Hge].
  - cbn. intuition (try lia; try congruence; try discriminate).
  - destruct (strict_equal newPassword confirmPassword) eqn:Eq; cbn [negb].
    + apply strict_equal_eq in Eq.
      destruct (updateUser newPassword) eqn:U; cbn;
        intuition (try lia; try congruence; try discriminate).
    + assert (Hne : newPassword <> confirmPassword).
      { intros H. apply strict_equal_eq in H. congruence. }
      cbn. intuition (try lia; try congruence; try discriminate).
Qed.

End PasswordFacts.
